(** * The WF-RAC air-conditioner driver: synchronisation and command dispatch

    A shallow embedding of [drivers/wfrac/device.js] (class [WFRACDevice])
    and of the base class [lib/Device] it extends (methods [sync],
    [updateDevice], [setRegistered]).

    - JavaScript values are a small inductive type; objects are association
      lists, because [Object.entries] and in-place property assignment
      depend on the order of the keys.
    - The methods are [async]; the host runs them one at a time and the
      only suspension points are the transport calls, so a method is a
      function from the device to an outcome and a new device: a state
      monad with exceptions.
    - The transport ([lib/Client]) is a field of the device, as in the
      source; what it answers may depend on the calls made so far, which
      the device records.
    - [lib/Utils], [lib/Enums], the localisation function and the engine's
      conversions are not part of the driver; they are the fields of a
      [Runtime] the whole development is parametric in. *)

From Stdlib Require Import String List ZArith QArith Bool Lia DecimalString.
From stdpp Require Import gmap strings.
Import ListNotations.

Local Open Scope string_scope.
Local Open Scope list_scope.

(** ** JavaScript values *)

(** A number is a rational or [NaN]; the infinities do not occur in the
    payloads of the device. *)
Inductive number : Type :=
| NaN
| Fin (q : Q).

(** A value as [JSON.parse] produces it, and [undefined].  An array is an
    object whose keys are its indices: the driver never reads one. *)
#[warnings="-register-all"] Inductive value : Type :=
| VUndef
| VNull
| VBool (b : bool)
| VNum (n : number)
| VStr (s : string)
| VObj (fields : list (string * value)).

Definition num (z : Z) : value := VNum (Fin (inject_Z z)).

(** [!v] is [negb (truthy v)]. *)
Definition truthy (v : value) : bool :=
  match v with
  | VUndef | VNull => false
  | VBool b => b
  | VNum NaN => false
  | VNum (Fin q) => negb (Qeq_bool q 0)
  | VStr s => negb (String.eqb s "")
  | VObj _ => true
  end.

(** [a < b] on numbers: false as soon as one side is [NaN]. *)
Definition number_ltb (a b : number) : bool :=
  match a, b with
  | Fin x, Fin y => match Qcompare x y with Lt => true | _ => false end
  | _, _ => false
  end.

(** ** Objects: association lists in key order *)

Module Obj.

Fixpoint get (k : string) (o : list (string * value)) : option value :=
  match o with
  | [] => None
  | (k', v) :: o' => if String.eqb k k' then Some v else get k o'
  end.

(** [k in o] *)
Definition has (k : string) (o : list (string * value)) : bool :=
  match get k o with Some _ => true | None => false end.

(** [o[k] = v]: an existing key keeps its place, a new one goes last. *)
Fixpoint set (k : string) (v : value) (o : list (string * value))
  : list (string * value) :=
  match o with
  | [] => [(k, v)]
  | (k', v') :: o' =>
      if String.eqb k k' then (k', v) :: o' else (k', v') :: set k v o'
  end.

(** [delete o[k]] *)
Fixpoint remove (k : string) (o : list (string * value))
  : list (string * value) :=
  match o with
  | [] => []
  | (k', v') :: o' =>
      if String.eqb k k' then remove k o' else (k', v') :: remove k o'
  end.

End Obj.

(** [v.k] where [v] is known to be an object or a non-nullish primitive:
    a missing key reads as [undefined].  The keys the driver reads
    ([airconStat], [wireless], [firmVer], ...) are not properties of the
    primitive wrappers. *)
Definition field (k : string) (v : value) : value :=
  match v with
  | VObj o => match Obj.get k o with Some x => x | None => VUndef end
  | _ => VUndef
  end.

Definition nullish (v : value) : bool :=
  match v with
  | VUndef | VNull => true
  | _ => false
  end.

Definition is_object (v : value) : bool :=
  match v with
  | VObj _ => true
  | _ => false
  end.

(** The three ways the driver can raise a [TypeError]. *)
Inductive type_error : Type :=
| ReadOfNullish (v : value) (k : string)      (* v.k, v null or undefined *)
| InOfPrimitive (k : string) (v : value)      (* k in v, v not an object *)
| AssignToPrimitive (v : value) (k : string). (* v[k] = x, v not an object *)

(** ** What the driver takes from outside *)

(** [lib/Utils] ([blank], [filled]), the tables of [lib/Enums], the
    host's localisation [homey.__] and the engine's conversions. *)
Record Runtime : Type := {
  blank : value -> bool;
  filled : value -> bool;
  AirFlow : value -> value;
  HorizontalPosition : value -> value;
  OperationMode : value -> value;
  VerticalPosition : value -> value;
  AirFlowNames : value -> value;
  HorizontalPositionNames : value -> value;
  OperationModeNames : value -> value;
  VerticalPositionNames : value -> value;
  homey__ : string -> value -> string;
  NumberToString : number -> string;
  ObjectToString : list (string * value) -> string;
  StringToNumber : string -> number;
  type_error_message : type_error -> string;
}.

(** ** The transport and the device *)

Inductive outcome (A : Type) : Type :=
| Ok (a : A)
| Throw (message : string).
Arguments Ok {A} a.
Arguments Throw {A} message.

(** A call on the transport, with the state sent for [setAirconStat]. *)
Inductive call : Type :=
| GetAirconStat
| SetAirconStat (stat : value)
| UpdateAccountInfo.

(** [lib/Client]: each method answers or throws, given the calls made
    before it (oldest first). *)
Record Client : Type := {
  getAirconStat : list call -> outcome value;
  setAirconStat : list call -> value -> outcome value;
  updateAccountInfo : list call -> outcome unit;
}.

(** The device: the fields of the instance, then what the host keeps for
    it, then the calls made on the transport.  [registered] is only ever
    tested for truth, so it is a boolean. *)
Record device : Type := {
  registered : bool;
  accounts : value;
  firmware : value;
  contents : value;
  airconStat : value;
  client : Client;
  available : bool;
  unavailableMessage : option string;
  warning : option string;
  capabilities : gset string;
  capabilityValues : gmap string value;
  settings : gmap string value;
  store : gmap string value;
  errors : list string;
  calls : list call;
}.

(** Field updates. *)
Definition with_registered (b : bool) (d : device) : device :=
  {| registered := b; accounts := accounts d; firmware := firmware d;
     contents := contents d; airconStat := airconStat d; client := client d;
     available := available d; unavailableMessage := unavailableMessage d;
     warning := warning d; capabilities := capabilities d;
     capabilityValues := capabilityValues d; settings := settings d;
     store := store d; errors := errors d; calls := calls d |}.

Definition with_accounts (v : value) (d : device) : device :=
  {| registered := registered d; accounts := v; firmware := firmware d;
     contents := contents d; airconStat := airconStat d; client := client d;
     available := available d; unavailableMessage := unavailableMessage d;
     warning := warning d; capabilities := capabilities d;
     capabilityValues := capabilityValues d; settings := settings d;
     store := store d; errors := errors d; calls := calls d |}.

Definition with_firmware (v : value) (d : device) : device :=
  {| registered := registered d; accounts := accounts d; firmware := v;
     contents := contents d; airconStat := airconStat d; client := client d;
     available := available d; unavailableMessage := unavailableMessage d;
     warning := warning d; capabilities := capabilities d;
     capabilityValues := capabilityValues d; settings := settings d;
     store := store d; errors := errors d; calls := calls d |}.

Definition with_contents (v : value) (d : device) : device :=
  {| registered := registered d; accounts := accounts d;
     firmware := firmware d; contents := v; airconStat := airconStat d;
     client := client d; available := available d;
     unavailableMessage := unavailableMessage d; warning := warning d;
     capabilities := capabilities d;
     capabilityValues := capabilityValues d; settings := settings d;
     store := store d; errors := errors d; calls := calls d |}.

Definition with_airconStat (v : value) (d : device) : device :=
  {| registered := registered d; accounts := accounts d;
     firmware := firmware d; contents := contents d; airconStat := v;
     client := client d; available := available d;
     unavailableMessage := unavailableMessage d; warning := warning d;
     capabilities := capabilities d;
     capabilityValues := capabilityValues d; settings := settings d;
     store := store d; errors := errors d; calls := calls d |}.

Definition with_availability (b : bool) (m : option string) (d : device)
  : device :=
  {| registered := registered d; accounts := accounts d;
     firmware := firmware d; contents := contents d;
     airconStat := airconStat d; client := client d; available := b;
     unavailableMessage := m; warning := warning d;
     capabilities := capabilities d;
     capabilityValues := capabilityValues d; settings := settings d;
     store := store d; errors := errors d; calls := calls d |}.

Definition with_warning (w : option string) (d : device) : device :=
  {| registered := registered d; accounts := accounts d;
     firmware := firmware d; contents := contents d;
     airconStat := airconStat d; client := client d;
     available := available d; unavailableMessage := unavailableMessage d;
     warning := w; capabilities := capabilities d;
     capabilityValues := capabilityValues d; settings := settings d;
     store := store d; errors := errors d; calls := calls d |}.

Definition with_capabilityValues (m : gmap string value) (d : device)
  : device :=
  {| registered := registered d; accounts := accounts d;
     firmware := firmware d; contents := contents d;
     airconStat := airconStat d; client := client d;
     available := available d; unavailableMessage := unavailableMessage d;
     warning := warning d; capabilities := capabilities d;
     capabilityValues := m; settings := settings d;
     store := store d; errors := errors d; calls := calls d |}.

Definition with_settings (m : gmap string value) (d : device) : device :=
  {| registered := registered d; accounts := accounts d;
     firmware := firmware d; contents := contents d;
     airconStat := airconStat d; client := client d;
     available := available d; unavailableMessage := unavailableMessage d;
     warning := warning d; capabilities := capabilities d;
     capabilityValues := capabilityValues d; settings := m;
     store := store d; errors := errors d; calls := calls d |}.

Definition with_store (m : gmap string value) (d : device) : device :=
  {| registered := registered d; accounts := accounts d;
     firmware := firmware d; contents := contents d;
     airconStat := airconStat d; client := client d;
     available := available d; unavailableMessage := unavailableMessage d;
     warning := warning d; capabilities := capabilities d;
     capabilityValues := capabilityValues d; settings := settings d;
     store := m; errors := errors d; calls := calls d |}.

Definition with_errors (l : list string) (d : device) : device :=
  {| registered := registered d; accounts := accounts d;
     firmware := firmware d; contents := contents d;
     airconStat := airconStat d; client := client d;
     available := available d; unavailableMessage := unavailableMessage d;
     warning := warning d; capabilities := capabilities d;
     capabilityValues := capabilityValues d; settings := settings d;
     store := store d; errors := l; calls := calls d |}.

Definition with_calls (l : list call) (d : device) : device :=
  {| registered := registered d; accounts := accounts d;
     firmware := firmware d; contents := contents d;
     airconStat := airconStat d; client := client d;
     available := available d; unavailableMessage := unavailableMessage d;
     warning := warning d; capabilities := capabilities d;
     capabilityValues := capabilityValues d; settings := settings d;
     store := store d; errors := errors d; calls := l |}.

(** ** Methods as state transformers that may throw *)

Definition M (A : Type) : Type := device -> outcome A * device.

Definition ret {A : Type} (a : A) : M A := fun d => (Ok a, d).

Definition throw {A : Type} (message : string) : M A :=
  fun d => (Throw message, d).

Definition bind {A B : Type} (m : M A) (k : A -> M B) : M B :=
  fun d =>
    match m d with
    | (Ok a, d') => k a d'
    | (Throw e, d') => (Throw e, d')
    end.

(** [try { m } catch (err) { h err.message }]: the handler starts in the
    state the exception left. *)
Definition try_catch {A : Type} (m : M A) (h : string -> M A) : M A :=
  fun d =>
    match m d with
    | (Ok a, d') => (Ok a, d')
    | (Throw e, d') => h e d'
    end.

Definition gets {A : Type} (f : device -> A) : M A := fun d => (Ok (f d), d).

Definition modify (f : device -> device) : M unit := fun d => (Ok tt, f d).

Declare Scope js_scope.
Delimit Scope js_scope with js.
Notation "x <- m ;; k" := (bind m (fun x => k))
  (at level 100, m at next level, k at level 200, right associativity)
  : js_scope.
Notation "m ;; k" := (bind m (fun _ => k))
  (at level 100, k at level 200, right associativity) : js_scope.

Definition run {A : Type} (m : M A) (d : device) : device := snd (m d).
Definition result {A : Type} (m : M A) (d : device) : outcome A := fst (m d).

(** The calls a method added to those of [d]. *)
Definition new_calls (d d' : device) : list call :=
  skipn (length (calls d)) (calls d').

Definition is_registration (c : call) : bool :=
  match c with
  | UpdateAccountInfo => true
  | _ => false
  end.

(** How often the account was sent to the unit between [d] and [d']. *)
Definition registrations (d d' : device) : nat :=
  length (List.filter is_registration (new_calls d d')).

(** ** The driver *)

Section Driver.

Context (R : Runtime).

Local Open Scope js_scope.

(** *** The engine *)

(** [v.k]: reading a property of [null] or [undefined] throws. *)
Definition get_prop (v : value) (k : string) : M value :=
  if nullish v then throw (type_error_message R (ReadOfNullish v k))
  else ret (field k v).

(** [k in v]: throws unless [v] is an object. *)
Definition has_prop (k : string) (v : value) : M bool :=
  match v with
  | VObj o => ret (Obj.has k o)
  | _ => throw (type_error_message R (InOfPrimitive k v))
  end.

(** [delete v.k]: nothing to do on a primitive. *)
Definition delete_prop (k : string) (v : value) : value :=
  match v with
  | VObj o => VObj (Obj.remove k o)
  | _ => v
  end.

(** [v[k] = x] in strict mode: throws unless [v] is an object. *)
Definition set_prop (v : value) (k : string) (x : value) : M value :=
  match v with
  | VObj o => ret (VObj (Obj.set k x o))
  | _ => throw (type_error_message R (AssignToPrimitive v k))
  end.

(** [String(v)], also the conversion of a template literal. *)
Definition String_ (v : value) : string :=
  match v with
  | VUndef => "undefined"
  | VNull => "null"
  | VBool true => "true"
  | VBool false => "false"
  | VNum n => NumberToString R n
  | VStr s => s
  | VObj o => ObjectToString R o
  end.

(** [Number(v)] *)
Definition Number (v : value) : number :=
  match v with
  | VUndef => NaN
  | VNull => Fin 0
  | VBool true => Fin 1
  | VBool false => Fin 0
  | VNum n => n
  | VStr s => StringToNumber R s
  | VObj o => StringToNumber R (ObjectToString R o)
  end.

(** [v === s] for a string literal [s]. *)
Definition strict_eq_string (v : value) (s : string) : bool :=
  match v with
  | VStr s' => String.eqb s' s
  | _ => false
  end.

(** [new Error(w).message] for [w] a string or [null]. *)
Definition Error_message (w : option string) : string :=
  match w with
  | Some s => s
  | None => "null"
  end.

(** *** The host: what [Homey.Device] keeps for the device

    The host is not part of the driver.  Its calls are taken to have
    their effect at once: [getAvailable] reads what [setAvailable] and
    [setUnavailable] wrote last, a capability holds the value set last,
    [setSettings] stores the keys it is given.  Every call that changes
    something is followed by [.catch(this.error)] in the source: the
    host's own failures are logged and go no further.  [this.log] is not
    modelled; [this.error] appends its text to [errors]. *)

Definition error (message : string) : M unit :=
  modify (fun d => with_errors (errors d ++ [message]) d).

Definition getAvailable : M bool := gets available.

Definition setAvailable : M unit := modify (with_availability true None).

Definition setUnavailable (message : string) : M unit :=
  modify (with_availability false (Some message)).

Definition setWarning (message : string) : M unit :=
  modify (with_warning (Some message)).

Definition unsetWarning : M unit := modify (with_warning None).

Definition hasCapability (c : string) : M bool :=
  gets (fun d => bool_decide (c ∈ capabilities d)).

Definition setCapabilityValue (c : string) (v : value) : M unit :=
  modify (fun d => with_capabilityValues (<[c := v]> (capabilityValues d)) d).

(** [setSettings(o)] stores the keys of [o] and keeps the others. *)
Definition setSettings (o : list (string * value)) : M unit :=
  modify (fun d =>
    with_settings
      (fold_left (fun m kv => <[fst kv := snd kv]> m) o (settings d)) d).

Definition setStoreValue (k : string) (v : value) : M unit :=
  modify (fun d => with_store (<[k := v]> (store d)) d).

(** *** The transport: [this.client] *)

Definition transport {A : Type} (c : call)
    (answer : Client -> list call -> outcome A) : M A :=
  fun d => (answer (client d) (calls d), with_calls (calls d ++ [c]) d).

Definition client_getAirconStat : M value :=
  transport GetAirconStat getAirconStat.

Definition client_setAirconStat (stat : value) : M value :=
  transport (SetAirconStat stat) (fun c h => setAirconStat c h stat).

Definition client_updateAccountInfo : M unit :=
  transport UpdateAccountInfo updateAccountInfo.

(** *** [lib/Device]: [setRegistered(registered)], called with a boolean *)

Definition setRegistered (b : bool) : M unit :=
  setStoreValue "registered" (VBool b) ;;
  modify (with_registered b).

(** *** [WFRACDevice]: warnings *)

(** [getAccountWarning()]: the key of the warning, or [null]. *)
Definition getAccountWarning (d : device) : option string :=
  if registered d then None
  else if negb (truthy (accounts d)) then None
  else if number_ltb (Fin 3) (Number (accounts d))
       then Some "warning.accounts"
       else Some "warning.unregistered".

(** The text [setFirmwareWarning] shows for the firmware [f]. *)
Definition firmware_warning (f : value) : string :=
  homey__ R "warning.firmware" (VObj [("firmware", f)]).

(** [setFirmwareWarning()] *)
Definition setFirmwareWarning : M bool :=
  f <- gets firmware ;;
  if negb (truthy f) then ret false
  else if strict_eq_string f "WF-RAC" then ret false
  else
    error ("Firmware '" ++ String_ f ++ "' is not supported") ;;
    setWarning (firmware_warning f) ;;
    ret true.

(** *** [WFRACDevice]: account *)

(** [registerAccount()] *)
Definition registerAccount : M unit :=
  av <- getAvailable ;;
  if negb av then ret tt
  else
    client_updateAccountInfo ;;
    setRegistered true.

(** [syncAccount()] *)
Definition syncAccount : M unit :=
  reg <- gets registered ;;
  if reg then ret tt
  else
    av <- getAvailable ;;
    if negb av then ret tt
    else
      acc <- gets accounts ;;
      if negb (truthy acc)
      then error "[Sync] [Account] Number of accounts not set"
      else
        (if number_ltb (Number acc) (Fin 4) then registerAccount
         else ret tt) ;;
        w <- gets getAccountWarning ;;
        match w with
        | None => unsetWarning
        | Some key => setWarning (homey__ R key VUndef) ;; error key
        end.

(** *** [WFRACDevice]: the steps of a synchronisation *)

(** [syncAirconStat(data)] *)
Definition syncAirconStat (data : value) : M unit :=
  data <- (if negb (truthy data) then client_getAirconStat else ret data) ;;
  if blank R data then ret tt
  else
    setAvailable ;;
    stat <- get_prop data "airconStat" ;;
    modify (with_airconStat stat) ;;
    let data := delete_prop "airconStat" data in
    modify (with_contents data) ;;
    n <- has_prop "numOfAccount" data ;;
    modify (with_accounts
              (if n then VNum (Number (field "numOfAccount" data))
               else VNull)) ;;
    f <- has_prop "firmType" data ;;
    modify (with_firmware (if f then field "firmType" data else VNull)).

(** One block of [syncCapabilities]:
    [if (k in stat && this.hasCapability(guard))
       this.setCapabilityValue(c, convert(stat.k))]. *)
Definition syncCapability (stat : value) (k guard c : string)
    (convert : value -> value) : M unit :=
  present <- has_prop k stat ;;
  if present
  then
    has <- hasCapability guard ;;
    if has then setCapabilityValue c (convert (field k stat)) else ret tt
  else ret tt.

Definition same (v : value) : value := v.

(** The blocks of [syncCapabilities], on [stat = this.airconStat]. *)
Definition syncCapabilitiesOf (stat : value) : M unit :=
  syncCapability stat "entrust" "3d_auto" "3d_auto" same ;;
  syncCapability stat "airFlow" "fan_speed" "fan_speed" (AirFlow R) ;;
  syncCapability stat "windDirectionLR" "horizontal_position"
    "horizontal_position" (HorizontalPosition R) ;;
  syncCapability stat "indoorTemp" "measure_temperature"
    "measure_temperature" same ;;
  syncCapability stat "operation" "onoff" "onoff" same ;;
  syncCapability stat "operationMode" "operating_mode" "operating_mode"
    (OperationMode R) ;;
  syncCapability stat "outdoorTemp" "measure_temperature"
    "measure_temperature.outdoor" same ;;
  syncCapability stat "presetTemp" "target_temperature"
    "target_temperature" same ;;
  syncCapability stat "windDirectionUD" "vertical_position"
    "vertical_position" (VerticalPosition R).

(** [syncCapabilities()] *)
Definition syncCapabilities : M unit :=
  stat <- gets airconStat ;;
  if negb (truthy stat) then ret tt else syncCapabilitiesOf stat.

(** [syncSettings()] *)
Definition syncSettings : M unit :=
  c <- gets contents ;;
  if negb (truthy c) then ret tt
  else
    let settings := [] in
    acc <- gets accounts ;;
    let settings :=
      if truthy acc then Obj.set "accounts" (VStr (String_ acc)) settings
      else settings in
    fw <- gets firmware ;;
    let settings :=
      if filled R fw then Obj.set "firmware_type" fw settings
      else settings in
    wireless <- get_prop c "wireless" ;;
    wifi <- get_prop wireless "firmVer" ;;
    let settings :=
      if filled R wifi then Obj.set "wifi_firmware" wifi settings
      else settings in
    mcu <- get_prop c "mcu" ;;
    mcuVer <- get_prop mcu "firmVer" ;;
    let settings :=
      if filled R mcuVer then Obj.set "mcu_firmware" mcuVer settings
      else settings in
    (if filled R (VObj settings) then setSettings settings else ret tt) ;;
    warned <- setFirmwareWarning ;;
    if warned then ret tt else unsetWarning.

(** *** [lib/Device]: [sync] and [updateDevice] *)

(** The [catch] block of [sync]. *)
Definition sync_catch (message : string) : M unit :=
  let msg := homey__ R message VUndef in
  error ("Sync error: " ++ message) ;;
  setUnavailable msg.

(** [sync(data)] *)
Definition sync (data : value) : M unit :=
  try_catch
    (syncAirconStat data ;;
     syncCapabilities ;;
     syncSettings ;;
     syncAccount)
    sync_catch.

(** The loop of [updateDevice]:
    [for (const [key, value] of Object.entries(properties))
       this.airconStat[key] = value]. *)
Fixpoint assign_properties (properties : list (string * value)) : M unit :=
  match properties with
  | [] => ret tt
  | (key, v) :: rest =>
      stat <- gets airconStat ;;
      stat' <- set_prop stat key v ;;
      modify (with_airconStat stat') ;;
      assign_properties rest
  end.

(** The [catch] block of [updateDevice]. *)
Definition update_catch (message : string) : M unit :=
  let msg := homey__ R message VUndef in
  error ("Update error: " ++ message) ;;
  throw msg.

(** [updateDevice(properties)], on the entries of [properties]. *)
Definition updateDevice (properties : list (string * value)) : M unit :=
  av <- getAvailable ;;
  if negb av then error "Update device: Device not available"
  else
    try_catch
      (reg <- gets registered ;;
       (if negb reg
        then w <- gets getAccountWarning ;; throw (Error_message w)
        else ret tt) ;;
       syncAirconStat VNull ;;
       assign_properties properties ;;
       stat <- gets airconStat ;;
       response <- client_setAirconStat stat ;;
       sync response)
      update_catch.

(** *** [WFRACDevice]: capability listeners *)

(** Modelled from the spec: [queue] is called by the listeners and is
    not defined in the source files.  The command dispatcher of the
    specification applies the patch of a capability change through
    [updateDevice]; that is what [queue] does here. *)
Definition queue (patch : list (string * value)) : M unit :=
  updateDevice patch.

Definition onCapabilityFanSpeed (v : value) : M unit :=
  queue [("airFlow", AirFlowNames R v)].

Definition onCapabilityHorizontalPosition (v : value) : M unit :=
  queue [("windDirectionLR", HorizontalPositionNames R v);
         ("entrust", VBool false)].

Definition onCapability3dAuto (v : value) : M unit :=
  queue [("entrust", v)].

Definition onCapabilityOnOff (v : value) : M unit :=
  queue [("operation", v)].

Definition onCapabilityOperatingMode (v : value) : M unit :=
  queue [("operationMode", OperationModeNames R v)].

Definition onCapabilityTargetTemperature (v : value) : M unit :=
  queue [("presetTemp", v)].

Definition onCapabilityVerticalPosition (v : value) : M unit :=
  queue [("windDirectionUD", VerticalPositionNames R v);
         ("entrust", VBool false)].

End Driver.

(** * Vocabulary of the properties *)

(** The steps of [sync] that come before the account step. *)
Definition before_account (R : Runtime) (data : value) : M unit :=
  (syncAirconStat R data ;; syncCapabilities R ;; syncSettings R)%js.

(** The payload [syncAirconStat(data)] works on: [data] when it is truthy,
    the answer of the unit otherwise. *)
Definition payload_of (data : value) (d : device) : outcome value :=
  if negb (truthy data) then getAirconStat (client d) (calls d) else Ok data.

(** The device when [syncAirconStat(data)] has its payload in hand. *)
Definition fetched (data : value) (d : device) : device :=
  if negb (truthy data) then with_calls (calls d ++ [GetAirconStat]) d else d.



(** The device once [syncAirconStat] has stored the object [o]. *)
Definition loaded (R : Runtime) (o : list (string * value)) (d : device)
  : device :=
  with_firmware
    (if Obj.has "firmType" o then field "firmType" (VObj o) else VNull)
    (with_accounts
       (if Obj.has "numOfAccount" o
        then VNum (Number R (field "numOfAccount" (VObj o)))
        else VNull)
       (with_contents (VObj (Obj.remove "airconStat" o))
          (with_airconStat (field "airconStat" (VObj o))
             (with_availability true None d)))).

(** What the loop of [updateDevice] leaves in [airconStat]. *)
Definition merge (properties : list (string * value))
    (o : list (string * value)) : list (string * value) :=
  fold_left (fun o kv => Obj.set (fst kv) (snd kv) o) properties o.

(** The device once the state in [airconStat] has been sent. *)
Definition sent (d : device) : device :=
  with_calls (calls d ++ [SetAirconStat (airconStat d)]) d.

(** Steps run one after the other, as the [await]s in the [try] block. *)
Fixpoint sequence (steps : list (M unit)) : M unit :=
  match steps with
  | [] => ret tt
  | s :: rest => (s ;; sequence rest)%js
  end.

(** The steps in the [try] block of [sync(data)]. *)
Definition sync_steps (R : Runtime) (data : value) : list (M unit) :=
  [syncAirconStat R data; syncCapabilities R; syncSettings R; syncAccount R].


(** The payload of the scenario with the two version blocks a payload of
    the unit carries. *)
Definition scenario_with (w m : value) : list (string * value) :=
  [("airconStat", VObj [("operation", VBool true); ("airFlow", num 2)]);
   ("numOfAccount", num 1);
   ("firmType", VStr "WF-RAC");
   ("wireless", w);
   ("mcu", m)].

(** The message of the [TypeError] of the settings step on contents [c]
    without version blocks: the first missing block decides. *)
Definition version_error (R : Runtime) (c : value) : string :=
  if nullish (field "wireless" c)
  then type_error_message R (ReadOfNullish (field "wireless" c) "firmVer")
  else type_error_message R (ReadOfNullish (field "mcu" c) "firmVer").

(** The part of the device the settings step reads. *)
Definition settings_input (d : device) : value * value * value :=
  (accounts d, firmware d, contents d).

(** The condition under which the settings step gives [key] a value. *)
Definition settings_written (R : Runtime) (key : string)
    (input : value * value * value) : Prop :=
  let '(acc, fw, c) := input in
  key = "accounts" /\ truthy acc = true
  \/ key = "firmware_type" /\ filled R fw = true
  \/ key = "wifi_firmware"
     /\ filled R (field "firmVer" (field "wireless" c)) = true
  \/ key = "mcu_firmware"
     /\ filled R (field "firmVer" (field "mcu" c)) = true.

(** ** Relations between the device before and after a method *)

(** Every run of [m] takes the device to one related to it by [Rel],
    whether [m] returns or throws. *)
Definition stays {A : Type} (Rel : relation device) (m : M A) : Prop :=
  forall d, Rel d (snd (m d)).

(** [f] reads the same on both devices. *)
Definition same_on {B : Type} (f : device -> B) : relation device :=
  fun d d' => f d' = f d.

(** The second device has the calls of the first and then calls that
    satisfy [P]. *)
Definition appends (P : call -> Prop) : relation device :=
  fun d d' => exists l, calls d' = calls d ++ l /\ Forall P l.

(** The second device is the first with other capability values. *)
Definition only_capabilities : relation device :=
  fun d d' => exists m, d' = with_capabilityValues m d.

(** [f] is kept whenever the part [inv] of the device, which is itself
    kept, satisfies [cond]. *)
Definition guarded {I B : Type} (inv : device -> I) (cond : I -> Prop)
    (f : device -> B) : relation device :=
  fun d d' => inv d' = inv d /\ (cond (inv d) -> f d' = f d).

(** * Closed examples: a runtime, units and devices *)

Module Fixture.

(** Modelled from the spec: [lib/Utils] is not among the source files.
    The specification calls a value blank when it is empty; here
    [undefined], [null], the empty string and the object without keys
    are blank, and [filled] is the negation. *)
Definition is_blank (v : value) : bool :=
  match v with
  | VUndef | VNull => true
  | VStr s => String.eqb s ""
  | VObj [] => true
  | _ => false
  end.

Definition is_filled (v : value) : bool := negb (is_blank v).

(** The integer a value stands for, if any. *)
Definition code (v : value) : option Z :=
  match v with
  | VNum (Fin q) =>
      if Pos.eqb (Qden q) 1 then Some (Qnum q) else None
  | _ => None
  end.

(** A table of [lib/Enums] read at a code: [table[v]]. *)
Definition at_code (table : list string) (v : value) : value :=
  match code v with
  | Some z =>
      if Z.ltb z 0 then VUndef
      else match nth_error table (Z.to_nat z) with
           | Some name => VStr name
           | None => VUndef
           end
  | None => VUndef
  end.

Fixpoint index_of (name : string) (table : list string) (i : Z)
  : option Z :=
  match table with
  | [] => None
  | n :: rest =>
      if String.eqb n name then Some i else index_of name rest (i + 1)
  end.

(** The reverse table read at a name: [names[v]]. *)
Definition at_name (table : list string) (v : value) : value :=
  match v with
  | VStr name =>
      match index_of name table 0 with
      | Some i => num i
      | None => VUndef
      end
  | _ => VUndef
  end.

Definition flows : list string :=
  ["auto"; "lowest"; "low"; "high"; "highest"].
Definition horizontal : list string :=
  ["auto"; "left"; "middle"; "right"; "wide"].
Definition modes : list string := ["auto"; "cool"; "heat"; "fan"; "dry"].
Definition vertical : list string :=
  ["auto"; "highest"; "middle"; "normal"; "lowest"].

(** The sample localisation returns the key, with the firmware token
    after it when there is one. *)
Definition localise (key : string) (tokens : value) : string :=
  match field "firmware" tokens with
  | VStr f => key ++ ":" ++ f
  | _ => key
  end.

Definition number_to_string (n : number) : string :=
  match n with
  | NaN => "NaN"
  | Fin q =>
      if Pos.eqb (Qden q) 1 then NilZero.string_of_int (Z.to_int (Qnum q))
      else NilZero.string_of_int (Z.to_int (Qnum q)) ++ "/"
           ++ NilZero.string_of_uint (Pos.to_uint (Qden q))
  end.

Definition string_to_number (s : string) : number :=
  if String.eqb s "" then Fin 0
  else match NilZero.int_of_string s with
       | Some i => Fin (inject_Z (Z.of_int i))
       | None => NaN
       end.

Definition describe (v : value) : string :=
  match v with
  | VUndef => "undefined"
  | VNull => "null"
  | VBool true => "true"
  | VBool false => "false"
  | VNum n => number_to_string n
  | VStr s => s
  | VObj _ => "#<Object>"
  end.

Definition type_error_text (e : type_error) : string :=
  match e with
  | ReadOfNullish v k =>
      "Cannot read properties of " ++ describe v
      ++ " (reading '" ++ k ++ "')"
  | InOfPrimitive k v =>
      "Cannot use 'in' operator to search for '" ++ k ++ "' in "
      ++ describe v
  | AssignToPrimitive v k =>
      "Cannot create property '" ++ k ++ "' on " ++ describe v
  end.

Definition runtime : Runtime :=
  {| blank := is_blank;
     filled := is_filled;
     AirFlow := at_code flows;
     HorizontalPosition := at_code horizontal;
     OperationMode := at_code modes;
     VerticalPosition := at_code vertical;
     AirFlowNames := at_name flows;
     HorizontalPositionNames := at_name horizontal;
     OperationModeNames := at_name modes;
     VerticalPositionNames := at_name vertical;
     homey__ := localise;
     NumberToString := number_to_string;
     ObjectToString := fun _ => "[object Object]";
     StringToNumber := string_to_number;
     type_error_message := type_error_text |}.

(** A unit that answers every fetch with [payload], a send as
    [response] says and the account as [account] says. *)
Definition unit_of (payload : value) (response : value -> outcome value)
    (account : outcome unit) : Client :=
  {| getAirconStat := fun _ => Ok payload;
     setAirconStat := fun _ stat => response stat;
     updateAccountInfo := fun _ => account |}.

Definition all_capabilities : gset string :=
  list_to_set
    ["3d_auto"; "fan_speed"; "horizontal_position"; "measure_temperature";
     "measure_temperature.outdoor"; "onoff"; "operating_mode";
     "target_temperature"; "vertical_position"].

(** The device after [onInit] and discovery: available, with the
    registration flag [r] and the transport [c]. *)
Definition fresh (r : bool) (c : Client) : device :=
  {| registered := r; accounts := VNull; firmware := VNull;
     contents := VUndef; airconStat := VUndef; client := c;
     available := true; unavailableMessage := None; warning := None;
     capabilities := all_capabilities; capabilityValues := ∅;
     settings := ∅; store := ∅; errors := []; calls := [] |}.

(** The payload of the scenario in the specification. *)
Definition scenario : value :=
  VObj [("airconStat",
         VObj [("operation", VBool true); ("airFlow", num 2)]);
        ("numOfAccount", num 1);
        ("firmType", VStr "WF-RAC")].

(** A payload as the unit sends it, with its version blocks. *)
Definition full (stat : value) (n : Z) (firm : string) : value :=
  VObj [("airconStat", stat);
        ("numOfAccount", num n);
        ("firmType", VStr firm);
        ("wireless", VObj [("firmVer", VStr "010")]);
        ("mcu", VObj [("firmVer", VStr "123")])].

End Fixture.

Module Examples.

Import Fixture.

(** A unit that reports the state [stat] and answers a send with the
    state it was sent. *)
Definition obedient (stat : value) : Client :=
  unit_of (full stat 1 "WF-RAC") (fun s => Ok (full s 1 "WF-RAC")) (Ok tt).

Definition cooling : value :=
  VObj [("operation", VBool true); ("presetTemp", num 20);
        ("entrust", VBool true); ("windDirectionLR", num 1);
        ("windDirectionUD", num 1)].

Definition at_home : device := fresh true (obedient cooling).



(** A unit that reports [stat] with [n] accounts and the firmware
    identifier [firm], answers a send as [response] says and accepts
    the account. *)
Definition unit_with (stat : value) (n : Z) (firm : string)
    (response : value -> outcome value) : Client :=
  unit_of (full stat n firm) response (Ok tt).

Definition running : value :=
  VObj [("operation", VBool true); ("airFlow", num 2)].

(** An unregistered, available device that has synchronised nothing
    yet. *)
Definition unregistered : device :=
  fresh false (unit_with running 1 "WF-RAC" (fun _ => Ok VNull)).

Definition registered_device : device :=
  fresh true (unit_with running 1 "WF-RAC" (fun _ => Ok VNull)).

(** A registered device whose unit does not answer a send. *)
Definition deaf : device :=
  fresh true
    (unit_with cooling 1 "WF-RAC"
       (fun _ => Throw "timeout")).

(** A registered device whose unit answers a send with an empty
    object. *)
Definition mute : device :=
  fresh true (unit_with cooling 1 "WF-RAC" (fun _ => Ok (VObj []))).

Definition warmer : value :=
  VObj [("operation", VBool true); ("presetTemp", num 24);
        ("entrust", VBool true); ("windDirectionLR", num 1);
        ("windDirectionUD", num 1)].


(** A registered device with capability values and settings from
    earlier cycles. *)
Definition settled : device :=
  with_settings
    (<["accounts" := VStr "2"]>
       (<["firmware_type" := VStr "WF-RAC"]>
          (<["wifi_firmware" := VStr "010"]>
             (<["mcu_firmware" := VStr "123"]> ∅))))
    (with_capabilityValues
       (<["fan_speed" := VStr "high"]> (<["onoff" := VBool false]> ∅))
       registered_device).

End Examples.

(** * Vocabulary of the further properties *)

(** The blocks of [syncCapabilities], in their order: the field read, the
    capability tested with [hasCapability], the capability set and the
    conversion of the value. *)
Definition capability_blocks (R : Runtime)
  : list (string * string * string * (value -> value)) :=
  [("entrust", "3d_auto", "3d_auto", same);
   ("airFlow", "fan_speed", "fan_speed", AirFlow R);
   ("windDirectionLR", "horizontal_position", "horizontal_position",
    HorizontalPosition R);
   ("indoorTemp", "measure_temperature", "measure_temperature", same);
   ("operation", "onoff", "onoff", same);
   ("operationMode", "operating_mode", "operating_mode", OperationMode R);
   ("outdoorTemp", "measure_temperature", "measure_temperature.outdoor",
    same);
   ("presetTemp", "target_temperature", "target_temperature", same);
   ("windDirectionUD", "vertical_position", "vertical_position",
    VerticalPosition R)].

(** The capability a block sets. *)
Definition block_target (b : string * string * string * (value -> value))
  : string :=
  snd (fst b).

(** A block of the table on the control block [stat]. *)
Definition run_block (R : Runtime) (stat : value)
    (b : string * string * string * (value -> value)) : M unit :=
  let '(k, guard, c, convert) := b in syncCapability R stat k guard c convert.

(** The capabilities [syncCapabilities] can set. *)
Definition capability_targets : list string :=
  ["3d_auto"; "fan_speed"; "horizontal_position"; "measure_temperature";
   "onoff"; "operating_mode"; "measure_temperature.outdoor";
   "target_temperature"; "vertical_position"].

(** The settings [syncSettings] can store. *)
Definition setting_keys : list string :=
  ["accounts"; "firmware_type"; "wifi_firmware"; "mcu_firmware"].

(** The stored registration flag is the one of the instance. *)
Definition registration_stored (d : device) : Prop :=
  store d !! "registered" = Some (VBool (registered d)).

(** [P] holds after whenever it held before. *)
Definition keeps (P : device -> Prop) : relation device :=
  fun d d' => P d -> P d'.

(** What a method may do to the registration: leave the flag and the
    store alone, or set the flag and store it. *)
Definition registration_step : relation device :=
  fun d d' =>
    registered d' = registered d /\ store d' = store d
    \/ registered d' = true
       /\ store d' = <["registered" := VBool true]> (store d).

(** A registered device stays registered, with its store, and the account
    is not sent again. *)
Definition settled_registration : relation device :=
  fun d d' =>
    registered d = true ->
    registered d' = true /\ store d' = store d
    /\ appends (fun c => is_registration c = false) d d'.

(** On a registered device [f] is kept, and the device stays
    registered. *)
Definition kept_if_registered {B : Type} (f : device -> B)
  : relation device :=
  fun d d' => registered d = true -> registered d' = true /\ f d' = f d.

(** What [syncAirconStat] stores in [this.accounts]: a number or
    [null]. *)
Definition numeric (v : value) : bool :=
  match v with
  | VNum _ | VNull => true
  | _ => false
  end.

(** The control state [updateDevice] merges the patch into when the unit
    answers its fetch with [p]: the control block of [p], or what the
    device holds when [p] is blank. *)
Definition merge_base (R : Runtime) (p : value) (d : device) : value :=
  if blank R p then airconStat d else field "airconStat" p.

(** The shape of what [syncAirconStat] stores: the account count is a
    number or [null], and the contents do not hold the control block. *)
Definition stored_shape (d : device) : Prop :=
  numeric (accounts d) = true
  /\ forall c, contents d = VObj c -> Obj.has "airconStat" c = false.

(** * The life of the device: [lib/Device] around the cycles

    [onInit], [onUninit], [onDeleted], the discovery handlers, the timer
    and [deleteAccount] work on more of the instance than the cycles do:
    whether [this.client] is set, its address, its port and its method
    [deleteAccountInfo], [this.operatorId] and [this.timer].  A session
    is the device with these.  The calls on the host's timers and
    listeners and the calls of [deleteAccountInfo] are recorded in a log
    of their own, oldest first. *)

Inductive host_call : Type :=
| SetInterval (ms : Z)
| ClearTimeout (handle : value)
| DeleteAccountInfo
| RegisterCapabilityListener (capability : string).

(** What these methods take from outside: the client that
    [new Client(store)] builds, and the handle [homey.setInterval]
    returns given the host calls made before. *)
Record Host : Type := {
  new_client : gmap string value -> Client;
  new_deleteAccountInfo : gmap string value -> list call -> outcome unit;
  new_address : gmap string value -> value;
  new_port : gmap string value -> value;
  setInterval : list host_call -> value;
}.

Record session : Type := {
  dev : device;
  connected : bool;                    (* [this.client] is not [null] *)
  deleteAccountInfo : list call -> outcome unit;
  address : value;                     (* [this.client.address] *)
  port : value;                        (* [this.client.port] *)
  operatorId : value;
  timer : value;
  host_calls : list host_call;
}.

Definition with_client (c : Client) (d : device) : device :=
  {| registered := registered d; accounts := accounts d;
     firmware := firmware d; contents := contents d;
     airconStat := airconStat d; client := c; available := available d;
     unavailableMessage := unavailableMessage d; warning := warning d;
     capabilities := capabilities d;
     capabilityValues := capabilityValues d; settings := settings d;
     store := store d; errors := errors d; calls := calls d |}.

Definition set_dev (d : device) (s : session) : session :=
  {| dev := d; connected := connected s;
     deleteAccountInfo := deleteAccountInfo s; address := address s;
     port := port s; operatorId := operatorId s; timer := timer s;
     host_calls := host_calls s |}.

(** [this.client = c], with the address, the port and the method of
    [c]. *)
Definition set_client (c : Client) (forget : list call -> outcome unit)
    (a p : value) (s : session) : session :=
  {| dev := with_client c (dev s); connected := true;
     deleteAccountInfo := forget; address := a; port := p;
     operatorId := operatorId s; timer := timer s;
     host_calls := host_calls s |}.

(** [this.client = null] *)
Definition unset_client (s : session) : session :=
  {| dev := dev s; connected := false;
     deleteAccountInfo := deleteAccountInfo s; address := address s;
     port := port s; operatorId := operatorId s; timer := timer s;
     host_calls := host_calls s |}.

Definition set_network (a p : value) (s : session) : session :=
  {| dev := dev s; connected := connected s;
     deleteAccountInfo := deleteAccountInfo s; address := a; port := p;
     operatorId := operatorId s; timer := timer s;
     host_calls := host_calls s |}.

Definition set_operatorId (v : value) (s : session) : session :=
  {| dev := dev s; connected := connected s;
     deleteAccountInfo := deleteAccountInfo s; address := address s;
     port := port s; operatorId := v; timer := timer s;
     host_calls := host_calls s |}.

Definition set_timer (v : value) (s : session) : session :=
  {| dev := dev s; connected := connected s;
     deleteAccountInfo := deleteAccountInfo s; address := address s;
     port := port s; operatorId := operatorId s; timer := v;
     host_calls := host_calls s |}.

Definition set_host_calls (l : list host_call) (s : session) : session :=
  {| dev := dev s; connected := connected s;
     deleteAccountInfo := deleteAccountInfo s; address := address s;
     port := port s; operatorId := operatorId s; timer := timer s;
     host_calls := l |}.

(** ** Methods on a session *)

Definition L (A : Type) : Type := session -> outcome A * session.

Definition lret {A : Type} (a : A) : L A := fun s => (Ok a, s).

Definition lthrow {A : Type} (message : string) : L A :=
  fun s => (Throw message, s).

Definition lbind {A B : Type} (m : L A) (k : A -> L B) : L B :=
  fun s =>
    match m s with
    | (Ok a, s') => k a s'
    | (Throw e, s') => (Throw e, s')
    end.

Definition lgets {A : Type} (f : session -> A) : L A :=
  fun s => (Ok (f s), s).

Definition lmodify (f : session -> session) : L unit :=
  fun s => (Ok tt, f s).

(** An answer from outside that leaves the session as it is. *)
Definition lask {A : Type} (f : session -> outcome A) : L A :=
  fun s => (f s, s).

(** A method of the device, run on the device of the session. *)
Definition lift {A : Type} (m : M A) : L A :=
  fun s => (fst (m (dev s)), set_dev (snd (m (dev s))) s).

Declare Scope life_scope.
Delimit Scope life_scope with life.
Notation "x <- m ;; k" := (lbind m (fun x => k))
  (at level 100, m at next level, k at level 200, right associativity)
  : life_scope.
Notation "m ;; k" := (lbind m (fun _ => k))
  (at level 100, k at level 200, right associativity) : life_scope.

Definition after {A : Type} (m : L A) (s : session) : session := snd (m s).

Section Lifecycle.

Context (R : Runtime) (H : Host).

Local Open Scope life_scope.

(** A call on the host that is taken to have its effect at once and not
    to throw, as those of the cycles are. *)
Definition host (c : host_call) : L unit :=
  lmodify (fun s => set_host_calls (host_calls s ++ [c]) s).

(** [this.getStoreValue(k)]: a key the store does not hold reads as
    [undefined]. *)
Definition getStoreValue (k : string) : L value :=
  lgets (fun s => default VUndef (store (dev s) !! k)).

(** [setRegistered(registered = null)] on any argument: [undefined]
    takes the default, and [null] is replaced by the stored value.
    [this.registered] is read as a condition only, so the device keeps
    its truth value; the store keeps the value itself. *)
Definition setRegisteredFrom (registered : value) : L unit :=
  registered <- (if nullish registered then getStoreValue "registered"
                 else lret registered) ;;
  lift (setStoreValue "registered" registered) ;;
  lift (modify (with_registered (truthy registered))).

(** [this.client.deleteAccountInfo()] *)
Definition client_deleteAccountInfo : L unit :=
  host DeleteAccountInfo ;;
  lask (fun s => deleteAccountInfo s (calls (dev s))).

(** [deleteAccount(uninit)] *)
Definition deleteAccount (uninit : bool) : L unit :=
  reg <- lgets (fun s => registered (dev s)) ;;
  c <- lgets connected ;;
  if negb reg || negb c then lret tt
  else
    client_deleteAccountInfo ;;
    if negb uninit then setRegisteredFrom (VBool false) else lret tt.

(** [registerCapabilityListeners()] *)
Definition registerCapabilityListeners : L unit :=
  host (RegisterCapabilityListener "3d_auto") ;;
  host (RegisterCapabilityListener "fan_speed") ;;
  host (RegisterCapabilityListener "horizontal_position") ;;
  host (RegisterCapabilityListener "onoff") ;;
  host (RegisterCapabilityListener "operating_mode") ;;
  host (RegisterCapabilityListener "target_temperature") ;;
  host (RegisterCapabilityListener "vertical_position").

(** [onInit()] *)
Definition onInit : L unit :=
  lift (setUnavailable (homey__ R "status.wait" VUndef)) ;;
  setRegisteredFrom VUndef ;;
  store <- lgets (fun s => store (dev s)) ;;
  lmodify (set_client (new_client H store) (new_deleteAccountInfo H store)
             (new_address H store) (new_port H store)) ;;
  lift (modify (with_accounts VNull)) ;;
  lift (modify (with_firmware VNull)) ;;
  lmodify (set_operatorId (default VUndef (store !! "operatorId"))) ;;
  registerCapabilityListeners.

(** [onUninit()] *)
Definition onUninit : L unit :=
  deleteAccount true ;;
  lmodify unset_client ;;
  lift (modify (with_contents VNull)) ;;
  lift (modify (with_airconStat VNull)).

(** [startTimer(seconds)] *)
Definition startTimer (seconds : Z) : L unit :=
  t <- lgets timer ;;
  if truthy t then lret tt
  else
    h <- lgets (fun s => setInterval H (host_calls s)) ;;
    host (SetInterval (1000 * seconds)) ;;
    lmodify (set_timer h).

(** [stopTimer()] *)
Definition stopTimer : L unit :=
  t <- lgets timer ;;
  if negb (truthy t) then lret tt
  else
    host (ClearTimeout t) ;;
    lmodify (set_timer VNull).

(** [onDeleted()] *)
Definition onDeleted : L unit := stopTimer.

(** [setNetwork(info)]: the assignment to [this.client.address] throws
    when there is no client. *)
Definition setNetwork (info : value) : L unit :=
  a <- lift (get_prop R info "address") ;;
  p <- lift (get_prop R info "port") ;;
  c <- lgets connected ;;
  if negb c
  then lthrow (type_error_message R (AssignToPrimitive VNull "address"))
  else
    lmodify (set_network a p) ;;
    lift (setSettings [("ip_address", VStr (String_ R a));
                       ("port", VStr (String_ R p))]).

(** [sync()] as the timer and the discovery call it, without data.  With
    no client the fetch is the first thing to throw, on reading
    [getAirconStat] of [null], and the [catch] block of [sync] runs. *)
Definition cycle : L unit :=
  c <- lgets connected ;;
  if c then lift (sync R VNull)
  else lift (sync_catch R
               (type_error_message R (ReadOfNullish VNull "getAirconStat"))).

(** [onDiscoveryAvailable(result)] *)
Definition onDiscoveryAvailable (result : value) : L unit :=
  av <- lift getAvailable ;;
  if av then lret tt
  else
    setNetwork result ;;
    lift setAvailable ;;
    startTimer 60 ;;
    cycle.

(** [onDiscoveryAddressChanged(result)] *)
Definition onDiscoveryAddressChanged (result : value) : L unit :=
  setNetwork result.

(** [onDiscoveryLastSeenChanged(result)]: it logs the address and the
    port, which it has to read. *)
Definition onDiscoveryLastSeenChanged (result : value) : L unit :=
  lift (get_prop R result "address") ;;
  lift (get_prop R result "port") ;;
  lret tt.

(** [updateDevice(properties)] when there is no client: the checks are
    those of [updateDevice], and the fetch throws as in [cycle], inside
    the [try] block. *)
Definition updateDevice_without_client : M unit :=
  (av <- getAvailable ;;
   if negb av then error "Update device: Device not available"
   else
     try_catch
       (reg <- gets registered ;;
        (if negb reg
         then w <- gets (getAccountWarning R) ;; throw (Error_message w)
         else ret tt) ;;
        throw (type_error_message R (ReadOfNullish VNull "getAirconStat")))
       (update_catch R))%js.

(** [updateDevice(properties)] on a session. *)
Definition command (properties : list (string * value)) : L unit :=
  c <- lgets connected ;;
  if c then lift (updateDevice R properties)
  else lift updateDevice_without_client.

(** ** What happens to a device, one event after the other *)

Inductive event : Type :=
| Init
| Uninit
| Deleted
| DiscoveryAvailable (result : value)
| DiscoveryAddressChanged (result : value)
| DiscoveryLastSeenChanged (result : value)
| Tick
| Command (properties : list (string * value))
| DeleteAccount (uninit : bool).

Definition handle (e : event) : L unit :=
  match e with
  | Init => onInit
  | Uninit => onUninit
  | Deleted => onDeleted
  | DiscoveryAvailable result => onDiscoveryAvailable result
  | DiscoveryAddressChanged result => onDiscoveryAddressChanged result
  | DiscoveryLastSeenChanged result => onDiscoveryLastSeenChanged result
  | Tick => cycle
  | Command properties => command properties
  | DeleteAccount uninit => deleteAccount uninit
  end.

(** The session after the events, whether their handlers return or
    throw. *)
Fixpoint play (events : list event) (s : session) : session :=
  match events with
  | [] => s
  | e :: rest => play rest (after (handle e) s)
  end.

End Lifecycle.

(** ** Vocabulary of the lifecycle properties *)

(** Every run of [m] takes the session to one related to it by [Rel],
    whether [m] returns or throws. *)
Definition lstays {A : Type} (Rel : relation session) (m : L A) : Prop :=
  forall s, Rel s (snd (m s)).

(** [P] is kept. *)
Definition preserves {S : Type} (P : S -> Prop) : relation S :=
  fun s s' => P s -> P s'.

(** [f] reads the same on both sessions. *)
Definition same_at {B : Type} (f : session -> B) : relation session :=
  fun s s' => f s' = f s.

(** The intervals set and not cleared, counted. *)
Fixpoint outstanding (l : list host_call) : Z :=
  match l with
  | [] => 0
  | SetInterval _ :: rest => 1 + outstanding rest
  | ClearTimeout _ :: rest => outstanding rest - 1
  | _ :: rest => outstanding rest
  end.

(** [this.timer] is set exactly when one interval is outstanding, and
    none is otherwise. *)
Definition timer_balanced (s : session) : Prop :=
  outstanding (host_calls s) = if truthy (timer s) then 1%Z else 0%Z.

(** How often the unit was told to forget the account. *)
Definition deletions (s : session) : nat :=
  length (List.filter
            (fun c => match c with DeleteAccountInfo => true | _ => false end)
            (host_calls s)).

(** The address setting names the address of the client. *)
Definition network_stored (R : Runtime) (s : session) : Prop :=
  settings (dev s) !! "ip_address" = Some (VStr (String_ R (address s)))
  /\ settings (dev s) !! "port" = Some (VStr (String_ R (port s))).

(** What the discovery handlers leave for [result]: the client at the
    address and the port of [result], and the settings naming them. *)
Definition named_by (R : Runtime) (result : value) (s : session) : Prop :=
  address s = field "address" result /\ port s = field "port" result
  /\ network_stored R s.

(** The part of the device [network_stored] reads. *)
Definition network_settings (d : device) : option value * option value :=
  (settings d !! "ip_address", settings d !! "port").

(** * Further closed examples *)

Module Cases.

Import Fixture.

(** The payload of a unit that reports one account and the supported
    firmware. *)
Definition report : list (string * value) :=
  [("airconStat", Examples.running);
   ("numOfAccount", num 1);
   ("firmType", VStr "WF-RAC");
   ("wireless", VObj [("firmVer", VStr "010")]);
   ("mcu", VObj [("firmVer", VStr "123")])].

(** A payload whose control block is a number. *)
Definition garbled : list (string * value) :=
  [("airconStat", num 7);
   ("numOfAccount", num 1);
   ("firmType", VStr "WF-RAC");
   ("wireless", VObj [("firmVer", VStr "010")]);
   ("mcu", VObj [("firmVer", VStr "123")])].

(** A payload without an account count. *)
Definition countless : list (string * value) :=
  [("airconStat", Examples.running);
   ("firmType", VStr "WF-RAC");
   ("wireless", VObj [("firmVer", VStr "010")]);
   ("mcu", VObj [("firmVer", VStr "123")])].

(** A payload with five accounts and another firmware. *)
Definition crowded : list (string * value) :=
  [("airconStat", Examples.running);
   ("numOfAccount", num 5);
   ("firmType", VStr "WF-RAC-2");
   ("wireless", VObj [("firmVer", VStr "010")]);
   ("mcu", VObj [("firmVer", VStr "123")])].

(** A registered device whose unit does not answer a fetch. *)
Definition unreachable : device :=
  fresh true
    {| getAirconStat := fun _ => Throw "timeout";
       setAirconStat := fun _ _ => Throw "timeout";
       updateAccountInfo := fun _ => Throw "timeout" |}.

(** An unregistered device whose unit refuses the account. *)
Definition refused : device :=
  fresh false
    (unit_of (VObj report) (fun _ => Ok VNull) (Throw "refused")).

(** A registered device that has stored its registration and holds state
    from an earlier cycle. *)
Definition stored : device :=
  with_store (<["registered" := VBool true]> ∅)
    (with_accounts (num 1)
       (with_contents (VObj [("firmType", VStr "WF-RAC")])
          (with_airconStat Examples.cooling Examples.settled))).

(** A unit that answers every fetch with an empty object. *)
Definition silent : device :=
  with_airconStat Examples.cooling
    (fresh true (unit_of (VObj []) (fun s => Ok VNull) (Ok tt))).

(** A host whose clients are obedient units and whose interval handles
    are objects. *)
Definition home : Host :=
  {| new_client := fun _ => Examples.obedient Examples.cooling;
     new_deleteAccountInfo := fun _ _ => Ok tt;
     new_address := fun store => default VUndef (store !! "address");
     new_port := fun store => default VUndef (store !! "port");
     setInterval :=
       fun l => VObj [("id", num (Z.of_nat (length l)))] |}.

(** A registered device in use, with its client and no timer yet. *)
Definition installed : session :=
  {| dev := with_store (<["registered" := VBool true]> ∅) Examples.at_home;
     connected := true;
     deleteAccountInfo := fun _ => Ok tt;
     address := VStr "10.0.0.7";
     port := num 51443;
     operatorId := VStr "homey";
     timer := VUndef;
     host_calls := [] |}.

(** The same device while it waits for the discovery. *)
Definition waiting : session :=
  set_dev (with_availability false (Some "status.wait") (dev installed))
    installed.

(** A discovery result. *)
Definition found : value :=
  VObj [("id", VStr "wfrac"); ("address", VStr "10.0.0.8");
        ("port", num 51443)].

End Cases.

(** * Properties *)

(** ** Objects *)

Module ObjFacts.

Lemma get_set_eq k v o : Obj.get k (Obj.set k v o) = Some v.
Proof.
  induction o as [|[k' v'] o IH]; simpl.
  - now rewrite String.eqb_refl.
  - destruct (String.eqb k k') eqn:E; simpl; rewrite E; [reflexivity|exact IH].
Qed.

Lemma get_set_ne k k' v o :
  k <> k' -> Obj.get k' (Obj.set k v o) = Obj.get k' o.
Proof.
  intros Hne. induction o as [|[k0 v0] o IH]; simpl.
  - destruct (String.eqb_spec k' k); [congruence|reflexivity].
  - destruct (String.eqb_spec k k0) as [->|Hk]; simpl.
    + destruct (String.eqb_spec k' k0); [congruence|reflexivity].
    + now rewrite IH.
Qed.

Lemma get_remove_ne k k' o :
  k <> k' -> Obj.get k' (Obj.remove k o) = Obj.get k' o.
Proof.
  intros Hne. induction o as [|[k0 v0] o IH]; simpl; [reflexivity|].
  destruct (String.eqb_spec k k0) as [->|Hk]; simpl.
  - rewrite IH. destruct (String.eqb_spec k' k0); [congruence|reflexivity].
  - now rewrite IH.
Qed.

Lemma has_remove_ne k k' o :
  k <> k' -> Obj.has k' (Obj.remove k o) = Obj.has k' o.
Proof. intros Hne. unfold Obj.has. now rewrite get_remove_ne. Qed.

End ObjFacts.

Lemma field_set_eq k v o : field k (VObj (Obj.set k v o)) = v.
Proof. simpl. now rewrite ObjFacts.get_set_eq. Qed.

Lemma field_set_ne k k' v o :
  k <> k' -> field k' (VObj (Obj.set k v o)) = field k' (VObj o).
Proof. intros Hne. simpl. now rewrite ObjFacts.get_set_ne. Qed.

Lemma field_remove_ne k k' o :
  k <> k' -> field k' (VObj (Obj.remove k o)) = field k' (VObj o).
Proof. intros Hne. simpl. now rewrite ObjFacts.get_remove_ne. Qed.

(** ** The monad *)

Lemma bind_Ok {A B : Type} (m : M A) (k : A -> M B) d a d' :
  m d = (Ok a, d') -> bind m k d = k a d'.
Proof. intros H. unfold bind. now rewrite H. Qed.


Lemma bind_gets {A B : Type} (f : device -> A) (k : A -> M B) d :
  bind (gets f) k d = k (f d) d.
Proof. reflexivity. Qed.

Lemma bind_modify {B : Type} (f : device -> device) (k : unit -> M B) d :
  bind (modify f) k d = k tt (f d).
Proof. reflexivity. Qed.

Lemma bind_ret {A B : Type} (a : A) (k : A -> M B) d :
  bind (ret a) k d = k a d.
Proof. reflexivity. Qed.

(** ** Frames: what a method leaves alone *)

#[local] Instance same_on_preorder {B : Type} (f : device -> B) :
  PreOrder (same_on f).
Proof.
  split.
  - intros d. reflexivity.
  - intros a b c Hab Hbc. unfold same_on in *. congruence.
Qed.

#[local] Instance appends_preorder (P : call -> Prop) : PreOrder (appends P).
Proof.
  split.
  - intros d. exists []. split; [now rewrite app_nil_r|constructor].
  - intros a b c (l1 & E1 & F1) (l2 & E2 & F2). exists (l1 ++ l2). split.
    + now rewrite E2, E1, <- app_assoc.
    + apply Forall_app. now split.
Qed.

Section Stays.

Context {Rel : relation device} `{!PreOrder Rel}.

Lemma stays_ret {A : Type} (a : A) : stays Rel (ret a).
Proof. intros d. simpl. reflexivity. Qed.

Lemma stays_throw {A : Type} e : stays Rel (@throw A e).
Proof. intros d. simpl. reflexivity. Qed.

Lemma stays_gets {A : Type} (f : device -> A) : stays Rel (gets f).
Proof. intros d. simpl. reflexivity. Qed.

Lemma stays_modify (f : device -> device) :
  (forall d, Rel d (f d)) -> stays Rel (modify f).
Proof. intros H d. apply H. Qed.

Lemma stays_bind {A B : Type} (m : M A) (k : A -> M B) :
  stays Rel m -> (forall a, stays Rel (k a)) -> stays Rel (bind m k).
Proof.
  intros Hm Hk d. unfold bind. specialize (Hm d).
  destruct (m d) as [[a|e] d']; simpl in *.
  - etransitivity; [exact Hm|apply Hk].
  - exact Hm.
Qed.

Lemma stays_try_catch {A : Type} (m : M A) (h : string -> M A) :
  stays Rel m -> (forall e, stays Rel (h e)) -> stays Rel (try_catch m h).
Proof.
  intros Hm Hh d. unfold try_catch. specialize (Hm d).
  destruct (m d) as [[a|e] d']; simpl in *.
  - exact Hm.
  - etransitivity; [exact Hm|apply Hh].
Qed.

End Stays.

Create HintDb driver.

#[local] Hint Unfold error getAvailable setAvailable setUnavailable
  setWarning unsetWarning hasCapability setCapabilityValue setSettings
  setStoreValue client_getAirconStat client_setAirconStat
  client_updateAccountInfo setRegistered setFirmwareWarning registerAccount
  syncAccount syncAirconStat syncCapability syncCapabilitiesOf
  syncCapabilities syncSettings
  sync_catch sync update_catch get_prop has_prop set_prop before_account
  : driver.

(** One step through the structure of a method; [leaf] settles the state
    changes themselves. *)
Ltac frame_step leaf :=
  lazymatch goal with
  | |- stays _ (bind _ _) => apply stays_bind; [|intros ?; cbv beta]
  | |- stays _ (ret _) => apply stays_ret
  | |- stays _ (throw _) => apply stays_throw
  | |- stays _ (gets _) => apply stays_gets
  | |- stays _ (try_catch _ _) => apply stays_try_catch; [|intros ?; cbv beta]
  | |- stays _ (modify _) => apply stays_modify; intros ?; leaf
  | |- stays _ (transport _ _) => intros ?; leaf
  | |- stays _ (if ?b then _ else _) => destruct b
  | |- stays _ (match ?x with _ => _ end) => destruct x
  | |- stays _ (let _ := _ in _) => cbv zeta
  end.

Ltac frame leaf := autounfold with driver; repeat (frame_step leaf).

(** The leaf for [same_on f] when [f] does not read what changes. *)
Ltac unread := unfold same_on; simpl; auto.

(** The leaf for [appends P]: a state change adds no call, and a call on
    the transport has to satisfy [P]. *)
Ltac one_call :=
  first
    [ exists []; split; [simpl; now rewrite app_nil_r|constructor]
    | eexists [_]; split; [reflexivity|repeat constructor] ].

Lemma new_calls_appends P d d' :
  appends P d d' -> Forall P (new_calls d d').
Proof.
  intros (l & E & F). unfold new_calls. rewrite E.
  now rewrite drop_app_length.
Qed.

Lemma registrations_none d d' :
  appends (fun c => is_registration c = false) d d' -> registrations d d' = 0.
Proof.
  intros H. apply new_calls_appends in H. unfold registrations.
  induction H as [|c l Hc _ IH]; simpl; [reflexivity|].
  now rewrite Hc.
Qed.

Section Frames.

Context (R : Runtime).

(** [syncCapabilities] changes the capability values and nothing else. *)
Lemma syncCapabilities_frame {B : Type} (f : device -> B) :
  (forall m d, f (with_capabilityValues m d) = f d) ->
  stays (same_on f) (syncCapabilities R).
Proof. intros H. frame unread. Qed.

(** [syncSettings] changes the settings, the warning and the error log
    and nothing else. *)
Lemma syncSettings_frame {B : Type} (f : device -> B) :
  (forall m d, f (with_settings m d) = f d) ->
  (forall w d, f (with_warning w d) = f d) ->
  (forall l d, f (with_errors l d) = f d) ->
  stays (same_on f) (syncSettings R).
Proof. intros H1 H2 H3. frame unread. Qed.

(** The [catch] block of [sync] changes the availability and the error
    log and nothing else. *)
Lemma sync_catch_frame {B : Type} (f : device -> B) e :
  (forall b m d, f (with_availability b m d) = f d) ->
  (forall l d, f (with_errors l d) = f d) ->
  stays (same_on f) (sync_catch R e).
Proof.
  intros H1 H2. frame ltac:(unfold same_on; rewrite ?H1, ?H2; auto).
Qed.

(** [syncAccount] leaves alone what does not read the registration, the
    store, the warning, the error log or the calls. *)
Lemma syncAccount_frame {B : Type} (f : device -> B) :
  (forall b d, f (with_registered b d) = f d) ->
  (forall m d, f (with_store m d) = f d) ->
  (forall w d, f (with_warning w d) = f d) ->
  (forall l d, f (with_errors l d) = f d) ->
  (forall l d, f (with_calls l d) = f d) ->
  stays (same_on f) (syncAccount R).
Proof. intros H1 H2 H3 H4 H5. frame unread. Qed.

(** Only the account step sends the account to the unit. *)
Lemma before_account_no_registration data :
  stays (appends (fun c => is_registration c = false))
    (before_account R data).
Proof. frame one_call. Qed.

Lemma sync_catch_no_call P e : stays (appends P) (sync_catch R e).
Proof. frame one_call. Qed.

(** A synchronisation never sends a state to the unit. *)
Lemma sync_no_send data :
  stays (appends (fun c => forall s, c <> SetAirconStat s)) (sync R data).
Proof. frame ltac:(one_call; discriminate). Qed.

End Frames.

(** ** The command dispatcher *)

Section Dispatcher.

Context (R : Runtime).

Lemma with_airconStat_same d : with_airconStat (airconStat d) d = d.
Proof. now destruct d. Qed.

Lemma assign_properties_object properties : forall d o,
  airconStat d = VObj o ->
  assign_properties R properties d
  = (Ok tt, with_airconStat (VObj (merge properties o)) d).
Proof.
  induction properties as [|[k v] rest IH]; intros d o Ho; simpl.
  - unfold ret. now rewrite <- Ho, with_airconStat_same.
  - rewrite bind_gets, Ho. simpl. rewrite bind_ret, bind_modify.
    now rewrite (IH _ (Obj.set k v o)).
Qed.

Lemma assign_properties_Ok properties d d' :
  assign_properties R properties d = (Ok tt, d') ->
  properties = [] /\ d' = d
  \/ exists o, airconStat d = VObj o
               /\ d' = with_airconStat (VObj (merge properties o)) d.
Proof.
  destruct (airconStat d) as [| | | | |o] eqn:E.
  6: { rewrite (assign_properties_object _ _ o E). intros [= <-].
       right. now exists o. }
  all: destruct properties as [|[k v] rest]; simpl;
    [intros [= <-]; now left | rewrite bind_gets, E; discriminate].
Qed.

Lemma assign_properties_calls properties :
  stays (same_on calls) (assign_properties R properties).
Proof.
  induction properties as [|[k v] rest IH]; simpl; frame unread.
  all: exact IH.
Qed.

End Dispatcher.

Section DispatcherClaims.

Context (R : Runtime).

Lemma syncAirconStat_no_send data :
  stays (appends (fun c => forall s, c <> SetAirconStat s))
    (syncAirconStat R data).
Proof. frame ltac:(one_call; discriminate). Qed.

Lemma update_catch_run e d :
  update_catch R e d
  = (Throw (homey__ R e VUndef),
     with_errors (errors d ++ [("Update error: " ++ e)%string]) d).
Proof. reflexivity. Qed.

(** [sync] returns. *)
Lemma sync_returns data d :
  sync R data d = (Ok tt, run (sync R data) d).
Proof.
  unfold run, sync, try_catch.
  destruct ((syncAirconStat R data ;; syncCapabilities R ;;
             syncSettings R ;; syncAccount R)%js d) as [[[]|e] d'];
    reflexivity.
Qed.

(** [updateDevice], path by path. *)
Lemma updateDevice_unfold properties d :
  updateDevice R properties d
  = if negb (available d)
    then (Ok tt,
          with_errors
            (errors d ++ ["Update device: Device not available"]) d)
    else if negb (registered d)
    then update_catch R (Error_message (getAccountWarning R d)) d
    else
      match syncAirconStat R VNull d with
      | (Throw e, d1) => update_catch R e d1
      | (Ok _, d1) =>
          match assign_properties R properties d1 with
          | (Throw e, d2) => update_catch R e d2
          | (Ok _, d2) =>
              match setAirconStat (client d2) (calls d2) (airconStat d2)
              with
              | Throw e => update_catch R e (sent d2)
              | Ok response => (Ok tt, run (sync R response) (sent d2))
              end
          end
      end.
Proof.
  unfold updateDevice, getAvailable. rewrite bind_gets.
  destruct (available d); [|reflexivity]. cbn [negb].
  unfold try_catch. rewrite bind_gets.
  destruct (registered d); [|reflexivity]. cbn [negb]. rewrite bind_ret.
  unfold bind at 1.
  destruct (syncAirconStat R VNull d) as [[[]|e] d1]; [|reflexivity].
  unfold bind at 1.
  destruct (assign_properties R properties d1) as [[[]|e] d2];
    [|reflexivity].
  rewrite bind_gets. unfold bind at 1, client_setAirconStat, transport.
  fold (sent d2).
  destruct (setAirconStat (client d2) (calls d2) (airconStat d2))
    as [response|e]; [|reflexivity].
  now rewrite sync_returns.
Qed.

(** [updateDevice] sends at most one state: [airconStat] as the loop
    left it, after the fetch. *)
Lemma updateDevice_sends properties d :
  Forall (fun c => forall s, c = SetAirconStat s ->
                             exists d1 d2,
                               syncAirconStat R VNull d = (Ok tt, d1)
                               /\ assign_properties R properties d1
                                  = (Ok tt, d2)
                               /\ s = airconStat d2)
    (new_calls d (run (updateDevice R properties) d)).
Proof.
  assert (Hnone : forall d',
             appends (fun c => forall s, c <> SetAirconStat s) d d' ->
             forall e,
               Forall (fun c => forall s, c = SetAirconStat s ->
                         exists d1 d2,
                           syncAirconStat R VNull d = (Ok tt, d1)
                           /\ assign_properties R properties d1
                              = (Ok tt, d2)
                           /\ s = airconStat d2)
                 (new_calls d (snd (update_catch R e d')))).
  { intros d' H e. rewrite update_catch_run. cbn [snd].
    apply new_calls_appends in H. unfold new_calls in *.
    eapply Forall_impl; [exact H|]. intros c Hc s ->.
    now destruct (Hc s). }
  unfold run. rewrite updateDevice_unfold.
  destruct (available d); cbn [negb].
  2: { unfold new_calls. simpl. rewrite drop_all. constructor. }
  destruct (registered d); cbn [negb].
  2: { apply Hnone. reflexivity. }
  pose proof (syncAirconStat_no_send VNull d) as H1.
  destruct (syncAirconStat R VNull d) as [[[]|e] d1] eqn:E1; simpl in H1.
  2: { now apply Hnone. }
  pose proof (assign_properties_calls R properties d1) as H2.
  unfold same_on in H2.
  destruct (assign_properties R properties d1) as [[[]|e] d2] eqn:E2;
    simpl in H2.
  2: { apply Hnone. destruct H1 as (l & El & Fl). exists l.
       now rewrite H2. }
  assert (H3 : forall d',
             appends (fun c => forall s, c <> SetAirconStat s)
               (sent d2) d' ->
             Forall (fun c => forall s, c = SetAirconStat s ->
                       exists d1' d2',
                         (Ok tt, d1) = (Ok tt, d1')
                         /\ assign_properties R properties d1'
                            = (Ok tt, d2')
                         /\ s = airconStat d2')
               (new_calls d d')).
  { intros d' (l3 & El3 & Fl3). destruct H1 as (l1 & El1 & Fl1).
    unfold new_calls. rewrite El3. unfold sent. simpl.
    rewrite H2, El1, <- !app_assoc, drop_app_length.
    apply Forall_app. split; [|apply Forall_app; split].
    - eapply Forall_impl; [exact Fl1|]. intros c Hc s ->.
      now destruct (Hc s).
    - constructor; [|constructor]. intros s [= <-]. now exists d1, d2.
    - eapply Forall_impl; [exact Fl3|]. intros c Hc s ->.
      now destruct (Hc s). }
  destruct (setAirconStat (client d2) (calls d2) (airconStat d2))
    as [response|e].
  - apply H3. apply sync_no_send.
  - rewrite update_catch_run. cbn [snd]. apply H3.
    exists []. simpl. split; [now rewrite app_nil_r|constructor].
Qed.

(** The state sent for a patch that is not empty is the control block
    with the patch merged into it. *)
Lemma updateDevice_sends_merged properties d stat :
  properties <> [] ->
  In (SetAirconStat stat)
     (new_calls d (run (updateDevice R properties) d)) ->
  exists o, stat = VObj (merge properties o).
Proof.
  intros Hne Hin. pose proof (updateDevice_sends properties d) as H.
  rewrite List.Forall_forall in H.
  destruct (H _ Hin stat eq_refl) as (d1 & d2 & _ & E2 & ->).
  apply assign_properties_Ok in E2 as [[-> _]|(o & _ & ->)];
    [congruence|].
  now exists o.
Qed.


(** C5. Whatever the device and the unit's answers, a state that
    [updateDevice] sends for the patch [{k: v}] maps [k] to [v]: the
    patch wins over the control block just fetched. *)
Theorem patch_wins k v d stat :
  In (SetAirconStat stat) (new_calls d (run (updateDevice R [(k, v)]) d)) ->
  field k stat = v.
Proof.
  intros Hin.
  destruct (updateDevice_sends_merged [(k, v)] d stat) as (o & ->);
    [discriminate|exact Hin|].
  apply field_set_eq.
Qed.

(** C8. A state sent for a change of the horizontal or of the vertical
    vane position carries the vane field of the patch and [entrust] set
    to [false]. *)
Theorem vane_patches_clear_entrust v d stat :
  (In (SetAirconStat stat)
      (new_calls d (run (onCapabilityHorizontalPosition R v) d)) ->
   field "windDirectionLR" stat = HorizontalPositionNames R v
   /\ field "entrust" stat = VBool false)
  /\ (In (SetAirconStat stat)
         (new_calls d (run (onCapabilityVerticalPosition R v) d)) ->
      field "windDirectionUD" stat = VerticalPositionNames R v
      /\ field "entrust" stat = VBool false).
Proof.
  unfold onCapabilityHorizontalPosition, onCapabilityVerticalPosition, queue.
  split; intros Hin.
  - destruct (updateDevice_sends_merged
                [("windDirectionLR", HorizontalPositionNames R v);
                 ("entrust", VBool false)] d stat) as (o & ->);
      [discriminate|exact Hin|].
    unfold merge. cbn [fold_left fst snd]. split.
    + rewrite field_set_ne by discriminate. apply field_set_eq.
    + apply field_set_eq.
  - destruct (updateDevice_sends_merged
                [("windDirectionUD", VerticalPositionNames R v);
                 ("entrust", VBool false)] d stat) as (o & ->);
      [discriminate|exact Hin|].
    unfold merge. cbn [fold_left fst snd]. split.
    + rewrite field_set_ne by discriminate. apply field_set_eq.
    + apply field_set_eq.
Qed.

End DispatcherClaims.


(** On a registered device the state sent has the target temperature of
    the patch, not the fetched one. *)
Lemma patch_wins_witness :
  In (SetAirconStat
        (VObj [("operation", VBool true); ("presetTemp", num 24);
               ("entrust", VBool true); ("windDirectionLR", num 1);
               ("windDirectionUD", num 1)]))
     (new_calls Examples.at_home
        (run (updateDevice Fixture.runtime [("presetTemp", num 24)])
           Examples.at_home))
  /\ field "presetTemp"
       (VObj [("operation", VBool true); ("presetTemp", num 24);
              ("entrust", VBool true); ("windDirectionLR", num 1);
              ("windDirectionUD", num 1)]) = num 24.
Proof.
  assert (H : In (SetAirconStat
                    (VObj [("operation", VBool true); ("presetTemp", num 24);
                           ("entrust", VBool true);
                           ("windDirectionLR", num 1);
                           ("windDirectionUD", num 1)]))
                 (new_calls Examples.at_home
                    (run (updateDevice Fixture.runtime
                            [("presetTemp", num 24)])
                       Examples.at_home))).
  { vm_compute. right. left. reflexivity. }
  split; [exact H|].
  exact (patch_wins Fixture.runtime "presetTemp" (num 24)
           Examples.at_home _ H).
Defined.


(** Both vane listeners on a registered device whose unit reports
    [entrust: true]. *)
Lemma vane_patches_clear_entrust_witness :
  (In (SetAirconStat
         (VObj [("operation", VBool true); ("presetTemp", num 20);
                ("entrust", VBool false); ("windDirectionLR", num 3);
                ("windDirectionUD", num 1)]))
      (new_calls Examples.at_home
         (run (onCapabilityHorizontalPosition Fixture.runtime (VStr "right"))
            Examples.at_home))
   /\ In (SetAirconStat
            (VObj [("operation", VBool true); ("presetTemp", num 20);
                   ("entrust", VBool false); ("windDirectionLR", num 1);
                   ("windDirectionUD", num 4)]))
         (new_calls Examples.at_home
            (run (onCapabilityVerticalPosition Fixture.runtime (VStr "lowest"))
               Examples.at_home)))
  /\ (field "entrust"
        (VObj [("operation", VBool true); ("presetTemp", num 20);
               ("entrust", VBool false); ("windDirectionLR", num 3);
               ("windDirectionUD", num 1)]) = VBool false
      /\ field "entrust"
           (VObj [("operation", VBool true); ("presetTemp", num 20);
                  ("entrust", VBool false); ("windDirectionLR", num 1);
                  ("windDirectionUD", num 4)]) = VBool false).
Proof.
  assert (H1 : In (SetAirconStat
                     (VObj [("operation", VBool true); ("presetTemp", num 20);
                            ("entrust", VBool false);
                            ("windDirectionLR", num 3);
                            ("windDirectionUD", num 1)]))
                  (new_calls Examples.at_home
                     (run (onCapabilityHorizontalPosition Fixture.runtime
                             (VStr "right"))
                        Examples.at_home))).
  { vm_compute. right. left. reflexivity. }
  assert (H2 : In (SetAirconStat
                     (VObj [("operation", VBool true); ("presetTemp", num 20);
                            ("entrust", VBool false);
                            ("windDirectionLR", num 1);
                            ("windDirectionUD", num 4)]))
                  (new_calls Examples.at_home
                     (run (onCapabilityVerticalPosition Fixture.runtime
                             (VStr "lowest"))
                        Examples.at_home))).
  { vm_compute. right. left. reflexivity. }
  split; [now split|]. split.
  - exact (proj2 (proj1 (vane_patches_clear_entrust Fixture.runtime
                           (VStr "right") Examples.at_home _) H1)).
  - exact (proj2 (proj2 (vane_patches_clear_entrust Fixture.runtime
                           (VStr "lowest") Examples.at_home _) H2)).
Defined.

(** ** The steps of a synchronisation *)

Section Steps.

Context (R : Runtime).

Lemma syncAirconStat_object data d o :
  payload_of data d = Ok (VObj o) ->
  blank R (VObj o) = false ->
  syncAirconStat R data d = (Ok tt, loaded R o (fetched data d)).
Proof.
  unfold payload_of, fetched, syncAirconStat. intros Hp Hb.
  assert (E : (if negb (truthy data) then client_getAirconStat
               else ret data) d
              = (Ok (VObj o),
                 if negb (truthy data)
                 then with_calls (calls d ++ [GetAirconStat]) d else d)).
  { destruct (negb (truthy data)).
    - unfold client_getAirconStat, transport. now rewrite Hp.
    - unfold ret. congruence. }
  rewrite (bind_Ok _ _ _ _ _ E), Hb.
  unfold setAvailable, get_prop, has_prop, delete_prop, loaded.
  cbn [nullish]. rewrite bind_modify, bind_ret, !bind_modify.
  assert (Hn : Obj.has "numOfAccount" (Obj.remove "airconStat" o)
               = Obj.has "numOfAccount" o)
    by (apply ObjFacts.has_remove_ne; discriminate).
  assert (Hf : Obj.has "firmType" (Obj.remove "airconStat" o)
               = Obj.has "firmType" o)
    by (apply ObjFacts.has_remove_ne; discriminate).
  assert (Fn : field "numOfAccount" (VObj (Obj.remove "airconStat" o))
               = field "numOfAccount" (VObj o))
    by (apply field_remove_ne; discriminate).
  assert (Ff : field "firmType" (VObj (Obj.remove "airconStat" o))
               = field "firmType" (VObj o))
    by (apply field_remove_ne; discriminate).
  rewrite bind_ret, bind_modify, bind_ret. unfold modify.
  now rewrite Hn, Hf, Fn, Ff.
Qed.

(** [sync] is the steps before the account step, then the account
    step, with the [catch] block around both. *)
Lemma sync_split data d :
  sync R data d
  = match before_account R data d with
    | (Ok _, d3) => try_catch (syncAccount R) (sync_catch R) d3
    | (Throw e, d') => sync_catch R e d'
    end.
Proof.
  unfold sync, before_account, try_catch, bind.
  destruct (syncAirconStat R data d) as [[[]|e] d1]; [|reflexivity].
  destruct (syncCapabilities R d1) as [[[]|e] d2]; [|reflexivity].
  destruct (syncSettings R d2) as [[[]|e] d3]; reflexivity.
Qed.

Lemma before_account_Ok data d d3 :
  before_account R data d = (Ok tt, d3) ->
  exists d1 d2,
    syncAirconStat R data d = (Ok tt, d1)
    /\ syncCapabilities R d1 = (Ok tt, d2)
    /\ syncSettings R d2 = (Ok tt, d3).
Proof.
  unfold before_account, bind.
  destruct (syncAirconStat R data d) as [[[]|e] d1] eqn:E1; [|discriminate].
  destruct (syncCapabilities R d1) as [[[]|e] d2] eqn:E2; [|discriminate].
  destruct (syncSettings R d2) as [[[]|e] d3'] eqn:E3; [|discriminate].
  intros [= <-]. now exists d1, d2.
Qed.

(** The [catch] block of [sync] returns. *)
Lemma sync_catch_run e d :
  sync_catch R e d
  = (Ok tt,
     with_availability false (Some (homey__ R e VUndef))
       (with_errors (errors d ++ [("Sync error: " ++ e)%string]) d)).
Proof. reflexivity. Qed.

Lemma stays_at {A : Type} Rel (m : M A) d r d' :
  stays Rel m -> m d = (r, d') -> Rel d d'.
Proof. intros H E. specialize (H d). now rewrite E in H. Qed.

End Steps.

(** ** The [try]/[catch] of [sync] *)

Section Catch.

Context (R : Runtime).

Lemma sync_sequence data d :
  sync R data d
  = try_catch (sequence (sync_steps R data)) (sync_catch R) d.
Proof.
  unfold sync, sync_steps, sequence, try_catch, bind, ret.
  destruct (syncAirconStat R data d) as [[[]|e] d1]; [|reflexivity].
  destruct (syncCapabilities R d1) as [[[]|e] d2]; [|reflexivity].
  destruct (syncSettings R d2) as [[[]|e] d3]; [|reflexivity].
  destruct (syncAccount R d3) as [[[]|e] d4]; reflexivity.
Qed.

Lemma sequence_app_Throw done step rest d d1 e d2 :
  sequence done d = (Ok tt, d1) ->
  step d1 = (Throw e, d2) ->
  sequence (done ++ step :: rest) d = (Throw e, d2).
Proof.
  revert d. induction done as [|s done IH]; intros d; simpl.
  - intros [= <-] Hs. unfold bind. now rewrite Hs.
  - unfold bind. destruct (s d) as [[[]|e'] d'].
    + apply IH.
    + discriminate.
Qed.

(** C6. [sync] never throws.  When one of its steps throws, the steps
    after it are not run: the device is the one the failing step left,
    marked unavailable with the localised message of the exception, and
    with the error logged. *)
Theorem sync_catches_once data d :
  result (sync R data) d = Ok tt
  /\ forall done step rest e d1 d2,
      sync_steps R data = done ++ step :: rest ->
      sequence done d = (Ok tt, d1) ->
      step d1 = (Throw e, d2) ->
      run (sync R data) d
      = with_availability false (Some (homey__ R e VUndef))
          (with_errors (errors d2 ++ [("Sync error: " ++ e)%string]) d2).
Proof.
  split.
  - unfold result. now rewrite sync_returns.
  - intros done step rest e d1 d2 Hsteps Hdone Hstep.
    unfold run. rewrite sync_sequence, Hsteps. unfold try_catch.
    now rewrite (sequence_app_Throw _ _ _ _ _ _ _ Hdone Hstep).
Qed.

End Catch.

(** ** The account step *)

Lemma number_ltb_count_l q n m :
  (q == inject_Z n)%Q ->
  number_ltb (Fin q) (Fin (inject_Z m)) = (n <? m)%Z.
Proof.
  intros Hq. unfold number_ltb. rewrite Hq. unfold Qcompare. simpl.
  rewrite !Z.mul_1_r. destruct (Z.ltb_spec n m) as [H|H].
  - apply Z.compare_lt_iff in H. now rewrite H.
  - apply Z.compare_ge_iff in H. now destruct (n ?= m)%Z.
Qed.


Lemma truthy_count q n :
  (q == inject_Z n)%Q -> n <> 0%Z -> truthy (VNum (Fin q)) = true.
Proof.
  intros Hq Hn. simpl. apply negb_true_iff.
  destruct (Qeq_bool q 0) eqn:E; [|reflexivity].
  apply Qeq_bool_eq in E. rewrite Hq in E. unfold Qeq in E. simpl in E. lia.
Qed.

Lemma registrations_app d d' l :
  calls d' = calls d ++ l ->
  registrations d d' = length (List.filter is_registration l).
Proof.
  intros E. unfold registrations, new_calls. now rewrite E, drop_app_length.
Qed.

Section Account.

Context (R : Runtime).

Lemma syncAccount_registered d :
  registered d = true -> syncAccount R d = (Ok tt, d).
Proof. intros H. unfold syncAccount. now rewrite bind_gets, H. Qed.

Lemma syncAccount_unavailable d :
  available d = false -> syncAccount R d = (Ok tt, d).
Proof.
  intros H. unfold syncAccount, getAvailable. rewrite bind_gets.
  destruct (registered d); [reflexivity|]. now rewrite bind_gets, H.
Qed.


(** One to three accounts: the account is sent once; when the unit
    accepts it the device is registered and the warning is cleared. *)
Lemma syncAccount_few d q n :
  registered d = false -> available d = true ->
  accounts d = VNum (Fin q) -> (q == inject_Z n)%Q -> (1 <= n <= 3)%Z ->
  syncAccount R d
  = match updateAccountInfo (client d) (calls d) with
    | Ok _ =>
        (Ok tt,
         with_warning None
           (with_registered true
              (with_store (<["registered" := VBool true]> (store d))
                 (with_calls (calls d ++ [UpdateAccountInfo]) d))))
    | Throw e => (Throw e, with_calls (calls d ++ [UpdateAccountInfo]) d)
    end.
Proof.
  intros Hr Ha Hacc Hq Hn. unfold syncAccount, getAvailable.
  rewrite bind_gets, Hr, bind_gets, Ha. cbn [negb].
  rewrite bind_gets, Hacc, (truthy_count q n Hq) by lia. cbn [negb Number].
  change (Fin 4) with (Fin (inject_Z 4)).
  rewrite (number_ltb_count_l q n 4 Hq).
  destruct (Z.ltb_spec n 4) as [_|H]; [|lia].
  unfold registerAccount, getAvailable, client_updateAccountInfo, transport.
  unfold bind at 1. rewrite bind_gets, Ha. cbn [negb].
  unfold bind at 1.
  destruct (updateAccountInfo (client d) (calls d)) as [[]|e]; reflexivity.
Qed.

End Account.

Section Cycle.

Context (R : Runtime).

(** What the steps between the load and the account step leave alone. *)
Lemma before_account_frame {B : Type} (f : device -> B) data d o d3 :
  (forall m d, f (with_capabilityValues m d) = f d) ->
  (forall m d, f (with_settings m d) = f d) ->
  (forall w d, f (with_warning w d) = f d) ->
  (forall l d, f (with_errors l d) = f d) ->
  payload_of data d = Ok (VObj o) ->
  blank R (VObj o) = false ->
  before_account R data d = (Ok tt, d3) ->
  f d3 = f (loaded R o (fetched data d)).
Proof.
  intros H1 H2 H3 H4 Hp Hb E.
  apply before_account_Ok in E as (d1 & d2 & E1 & E2 & E3).
  rewrite (syncAirconStat_object R data d o Hp Hb) in E1.
  injection E1 as <-.
  pose proof (stays_at _ _ _ _ _ (syncCapabilities_frame R f H1) E2) as F2.
  pose proof (stays_at _ _ _ _ _ (syncSettings_frame R f H2 H3 H4) E3) as F3.
  unfold same_on in *. congruence.
Qed.

Lemma calls_fetched data d :
  calls (fetched data d)
  = calls d ++ (if negb (truthy data) then [GetAirconStat] else []).
Proof.
  unfold fetched. destruct (negb (truthy data)); simpl;
    [reflexivity|now rewrite app_nil_r].
Qed.

Lemma registered_fetched data d :
  registered (fetched data d) = registered d.
Proof. unfold fetched. now destruct (negb (truthy data)). Qed.

Lemma warning_fetched data d : warning (fetched data d) = warning d.
Proof. unfold fetched. now destruct (negb (truthy data)). Qed.


End Cycle.

(** ** The settings step *)

Lemma truthy_not_nullish v : truthy v = true -> nullish v = false.
Proof. now destruct v. Qed.

Section Settings.

Context (R : Runtime).

(** The settings step throws on a payload without its version blocks,
    before it has changed anything. *)
Lemma syncSettings_throws d :
  truthy (contents d) = true ->
  nullish (field "wireless" (contents d)) = true
  \/ nullish (field "mcu" (contents d)) = true ->
  syncSettings R d = (Throw (version_error R (contents d)), d).
Proof.
  intros Hc Hmissing. unfold syncSettings, get_prop, version_error.
  rewrite bind_gets, Hc. cbn [negb]. rewrite !bind_gets.
  rewrite (truthy_not_nullish _ Hc), bind_ret.
  destruct (nullish (field "wireless" (contents d))) eqn:Ew.
  - reflexivity.
  - rewrite !bind_ret. destruct Hmissing as [Hw|Hm]; [discriminate|].
    now rewrite Hm.
Qed.

Lemma setFirmwareWarning_run d :
  setFirmwareWarning R d
  = if truthy (firmware d) && negb (strict_eq_string (firmware d) "WF-RAC")
    then (Ok true,
          with_warning (Some (firmware_warning R (firmware d)))
            (with_errors
               (errors d
                ++ [("Firmware '" ++ String_ R (firmware d)
                     ++ "' is not supported")%string]) d))
    else (Ok false, d).
Proof.
  unfold setFirmwareWarning. rewrite bind_gets.
  destruct (truthy (firmware d)); [|reflexivity].
  now destruct (strict_eq_string (firmware d) "WF-RAC").
Qed.

(** When the settings step completes, the warning is the firmware
    warning if the firmware identifier is truthy and not ["WF-RAC"],
    and is cleared otherwise. *)
Lemma syncSettings_warning d d' :
  syncSettings R d = (Ok tt, d') ->
  truthy (contents d) = true ->
  warning d'
  = if truthy (firmware d) && negb (strict_eq_string (firmware d) "WF-RAC")
    then Some (firmware_warning R (firmware d))
    else None.
Proof.
  intros E Hc. revert E. unfold syncSettings, get_prop.
  rewrite bind_gets, Hc. cbn [negb]. rewrite !bind_gets.
  rewrite (truthy_not_nullish _ Hc), bind_ret.
  destruct (nullish (field "wireless" (contents d))); [discriminate|].
  rewrite !bind_ret.
  destruct (nullish (field "mcu" (contents d))); [discriminate|].
  rewrite !bind_ret.
  match goal with
  | |- context [bind (if ?b then setSettings ?s else ret tt) _ d] =>
      assert (Hs : exists m,
                 (if b then setSettings s else ret tt) d
                 = (Ok tt, with_settings m d))
  end.
  { match goal with
    | |- context [if ?b then _ else _] => destruct b
    end.
    - eexists. reflexivity.
    - exists (settings d). unfold ret. now destruct d. }
  destruct Hs as (m & Hs). rewrite (bind_Ok _ _ _ _ _ Hs).
  unfold bind at 1. rewrite setFirmwareWarning_run.
  cbn [firmware with_settings].
  destruct (truthy (firmware d) && negb (strict_eq_string (firmware d) "WF-RAC"));
    intros [= <-]; reflexivity.
Qed.

End Settings.

(** ** Cycles that abort, and the firmware warning *)

#[local] Instance only_capabilities_preorder : PreOrder only_capabilities.
Proof.
  split.
  - intros d. exists (capabilityValues d). now destruct d.
  - intros a b c (m1 & ->) (m2 & ->). now exists m2.
Qed.

Section Abort.

Context (R : Runtime).

Lemma syncCapabilities_only : stays only_capabilities (syncCapabilities R).
Proof. frame ltac:(eexists; reflexivity). Qed.

(** C10. A non-blank payload without a [wireless] or without an [mcu]
    block makes the settings step throw the [TypeError] of reading
    [firmVer] of the missing block, before it changes anything.  The
    cycle then stops before the account step: the device ends
    unavailable with the localised message of an exception, the account
    is not sent, and the registration flag and the warning are as they
    were. *)
Theorem missing_versions_abort data d o :
  payload_of data d = Ok (VObj o) ->
  blank R (VObj o) = false ->
  nullish (field "wireless" (VObj o)) = true
  \/ nullish (field "mcu" (VObj o)) = true ->
  (forall d2, contents d2 = VObj (Obj.remove "airconStat" o) ->
              syncSettings R d2
              = (Throw (version_error R (contents d2)), d2))
  /\ (exists e, result (before_account R data) d = Throw e)
  /\ let d' := run (sync R data) d in
     available d' = false
     /\ (exists e, unavailableMessage d' = Some (homey__ R e VUndef))
     /\ registrations d d' = 0
     /\ registered d' = registered d
     /\ warning d' = warning d.
Proof.
  intros Hp Hb Hmissing.
  assert (Hthrow : forall d2,
             contents d2 = VObj (Obj.remove "airconStat" o) ->
             syncSettings R d2
             = (Throw (version_error R (contents d2)), d2)).
  { intros d2 Hc. apply syncSettings_throws.
    - now rewrite Hc.
    - rewrite Hc, !field_remove_ne by discriminate. exact Hmissing. }
  split; [exact Hthrow|].
  set (d1 := loaded R o (fetched data d)).
  assert (E1 : syncAirconStat R data d = (Ok tt, d1))
    by now apply syncAirconStat_object.
  assert (Hb3 : exists e m,
             before_account R data d
             = (Throw e, with_capabilityValues m d1)).
  { unfold before_account. rewrite (bind_Ok _ _ _ _ _ E1).
    pose proof (syncCapabilities_only d1) as (m & Hm).
    unfold bind.
    destruct (syncCapabilities R d1) as [[[]|e] d2]; simpl in Hm; subst d2.
    - rewrite (Hthrow (with_capabilityValues m d1) eq_refl).
      now eexists _, m.
    - now exists e, m. }
  destruct Hb3 as (e & m & E3). split.
  - exists e. unfold result. now rewrite E3.
  - intros d'.
    assert (Hd' : d' = snd (sync_catch R e (with_capabilityValues m d1))).
    { unfold d', run. now rewrite sync_split, E3. }
    rewrite sync_catch_run in Hd'. simpl in Hd'. rewrite Hd'.
    cbn [available unavailableMessage registered warning
         with_availability with_errors with_capabilityValues].
    repeat split.
    + now exists e.
    + rewrite (registrations_app d _
                 (if negb (truthy data) then [GetAirconStat] else [])).
      * now destruct (negb (truthy data)).
      * subst d1. simpl. apply calls_fetched.
    + subst d1. simpl. apply registered_fetched.
    + subst d1. simpl. apply warning_fetched.
Qed.

(** C2, amended.  When the settings step of a cycle completes on a
    payload whose firmware identifier is truthy and not ["WF-RAC"], it
    leaves the firmware warning set; when the device is already
    registered, the account step leaves it in place, so it is the
    warning at the end of the cycle. *)
Theorem firmware_warning_kept data d o f :
  payload_of data d = Ok (VObj o) ->
  blank R (VObj o) = false ->
  Obj.get "firmType" o = Some f ->
  truthy f = true ->
  strict_eq_string f "WF-RAC" = false ->
  result (before_account R data) d = Ok tt ->
  warning (run (before_account R data) d) = Some (firmware_warning R f)
  /\ (registered d = true ->
      warning (run (sync R data) d) = Some (firmware_warning R f)).
Proof.
  intros Hp Hb Hf Ht Hne Hres. unfold result in Hres. unfold run.
  destruct (before_account R data d) as [r3 d3] eqn:E. simpl in Hres.
  subst r3.
  assert (Hw : warning d3 = Some (firmware_warning R f)).
  { pose proof E as E'.
    apply before_account_Ok in E' as (d1 & d2 & E1 & E2 & E3).
    rewrite (syncAirconStat_object R data d o Hp Hb) in E1.
    injection E1 as <-.
    pose proof (stays_at _ _ _ _ _
                  (syncCapabilities_frame R firmware
                     ltac:(reflexivity)) E2) as F2.
    pose proof (stays_at _ _ _ _ _
                  (syncCapabilities_frame R contents
                     ltac:(reflexivity)) E2) as C2.
    unfold same_on in F2, C2. simpl in F2, C2.
    unfold Obj.has in F2. rewrite Hf in F2.
    rewrite (syncSettings_warning R d2 d3 E3) by now rewrite C2.
    now rewrite F2, Ht, Hne. }
  split; [exact Hw|].
  intros Hr. rewrite sync_split, E. unfold try_catch.
  rewrite syncAccount_registered; [exact Hw|].
  rewrite (before_account_frame R registered data d o d3); auto.
  simpl. now rewrite registered_fetched.
Qed.

End Abort.

(** ** The capability step *)

Section Capabilities.

Context (R : Runtime).

(** One block of [syncCapabilities] on an object. *)
Lemma syncCapability_run s k guard c convert d :
  syncCapability R (VObj s) k guard c convert d
  = (Ok tt,
     if Obj.has k s && bool_decide (guard ∈ capabilities d)
     then with_capabilityValues
            (<[c := convert (field k (VObj s))]> (capabilityValues d)) d
     else d).
Proof.
  unfold syncCapability, has_prop, hasCapability. rewrite bind_ret.
  destruct (Obj.has k s); [|reflexivity].
  rewrite bind_gets. now destruct (bool_decide (guard ∈ capabilities d)).
Qed.

Lemma completes_bind (m k : M unit) :
  (forall d, fst (m d) = Ok tt) -> (forall d, fst (k d) = Ok tt) ->
  forall d, fst ((m ;; k)%js d) = Ok tt.
Proof.
  intros Hm Hk d. unfold bind. specialize (Hm d).
  destruct (m d) as [[[]|e] d']; [apply Hk|exact Hm].
Qed.

(** On an object the capability step completes. *)
Lemma syncCapabilities_object d s :
  airconStat d = VObj s -> result (syncCapabilities R) d = Ok tt.
Proof.
  intros Hs. unfold result, syncCapabilities.
  rewrite bind_gets, Hs. cbn [truthy negb]. unfold syncCapabilitiesOf.
  clear Hs. revert d.
  repeat (apply completes_bind;
          [intros d; now rewrite syncCapability_run|]).
  intros d. now rewrite syncCapability_run.
Qed.



End Capabilities.

(** ** The scenario of the specification *)

Section Scenario.

Context (R : Runtime).

(** Evaluate the first block of a chain on a concrete control block. *)
Ltac block :=
  unfold bind at 1; rewrite syncCapability_run;
  match goal with
  | |- context [Obj.has ?k ?s] =>
      let b := eval vm_compute in (Obj.has k s) in
      change (Obj.has k s) with b
  end;
  cbn [andb capabilities with_capabilityValues].

Lemma syncCapabilities_scenario d :
  airconStat d = VObj [("operation", VBool true); ("airFlow", num 2)] ->
  "onoff" ∈ capabilities d ->
  "fan_speed" ∈ capabilities d ->
  syncCapabilities R d
  = (Ok tt,
     with_capabilityValues
       (<["onoff" := VBool true]>
          (<["fan_speed" := AirFlow R (num 2)]> (capabilityValues d))) d).
Proof.
  intros Hs Honoff Hfan. unfold syncCapabilities.
  rewrite bind_gets, Hs. cbn [truthy negb]. unfold syncCapabilitiesOf.
  block. block. rewrite (bool_decide_eq_true_2 _ Hfan).
  block. block. block. rewrite (bool_decide_eq_true_2 _ Honoff).
  block. block. block.
  rewrite syncCapability_run.
  reflexivity.
Qed.

(** With its version blocks in the payload, the settings step
    completes. *)
Lemma syncSettings_returns d :
  truthy (contents d) = true ->
  nullish (field "wireless" (contents d)) = false ->
  nullish (field "mcu" (contents d)) = false ->
  result (syncSettings R) d = Ok tt.
Proof.
  intros Hc Hw Hm. unfold result, syncSettings, get_prop.
  rewrite bind_gets, Hc. cbn [negb]. rewrite !bind_gets.
  rewrite (truthy_not_nullish _ Hc), bind_ret, Hw, !bind_ret, Hm, !bind_ret.
  match goal with
  | |- context [bind (if ?b then setSettings ?s else ret tt) _ d] =>
      destruct ((if b then setSettings s else ret tt) d) as [[[]|e] ds] eqn:Es;
      [|destruct b; discriminate]
  end.
  rewrite (bind_Ok _ _ _ _ _ Es). unfold bind at 1.
  rewrite setFirmwareWarning_run.
  now destruct (truthy (firmware ds)
                && negb (strict_eq_string (firmware ds) "WF-RAC")).
Qed.

End Scenario.

Section ScenarioClaim.

Context (R : Runtime).

Lemma capabilities_fetched data d :
  capabilities (fetched data d) = capabilities d.
Proof. unfold fetched. now destruct (negb (truthy data)). Qed.

Lemma capabilityValues_fetched data d :
  capabilityValues (fetched data d) = capabilityValues d.
Proof. unfold fetched. now destruct (negb (truthy data)). Qed.

(** C1, amended.  The payload of the scenario, with the [wireless] and
    [mcu] blocks the settings step reads, synchronised on an
    unregistered device that has the on/off and the fan-speed
    capability: afterwards the on/off capability is [true], the fan
    speed is the value mapped from code 2, the account has been sent to
    the unit once and no warning is set. *)
Theorem scenario_with_versions data d w m :
  payload_of data d = Ok (VObj (scenario_with w m)) ->
  blank R (VObj (scenario_with w m)) = false ->
  nullish w = false ->
  nullish m = false ->
  registered d = false ->
  "onoff" ∈ capabilities d ->
  "fan_speed" ∈ capabilities d ->
  let d' := run (sync R data) d in
  capabilityValues d' !! "onoff" = Some (VBool true)
  /\ capabilityValues d' !! "fan_speed" = Some (AirFlow R (num 2))
  /\ registrations d d' = 1
  /\ warning d' = None.
Proof.
  intros Hp Hb Hw Hm Hr Honoff Hfan d'.
  set (o := scenario_with w m) in *.
  set (d1 := loaded R o (fetched data d)).
  assert (E1 : syncAirconStat R data d = (Ok tt, d1))
    by now apply syncAirconStat_object.
  set (d2 := with_capabilityValues
               (<["onoff" := VBool true]>
                  (<["fan_speed" := AirFlow R (num 2)]>
                     (capabilityValues d1))) d1).
  assert (E2 : syncCapabilities R d1 = (Ok tt, d2)).
  { apply syncCapabilities_scenario.
    - reflexivity.
    - subst d1. simpl. now rewrite capabilities_fetched.
    - subst d1. simpl. now rewrite capabilities_fetched. }
  destruct (syncSettings R d2) as [r3 d3] eqn:E3.
  assert (Hr3 : r3 = Ok tt).
  { change r3 with (fst (r3, d3)). rewrite <- E3.
    apply syncSettings_returns; [reflexivity|exact Hw|exact Hm]. }
  subst r3.
  assert (E : before_account R data d = (Ok tt, d3)).
  { unfold before_account.
    now rewrite (bind_Ok _ _ _ _ _ E1), (bind_Ok _ _ _ _ _ E2). }
  assert (Hcaps : capabilityValues d3 = capabilityValues d2).
  { exact (stays_at _ _ _ _ _
             (syncSettings_frame R capabilityValues ltac:(reflexivity)
                ltac:(reflexivity) ltac:(reflexivity)) E3). }
  assert (Hwarn : warning d3 = None).
  { now rewrite (syncSettings_warning R d2 d3 E3). }
  assert (Hr3 : registered d3 = false).
  { rewrite (before_account_frame R registered data d o d3); auto.
    simpl. now rewrite registered_fetched. }
  assert (Ha3 : available d3 = true)
    by now rewrite (before_account_frame R available data d o d3).
  assert (Hacc3 : accounts d3 = VNum (Fin (inject_Z 1)))
    by now rewrite (before_account_frame R accounts data d o d3).
  assert (Hc3 : calls d3
                = calls d
                  ++ (if negb (truthy data) then [GetAirconStat] else [])).
  { rewrite (before_account_frame R calls data d o d3); auto.
    simpl. apply calls_fetched. }
  assert (Hd' : d' = snd (try_catch (syncAccount R) (sync_catch R) d3)).
  { unfold d', run. now rewrite sync_split, E. }
  unfold try_catch in Hd'.
  rewrite (syncAccount_few R d3 (inject_Z 1) 1 Hr3 Ha3 Hacc3) in Hd';
    [|reflexivity|lia].
  assert (Hshape :
            capabilityValues d' = capabilityValues d2
            /\ calls d' = calls d3 ++ [UpdateAccountInfo]
            /\ warning d' = None).
  { rewrite Hd'.
    destruct (updateAccountInfo (client d3) (calls d3)) as [[]|e]; simpl;
      now rewrite Hcaps. }
  destruct Hshape as (Hcv & Hcalls & Hwn).
  rewrite Hcv. subst d2. cbn [capabilityValues with_capabilityValues].
  repeat split.
  - apply lookup_insert_eq.
  - rewrite lookup_insert_ne by discriminate. apply lookup_insert_eq.
  - rewrite (registrations_app d d'
               ((if negb (truthy data) then [GetAirconStat] else [])
                ++ [UpdateAccountInfo])).
    + rewrite List.filter_app, length_app. now destruct (negb (truthy data)).
    + now rewrite Hcalls, Hc3, <- app_assoc.
  - exact Hwn.
Qed.

End ScenarioClaim.

(** ** Partial updates *)

#[local] Instance guarded_preorder {I B : Type} (inv : device -> I)
  (cond : I -> Prop) (f : device -> B) : PreOrder (guarded inv cond f).
Proof.
  split.
  - intros d. now split.
  - intros a b c [Hi1 Hf1] [Hi2 Hf2]. split; [congruence|].
    intros Hc. rewrite Hf2, Hf1; auto. now rewrite Hi1.
Qed.



Lemma has_set key k v o :
  Obj.has key (Obj.set k v o) = true -> key = k \/ Obj.has key o = true.
Proof.
  destruct (String.eqb_spec k key) as [->|Hne]; [now left|].
  unfold Obj.has. rewrite ObjFacts.get_set_ne by exact Hne. now right.
Qed.

Lemma setSettings_keeps key o : forall (m : gmap string value),
  Obj.has key o = false ->
  fold_left (fun m kv => <[fst kv := snd kv]> m) o m !! key = m !! key.
Proof.
  induction o as [|[k v] o IH]; intros m; simpl; [reflexivity|].
  unfold Obj.has. simpl. destruct (String.eqb_spec key k) as [->|Hne].
  - discriminate.
  - intros H. rewrite IH by exact H. now rewrite lookup_insert_ne.
Qed.

Section Partial.

Context (R : Runtime).

Lemma sync_after_load data d d1 :
  syncAirconStat R data d = (Ok tt, d1) ->
  sync R data d
  = try_catch (syncCapabilities R ;; syncSettings R ;; syncAccount R)%js
      (sync_catch R) d1.
Proof. intros E. unfold sync, try_catch, bind. now rewrite E. Qed.

(** The settings step only gives a value to the settings it has a
    filled value for. *)
Lemma syncSettings_keeps key d :
  ~ settings_written R key (settings_input d) ->
  settings (run (syncSettings R) d) !! key = settings d !! key.
Proof.
  intros Hnot. unfold run, syncSettings, get_prop.
  rewrite bind_gets. destruct (truthy (contents d)) eqn:Hc; [|reflexivity].
  cbn [negb]. rewrite !bind_gets.
  rewrite (truthy_not_nullish _ Hc), bind_ret.
  destruct (nullish (field "wireless" (contents d))); [reflexivity|].
  rewrite !bind_ret.
  destruct (nullish (field "mcu" (contents d))); [reflexivity|].
  rewrite !bind_ret.
  match goal with
  | |- context [bind (if ?b then setSettings ?s else ret tt) _ d] =>
      assert (Hs : Obj.has key s = false);
      [|assert (Es : exists m,
                  (if b then setSettings s else ret tt) d
                  = (Ok tt, with_settings m d)
                  /\ m !! key = settings d !! key)]
  end.
  { unfold settings_written, settings_input in Hnot.
    destruct (Obj.has key _) eqn:E; [|reflexivity]. exfalso. apply Hnot.
    repeat match type of E with
           | context [if ?b then _ else _] => destruct b eqn:?
           end;
      repeat match type of E with
             | Obj.has _ (Obj.set _ _ _) = true =>
                 apply has_set in E as [->|E]; [tauto|]
             end;
      discriminate. }
  { match goal with
    | |- context [if ?b then _ else _] => destruct b
    end.
    - eexists. split; [reflexivity|]. now apply setSettings_keeps.
    - exists (settings d). split; [|reflexivity]. unfold ret.
      now destruct d. }
  destruct Es as (m & Es & Hm). rewrite (bind_Ok _ _ _ _ _ Es).
  unfold bind at 1. rewrite setFirmwareWarning_run.
  now destruct (truthy (firmware (with_settings m d))
                && negb (strict_eq_string (firmware (with_settings m d))
                           "WF-RAC")).
Qed.

End Partial.

Section PartialClaim.

Context (R : Runtime).




End PartialClaim.

(** ** The control state *)

Section ControlState.

Context (R : Runtime).

Lemma after_load_airconStat :
  stays (same_on airconStat)
    (try_catch (syncCapabilities R ;; syncSettings R ;; syncAccount R)%js
       (sync_catch R)).
Proof.
  apply stays_try_catch; [|intros e; now apply sync_catch_frame].
  apply stays_bind; [|intros _; apply stays_bind; [|intros _]].
  - now apply syncCapabilities_frame.
  - now apply syncSettings_frame.
  - now apply syncAccount_frame.
Qed.

(** The load keeps the control block or replaces it with the one of
    its payload. *)
Lemma syncAirconStat_controlState data d :
  airconStat (snd (syncAirconStat R data d)) = airconStat d
  \/ exists p, payload_of data d = Ok p
               /\ airconStat (snd (syncAirconStat R data d))
                  = field "airconStat" p.
Proof.
  remember (snd (syncAirconStat R data d)) as d1 eqn:Hd1.
  unfold syncAirconStat in Hd1. unfold payload_of.
  assert (E : (if negb (truthy data) then client_getAirconStat
               else ret data) d
              = (if negb (truthy data)
                 then getAirconStat (client d) (calls d) else Ok data,
                 fetched data d)).
  { unfold fetched. now destruct (negb (truthy data)). }
  unfold bind at 1 in Hd1. rewrite E in Hd1.
  assert (Hf : airconStat (fetched data d) = airconStat d).
  { unfold fetched. now destruct (negb (truthy data)). }
  destruct (if negb (truthy data) then getAirconStat (client d) (calls d)
            else Ok data) as [p|e]; cbv beta iota in Hd1;
    [|subst d1; now left].
  destruct (blank R p); [subst d1; now left|].
  unfold setAvailable, get_prop in Hd1. rewrite bind_modify in Hd1.
  destruct (nullish p); [subst d1; now left|].
  rewrite bind_ret, bind_modify in Hd1.
  right. exists p. split; [reflexivity|]. subst d1.
  match goal with
  | |- airconStat (snd (?m ?d0)) = _ =>
      enough (H : stays (same_on airconStat) m) by exact (H d0)
  end.
  frame unread.
Qed.

(** A synchronisation keeps the control block or replaces it with the
    one of its payload: it never merges into it. *)
Lemma sync_controlState data d :
  airconStat (run (sync R data) d) = airconStat d
  \/ exists p, payload_of data d = Ok p
               /\ airconStat (run (sync R data) d) = field "airconStat" p.
Proof.
  assert (H : airconStat (run (sync R data) d)
              = airconStat (snd (syncAirconStat R data d))).
  { unfold run, sync, try_catch. unfold bind at 1.
    destruct (syncAirconStat R data d) as [[[]|e] d1]; cbn [snd].
    - exact (after_load_airconStat d1).
    - reflexivity. }
  rewrite H. apply syncAirconStat_controlState.
Qed.

Lemma assign_properties_Throw properties d e d' :
  assign_properties R properties d = (Throw e, d') -> d' = d.
Proof.
  destruct (airconStat d) as [| | | | |o] eqn:E.
  6: { now rewrite (assign_properties_object _ _ _ o E). }
  all: destruct properties as [|[k v] rest]; simpl;
    [discriminate|rewrite bind_gets, E; now intros [= _ <-]].
Qed.

Lemma assign_properties_client properties :
  stays (same_on client) (assign_properties R properties).
Proof.
  induction properties as [|[k v] rest IH]; simpl; frame unread.
  all: exact IH.
Qed.

Lemma syncAirconStat_client data :
  stays (same_on client) (syncAirconStat R data).
Proof. frame unread. Qed.

(** A fetch is the one call of [syncAirconStat()]. *)
Lemma syncAirconStat_null_calls d :
  calls (snd (syncAirconStat R VNull d)) = calls d ++ [GetAirconStat].
Proof.
  unfold syncAirconStat. cbn [truthy negb].
  unfold bind at 1, client_getAirconStat, transport.
  destruct (getAirconStat (client d) (calls d)) as [p|e]; [|reflexivity].
  change (calls d ++ [GetAirconStat])
    with (calls (with_calls (calls d ++ [GetAirconStat]) d)) at 2.
  match goal with
  | |- calls (snd (?m ?d0)) = _ =>
      enough (H : stays (same_on calls) m) by exact (H d0)
  end.
  frame unread.
Qed.

(** C9, amended.  The control state changes in two ways only.  A
    synchronisation keeps it or replaces it with the control block of
    its payload.  [updateDevice] leaves it as it was, or as a control
    block the unit returned, or as the merged state, and then that
    state has been sent.  After a send that the unit answers with a
    non-blank payload, the control state is the control block of that
    answer. *)
Theorem controlState_changes properties d :
  let d' := run (updateDevice R properties) d in
  (forall data d0,
      airconStat (run (sync R data) d0) = airconStat d0
      \/ exists p, payload_of data d0 = Ok p
                   /\ airconStat (run (sync R data) d0)
                      = field "airconStat" p)
  /\ (airconStat d' = airconStat d
      \/ (exists h p,
             (getAirconStat (client d) h = Ok p
              \/ exists s, setAirconStat (client d) h s = Ok p)
             /\ airconStat d' = field "airconStat" p)
      \/ In (SetAirconStat (airconStat d')) (new_calls d d'))
  /\ (forall stat r,
        In (SetAirconStat stat) (new_calls d d') ->
        setAirconStat (client d) (calls d ++ [GetAirconStat]) stat
        = Ok (VObj r) ->
        blank R (VObj r) = false ->
        airconStat d' = field "airconStat" (VObj r)).
Proof.
  intros d'. split; [exact sync_controlState|].
  pose proof (updateDevice_sends R properties d) as Hsends.
  fold d' in Hsends. unfold d', run in *. clear d'.
  rewrite updateDevice_unfold in *.
  destruct (available d); cbn [negb] in *.
  2: { split; [now left|]. intros stat r Hin.
       unfold new_calls in Hin. simpl in Hin. rewrite drop_all in Hin.
       destruct Hin. }
  destruct (registered d); cbn [negb] in *.
  2: { split; [now left|]. intros stat r Hin.
       unfold new_calls in Hin. simpl in Hin. rewrite drop_all in Hin.
       destruct Hin. }
  pose proof (syncAirconStat_controlState VNull d) as Hcs.
  pose proof (syncAirconStat_null_calls d) as Hcalls1.
  pose proof (syncAirconStat_client VNull d) as Hclient1.
  unfold same_on in Hclient1.
  assert (Hfetch : forall d1,
             airconStat d1 = airconStat d
             \/ (exists p, payload_of VNull d = Ok p
                           /\ airconStat d1 = field "airconStat" p) ->
             airconStat d1 = airconStat d
             \/ (exists h p,
                    (getAirconStat (client d) h = Ok p
                     \/ exists s, setAirconStat (client d) h s = Ok p)
                    /\ airconStat d1 = field "airconStat" p)
             \/ In (SetAirconStat (airconStat d1))
                   (new_calls d d1)).
  { intros d1 [H|(p & Hp & H)]; [now left|].
    right. left. exists (calls d), p. split; [now left|exact H]. }
  destruct (syncAirconStat R VNull d) as [[[]|e] d1] eqn:E1;
    cbn [snd] in Hcs, Hcalls1, Hclient1.
  2: { rewrite update_catch_run in *. cbn [snd] in *. split.
       - destruct (Hfetch d1 Hcs) as [H|[H|H]].
         + left. exact H.
         + right. left. exact H.
         + right. right. exact H.
       - intros stat r Hin. exfalso.
         rewrite List.Forall_forall in Hsends.
         destruct (Hsends _ Hin stat eq_refl) as (? & ? & [=] & _). }
  pose proof (assign_properties_calls R properties d1) as Hcalls2.
  pose proof (assign_properties_client properties d1) as Hclient2.
  unfold same_on in Hcalls2, Hclient2.
  destruct (assign_properties R properties d1) as [[[]|e] d2] eqn:E2;
    cbn [snd] in Hcalls2, Hclient2.
  2: { assert (d2 = d1) by (eapply assign_properties_Throw; exact E2).
       subst d2.
       rewrite update_catch_run in *. cbn [snd] in *. split.
       - destruct (Hfetch d1 Hcs) as [H|[H|H]].
         + left. exact H.
         + right. left. exact H.
         + right. right. exact H.
       - intros stat r Hin. exfalso.
         rewrite List.Forall_forall in Hsends.
         destruct (Hsends _ Hin stat eq_refl) as (? & ? & [= <-] & HH & _).
         rewrite E2 in HH. discriminate. }
  assert (Hsent : forall d4,
             appends (fun _ => True) (sent d2) d4 ->
             In (SetAirconStat (airconStat d2)) (new_calls d d4)).
  { intros d4 (l & El & _). unfold new_calls. rewrite El. unfold sent.
    simpl. rewrite Hcalls2, Hcalls1, <- !app_assoc, drop_app_length.
    simpl. right. now left. }
  rewrite Hclient2, Hclient1, Hcalls2, Hcalls1.
  rewrite Hclient2, Hclient1, Hcalls2, Hcalls1 in Hsends.
  destruct (setAirconStat (client d) (calls d ++ [GetAirconStat])
              (airconStat d2)) as [response|e] eqn:Esend.
  - cbn [snd] in *.
    assert (Hstat : forall stat,
               In (SetAirconStat stat)
                  (new_calls d (run (sync R response) (sent d2))) ->
               stat = airconStat d2).
    { intros stat Hin. rewrite List.Forall_forall in Hsends.
      destruct (Hsends _ Hin stat eq_refl) as (? & ? & [= <-] & E & ->).
      rewrite E2 in E. now injection E as <-. }
    split.
    + destruct (sync_controlState response (sent d2)) as [H|(p & Hp & H)].
      * right. right. rewrite H. apply Hsent.
        pose proof (sync_no_send R response (sent d2)) as (l & El & _).
        exists l. split; [exact El|]. clear. induction l; constructor; auto.
      * right. left. unfold payload_of in Hp.
        destruct (negb (truthy response)).
        -- exists (calls (sent d2)), p. split; [left|exact H].
           unfold sent in Hp. simpl in Hp. unfold sent. simpl.
           now rewrite <- Hclient1, <- Hclient2.
        -- injection Hp as <-.
           exists (calls d ++ [GetAirconStat]), response.
           split; [right; now exists (airconStat d2)|exact H].
    + intros stat r Hin Hr Hb. apply Hstat in Hin. subst stat.
      rewrite Esend in Hr. injection Hr as ->.
      unfold run.
      rewrite (sync_after_load R (VObj r) (sent d2)
                 (loaded R r (fetched (VObj r) (sent d2)))).
      * now rewrite (after_load_airconStat _).
      * now apply syncAirconStat_object.
  - rewrite update_catch_run in *. cbn [snd] in *. split.
    + right. right. apply (Hsent (with_errors _ (sent d2))).
      exists []. simpl. split; [now rewrite app_nil_r|constructor].
    + intros stat r Hin Hr. exfalso.
      rewrite List.Forall_forall in Hsends.
      destruct (Hsends _ Hin stat eq_refl) as (? & ? & [= <-] & E & ->).
      rewrite E2 in E. injection E as <-. congruence.
Qed.

End ControlState.

(** C1 as stated fails.  The payload of the scenario has no [wireless]
    block: on an unregistered, available device the capabilities are set,
    then the settings step throws, the account is not sent and the device
    ends unavailable. *)
Lemma scenario_aborts :
  let d' := run (sync Fixture.runtime Fixture.scenario) Examples.unregistered in
  (registered Examples.unregistered = false
   /\ available Examples.unregistered = true)
  /\ capabilityValues d' !! "onoff" = Some (VBool true)
  /\ capabilityValues d' !! "fan_speed"
     = Some (AirFlow Fixture.runtime (num 2))
  /\ registrations Examples.unregistered d' = 0
  /\ registered d' = false
  /\ available d' = false
  /\ unavailableMessage d'
     = Some "Cannot read properties of undefined (reading 'firmVer')".
Proof. vm_compute. repeat split. Qed.

(** The scenario with its version blocks on a fresh unregistered
    device. *)
Lemma scenario_with_versions_witness :
  let d' :=
    run (sync Fixture.runtime
           (VObj (scenario_with (VObj [("firmVer", VStr "010")])
                    (VObj [("firmVer", VStr "123")]))))
      Examples.unregistered in
  capabilityValues d' !! "onoff" = Some (VBool true)
  /\ capabilityValues d' !! "fan_speed"
     = Some (AirFlow Fixture.runtime (num 2))
  /\ registrations Examples.unregistered d' = 1
  /\ warning d' = None.
Proof.
  apply (scenario_with_versions Fixture.runtime
           (VObj (scenario_with (VObj [("firmVer", VStr "010")])
                    (VObj [("firmVer", VStr "123")])))
           Examples.unregistered
           (VObj [("firmVer", VStr "010")]) (VObj [("firmVer", VStr "123")])).
  - reflexivity.
  - reflexivity.
  - reflexivity.
  - reflexivity.
  - reflexivity.
  - vm_compute. reflexivity.
  - vm_compute. reflexivity.
Defined.

(** C2 as stated fails.  On an unregistered device the account step runs
    after the settings step in the same cycle: with five accounts it
    replaces the firmware warning by the warning for too many accounts,
    with one account it registers and clears the warning. *)
Lemma firmware_warning_replaced :
  let many := Fixture.full Examples.running 5 "WF-RAC-2" in
  let one := Fixture.full Examples.running 1 "WF-RAC-2" in
  (warning (run (before_account Fixture.runtime many) Examples.unregistered)
   = Some (firmware_warning Fixture.runtime (VStr "WF-RAC-2"))
   /\ warning (run (sync Fixture.runtime many) Examples.unregistered)
      = Some (homey__ Fixture.runtime "warning.accounts" VUndef)
   /\ homey__ Fixture.runtime "warning.accounts" VUndef
      <> firmware_warning Fixture.runtime (VStr "WF-RAC-2"))
  /\ (warning (run (before_account Fixture.runtime one) Examples.unregistered)
      = Some (firmware_warning Fixture.runtime (VStr "WF-RAC-2"))
      /\ warning (run (sync Fixture.runtime one) Examples.unregistered)
         = None).
Proof. vm_compute. repeat split. discriminate. Qed.

(** An unsupported firmware identifier on a registered device. *)
Lemma firmware_warning_kept_witness :
  let payload := Fixture.full Examples.running 1 "WF-RAC-2" in
  warning (run (before_account Fixture.runtime payload)
             Examples.registered_device)
  = Some "warning.firmware:WF-RAC-2"
  /\ warning (run (sync Fixture.runtime payload) Examples.registered_device)
     = Some "warning.firmware:WF-RAC-2".
Proof.
  destruct (firmware_warning_kept Fixture.runtime
              (Fixture.full Examples.running 1 "WF-RAC-2")
              Examples.registered_device
              [("airconStat", Examples.running); ("numOfAccount", num 1);
               ("firmType", VStr "WF-RAC-2");
               ("wireless", VObj [("firmVer", VStr "010")]);
               ("mcu", VObj [("firmVer", VStr "123")])]
              (VStr "WF-RAC-2")) as [H1 H2].
  - reflexivity.
  - reflexivity.
  - reflexivity.
  - reflexivity.
  - reflexivity.
  - vm_compute. reflexivity.
  - split; [exact H1|]. apply H2. reflexivity.
Defined.


(** A cycle in which the settings step throws: the account step is not
    run. *)
Lemma sync_catches_once_witness :
  let d1 :=
    run (sequence [syncAirconStat Fixture.runtime Fixture.scenario;
                   syncCapabilities Fixture.runtime]) Examples.unregistered in
  run (sync Fixture.runtime Fixture.scenario) Examples.unregistered
  = with_availability false
      (Some "Cannot read properties of undefined (reading 'firmVer')")
      (with_errors
         ["Sync error: Cannot read properties of undefined (reading 'firmVer')"]
         d1).
Proof.
  intros d1.
  apply (proj2 (sync_catches_once Fixture.runtime Fixture.scenario
                  Examples.unregistered)
           [syncAirconStat Fixture.runtime Fixture.scenario;
            syncCapabilities Fixture.runtime]
           (syncSettings Fixture.runtime)
           [syncAccount Fixture.runtime]
           "Cannot read properties of undefined (reading 'firmVer')"
           d1 d1).
  - reflexivity.
  - vm_compute. reflexivity.
  - vm_compute. reflexivity.
Defined.


(** The payload of the scenario, which has no version blocks. *)
Lemma missing_versions_abort_witness :
  let d' := run (sync Fixture.runtime Fixture.scenario) Examples.unregistered in
  available d' = false
  /\ registrations Examples.unregistered d' = 0
  /\ registered d' = registered Examples.unregistered
  /\ warning d' = warning Examples.unregistered.
Proof.
  destruct (missing_versions_abort Fixture.runtime Fixture.scenario
              Examples.unregistered
              [("airconStat",
                VObj [("operation", VBool true); ("airFlow", num 2)]);
               ("numOfAccount", num 1);
               ("firmType", VStr "WF-RAC")])
    as (_ & _ & H1 & _ & H2 & H3 & H4).
  - reflexivity.
  - reflexivity.
  - left. reflexivity.
  - repeat split; assumption.
Defined.

(** C9 as stated fails.  When the unit does not answer the send, the
    control state is the merged state that was sent, and no answer
    replaces it.  The same holds when the unit answers with an empty
    object, which the load rejects as blank. *)
Lemma merged_state_stays :
  let failed :=
    run (updateDevice Fixture.runtime [("presetTemp", num 24)])
      Examples.deaf in
  let unanswered :=
    run (updateDevice Fixture.runtime [("presetTemp", num 24)])
      Examples.mute in
  (In (SetAirconStat Examples.warmer) (new_calls Examples.deaf failed)
   /\ airconStat failed = Examples.warmer
   /\ ~ exists response,
          setAirconStat (client Examples.deaf)
            (calls Examples.deaf ++ [GetAirconStat]) Examples.warmer
          = Ok response
          /\ airconStat failed = field "airconStat" response)
  /\ (In (SetAirconStat Examples.warmer) (new_calls Examples.mute unanswered)
      /\ setAirconStat (client Examples.mute)
           (calls Examples.mute ++ [GetAirconStat]) Examples.warmer
         = Ok (VObj [])
      /\ airconStat unanswered = Examples.warmer
      /\ airconStat unanswered <> field "airconStat" (VObj [])).
Proof.
  split; [split; [|split]|].
  - vm_compute. right. left. reflexivity.
  - vm_compute. reflexivity.
  - intros (response & H & _). vm_compute in H. discriminate.
  - vm_compute. repeat split; [right; left; reflexivity|discriminate].
Qed.

(** A unit that answers the send with the state it was sent. *)
Lemma controlState_changes_witness :
  airconStat
    (run (updateDevice Fixture.runtime [("presetTemp", num 24)])
       Examples.at_home)
  = Examples.warmer.
Proof.
  apply (proj2 (proj2 (controlState_changes Fixture.runtime
                         [("presetTemp", num 24)]
                         Examples.at_home))
           Examples.warmer
           [("airconStat", Examples.warmer); ("numOfAccount", num 1);
            ("firmType", VStr "WF-RAC");
            ("wireless", VObj [("firmVer", VStr "010")]);
            ("mcu", VObj [("firmVer", VStr "123")])]).
  - vm_compute. right. left. reflexivity.
  - reflexivity.
  - reflexivity.
Defined.

(** * Further properties *)

(** ** The monad, continued *)

Lemma bind_ext {A B : Type} (m : M A) (k k' : A -> M B) d :
  (forall a d', k a d' = k' a d') -> bind m k d = bind m k' d.
Proof.
  intros H. unfold bind. destruct (m d) as [[a|e] d']; [apply H|reflexivity].
Qed.

Lemma bind_ret_tt (m : M unit) d : bind m (fun _ => ret tt) d = m d.
Proof. unfold bind, ret. now destruct (m d) as [[[]|e] d']. Qed.

#[local] Instance keeps_preorder (P : device -> Prop) : PreOrder (keeps P).
Proof.
  split.
  - intros d H. exact H.
  - intros a b c Hab Hbc H. apply Hbc, Hab, H.
Qed.

(** ** The capability step, block by block *)

Section Blocks.

Context (R : Runtime).

Lemma syncCapabilitiesOf_blocks stat d :
  syncCapabilitiesOf R stat d
  = sequence (map (run_block R stat) (capability_blocks R)) d.
Proof.
  unfold syncCapabilitiesOf, capability_blocks. cbn [map sequence run_block].
  repeat (apply bind_ext; intros [] ?).
  symmetry. apply bind_ret_tt.
Qed.

(** The blocks of a list, on an object: they complete, change the
    capability values only, leave alone the capabilities that are no
    target, and a target holds the converted field when its field is in
    the object and the device has the tested capability, and is left
    alone otherwise. *)
Lemma blocks_run s l : forall d,
  exists m,
    sequence (map (run_block R (VObj s)) l) d
    = (Ok tt, with_capabilityValues m d)
    /\ (forall c0, ~ In c0 (map block_target l) ->
                   m !! c0 = capabilityValues d !! c0)
    /\ (List.NoDup (map block_target l) ->
        forall k guard c convert, In (k, guard, c, convert) l ->
          m !! c
          = if Obj.has k s && bool_decide (guard ∈ capabilities d)
            then Some (convert (field k (VObj s)))
            else capabilityValues d !! c).
Proof.
  induction l as [|[[[k0 g0] c0] conv0] l IH]; intros d.
  - exists (capabilityValues d). cbn [map sequence]. unfold ret.
    split; [now destruct d|]. split; [reflexivity|]. intros _ ? ? ? ? [].
  - cbn [map sequence run_block]. unfold bind at 1.
    rewrite syncCapability_run.
    set (d1 := if Obj.has k0 s && bool_decide (g0 ∈ capabilities d)
               then with_capabilityValues
                      (<[c0 := conv0 (field k0 (VObj s))]>
                         (capabilityValues d)) d
               else d).
    assert (Hcaps : capabilities d1 = capabilities d)
      by (subst d1; now destruct (_ && _)).
    assert (Hshape : d1 = with_capabilityValues (capabilityValues d1) d).
    { subst d1. destruct (_ && _); [reflexivity|now destruct d]. }
    destruct (IH d1) as (m & Em & Hrest & Htargets). exists m.
    split; [|split].
    + rewrite Em. now rewrite Hshape at 1.
    + intros c Hc. cbn [map] in Hc.
      rewrite Hrest by (intros H; apply Hc; right; exact H).
      subst d1. destruct (_ && _); [|reflexivity].
      cbn [capabilityValues with_capabilityValues].
      apply lookup_insert_ne. intros ->. apply Hc. now left.
    + intros Hnd k guard c convert [E|Hin].
      * injection E as <- <- <- <-. cbn [map] in Hnd.
        apply List.NoDup_cons_iff in Hnd as [Hnotin _].
        rewrite Hrest by exact Hnotin.
        subst d1. destruct (_ && _); [|reflexivity].
        cbn [capabilityValues with_capabilityValues].
        apply lookup_insert_eq.
      * cbn [map] in Hnd. apply List.NoDup_cons_iff in Hnd as [Hnotin Hnd].
        rewrite (Htargets Hnd k guard c convert Hin), Hcaps.
        destruct (Obj.has k s && bool_decide (guard ∈ capabilities d));
          [reflexivity|].
        subst d1. destruct (_ && _); [|reflexivity].
        cbn [capabilityValues with_capabilityValues].
        apply lookup_insert_ne. intros Heq. apply Hnotin.
        cbn [block_target fst snd]. rewrite Heq.
        exact (List.in_map block_target l (k, guard, c, convert) Hin).
Qed.

Lemma capability_targets_blocks :
  map block_target (capability_blocks R) = capability_targets.
Proof. reflexivity. Qed.

Lemma capability_targets_NoDup : List.NoDup capability_targets.
Proof.
  unfold capability_targets.
  repeat (apply List.NoDup_cons;
          [cbn [In]; intros H; repeat (destruct H as [H|H]; [discriminate|]);
           exact H|]).
  apply List.NoDup_nil.
Qed.

End Blocks.

(** ** Whole cycles *)

Section Cycles.

Context (R : Runtime).

(** What holds of every step after the load and of the [catch] block
    holds from the load to the end of the cycle. *)
Lemma sync_rel (Rel : relation device) `{!PreOrder Rel} data d :
  stays Rel (syncCapabilities R) ->
  stays Rel (syncSettings R) ->
  stays Rel (syncAccount R) ->
  (forall e, stays Rel (sync_catch R e)) ->
  Rel (snd (syncAirconStat R data d)) (run (sync R data) d).
Proof.
  intros H2 H3 H4 Hc. unfold run, sync, try_catch. unfold bind at 1.
  destruct (syncAirconStat R data d) as [[[]|e] d1]; cbn [snd].
  - assert (H : stays Rel
                  (try_catch
                     (syncCapabilities R ;; syncSettings R ;; syncAccount R)%js
                     (sync_catch R))).
    { apply stays_try_catch; [|exact Hc].
      apply stays_bind; [exact H2|intros _].
      apply stays_bind; [exact H3|intros _; exact H4]. }
    exact (H d1).
  - apply Hc.
Qed.

(** The load changes the fields of the instance, the availability and
    the calls, and nothing else. *)
Lemma syncAirconStat_frame {B : Type} (f : device -> B) data :
  (forall b m d, f (with_availability b m d) = f d) ->
  (forall v d, f (with_airconStat v d) = f d) ->
  (forall v d, f (with_contents v d) = f d) ->
  (forall v d, f (with_accounts v d) = f d) ->
  (forall v d, f (with_firmware v d) = f d) ->
  (forall l d, f (with_calls l d) = f d) ->
  stays (same_on f) (syncAirconStat R data).
Proof.
  intros H1 H2 H3 H4 H5 H6.
  frame ltac:(unfold same_on, transport; cbn [snd];
              rewrite ?H1, ?H2, ?H3, ?H4, ?H5, ?H6; auto).
Qed.

Lemma after_capabilities_values :
  stays (same_on capabilityValues)
    (try_catch (syncSettings R ;; syncAccount R)%js (sync_catch R)).
Proof.
  apply stays_try_catch; [|intros e; now apply sync_catch_frame].
  apply stays_bind; [|intros _].
  - now apply syncSettings_frame.
  - now apply syncAccount_frame.
Qed.

(** X1. A cycle on a non-blank payload whose control block is an object
    sets each of the nine capabilities from its field: the capability of
    a block holds the converted value of the field when the field is in
    the control block and the device has the capability the block tests,
    and keeps its value otherwise.  This holds whatever the later steps
    do. *)
Theorem present_fields_mapped data d o s :
  payload_of data d = Ok (VObj o) ->
  blank R (VObj o) = false ->
  field "airconStat" (VObj o) = VObj s ->
  forall k guard c convert,
    In (k, guard, c, convert) (capability_blocks R) ->
    capabilityValues (run (sync R data) d) !! c
    = if Obj.has k s && bool_decide (guard ∈ capabilities d)
      then Some (convert (field k (VObj s)))
      else capabilityValues d !! c.
Proof.
  intros Hp Hb Hs k guard c convert Hin.
  set (d1 := loaded R o (fetched data d)).
  assert (E1 : syncAirconStat R data d = (Ok tt, d1))
    by now apply syncAirconStat_object.
  destruct (blocks_run R s (capability_blocks R) d1) as (m & Em & _ & Hm).
  assert (E2 : syncCapabilities R d1 = (Ok tt, with_capabilityValues m d1)).
  { unfold syncCapabilities. rewrite bind_gets.
    replace (airconStat d1) with (VObj s) by (symmetry; exact Hs).
    cbn [truthy negb]. now rewrite syncCapabilitiesOf_blocks. }
  assert (E : sync R data d
              = try_catch (syncSettings R ;; syncAccount R)%js (sync_catch R)
                  (with_capabilityValues m d1)).
  { unfold sync, try_catch. unfold bind at 1. rewrite E1.
    unfold bind at 1. now rewrite E2. }
  unfold run. rewrite E, (after_capabilities_values _).
  cbn [capabilityValues with_capabilityValues].
  rewrite (Hm (capability_targets_NoDup) k guard c convert Hin).
  subst d1. cbn [capabilities capabilityValues loaded with_firmware
                 with_accounts with_contents with_airconStat
                 with_availability].
  now rewrite capabilities_fetched, capabilityValues_fetched.
Qed.

(** X2. No cycle, whatever its payload and whatever happens in it,
    changes the value of a capability other than the nine that
    [syncCapabilities] sets. *)
Theorem other_capabilities_untouched data d c :
  ~ In c capability_targets ->
  capabilityValues (run (sync R data) d) !! c = capabilityValues d !! c.
Proof.
  intros Hc.
  assert (Hinsert : forall c' v (m : gmap string value),
             In c' capability_targets -> <[c' := v]> m !! c = m !! c).
  { intros c' v m Hin. apply lookup_insert_ne. intros ->. now apply Hc. }
  assert (H2 : stays (same_on (fun d => capabilityValues d !! c))
                 (syncCapabilities R)).
  { frame ltac:(unfold same_on; cbn [capabilityValues with_capabilityValues];
                apply Hinsert; cbn [capability_targets In]; tauto). }
  pose proof (sync_rel (same_on (fun d => capabilityValues d !! c)) data d
                H2
                ltac:(now apply syncSettings_frame)
                ltac:(now apply syncAccount_frame)
                ltac:(intros e; now apply sync_catch_frame)) as H.
  unfold same_on in H. rewrite H.
  now apply (syncAirconStat_frame (fun d => capabilityValues d !! c)).
Qed.

End Cycles.

(** ** Settings *)

Lemma get_not_in k o : ~ In k (map fst o) -> Obj.get k o = None.
Proof.
  induction o as [|[k0 v0] o IH]; simpl; [reflexivity|]. intros H.
  destruct (String.eqb_spec k k0) as [->|Hne]; [tauto|]. apply IH. tauto.
Qed.

(** [setSettings] on an object whose keys are distinct stores each of its
    entries and keeps the other settings. *)
Lemma setSettings_lookup o : forall (m : gmap string value) k,
  List.NoDup (map fst o) ->
  fold_left (fun m kv => <[fst kv := snd kv]> m) o m !! k
  = match Obj.get k o with
    | Some v => Some v
    | None => m !! k
    end.
Proof.
  induction o as [|[k0 v0] o IH]; intros m k Hnd; simpl; [reflexivity|].
  apply List.NoDup_cons_iff in Hnd as [Hnotin Hnd]. cbn [map fst] in Hnotin.
  rewrite IH by exact Hnd. destruct (String.eqb_spec k k0) as [->|Hne].
  - rewrite (get_not_in _ _ Hnotin). apply lookup_insert_eq.
  - destruct (Obj.get k o); [reflexivity|]. now apply lookup_insert_ne.
Qed.

Section SettingsStored.

Context (R : Runtime).

(** When the settings step completes, each of the four settings it has a
    filled value for holds that value, [filled] being true of an object
    that has a key. *)
Lemma syncSettings_stores d d' :
  syncSettings R d = (Ok tt, d') ->
  truthy (contents d) = true ->
  (forall o, o <> [] -> filled R (VObj o) = true) ->
  (truthy (accounts d) = true ->
   settings d' !! "accounts" = Some (VStr (String_ R (accounts d))))
  /\ (filled R (firmware d) = true ->
      settings d' !! "firmware_type" = Some (firmware d))
  /\ (filled R (field "firmVer" (field "wireless" (contents d))) = true ->
      settings d' !! "wifi_firmware"
      = Some (field "firmVer" (field "wireless" (contents d))))
  /\ (filled R (field "firmVer" (field "mcu" (contents d))) = true ->
      settings d' !! "mcu_firmware"
      = Some (field "firmVer" (field "mcu" (contents d)))).
Proof.
  intros E Hc Hfilled. revert E. unfold syncSettings, get_prop.
  rewrite bind_gets, Hc. cbn [negb]. rewrite !bind_gets.
  rewrite (truthy_not_nullish _ Hc), bind_ret.
  destruct (nullish (field "wireless" (contents d))); [discriminate|].
  rewrite !bind_ret.
  destruct (nullish (field "mcu" (contents d))); [discriminate|].
  rewrite !bind_ret.
  set (acc := truthy (accounts d)).
  set (fw := filled R (firmware d)).
  set (wifi := filled R (field "firmVer" (field "wireless" (contents d)))).
  set (mcu := filled R (field "firmVer" (field "mcu" (contents d)))).
  match goal with
  | |- context [bind (if ?b then setSettings ?s else ret tt) _ d] =>
      set (S := s);
      assert (Hnd : List.NoDup (map fst S));
      [|assert (Hne : S <> [] -> filled R (VObj S) = true) by apply Hfilled;
        assert (Es : exists m,
                   (if filled R (VObj S) then setSettings S else ret tt) d
                   = (Ok tt, with_settings m d)
                   /\ forall k v, Obj.get k S = Some v -> m !! k = Some v)]
  end.
  { subst S. destruct mcu, wifi, fw, acc; cbn;
      repeat (apply List.NoDup_cons;
              [cbn [In]; intros H;
               repeat (destruct H as [H|H]; [discriminate|]); exact H|]);
      apply List.NoDup_nil. }
  { destruct (filled R (VObj S)) eqn:Ef.
    - eexists. split; [reflexivity|]. intros k v Hk.
      cbn [settings with_settings]. now rewrite setSettings_lookup, Hk.
    - exists (settings d). split; [unfold ret; now destruct d|].
      intros k v Hk.
      assert (HS : S <> []) by (intros HS; rewrite HS in Hk; simpl in Hk; discriminate).
      discriminate (Hne HS). }
  destruct Es as (m & Es & Hm). rewrite (bind_Ok _ _ _ _ _ Es).
  unfold bind at 1. rewrite setFirmwareWarning_run.
  cbn [firmware with_settings].
  assert (Hd' : forall r x, (r, x) = (Ok tt, d') -> settings x = m ->
                            settings d' = m).
  { intros r x [= _ <-] H. exact H. }
  intros E.
  assert (Hset : settings d' = m).
  { revert E.
    destruct (truthy (firmware d)
              && negb (strict_eq_string (firmware d) "WF-RAC"));
      intros [= <-]; reflexivity. }
  rewrite Hset. clear E Hd' Hset.
  repeat split; intros H; apply Hm; subst S;
    unfold acc, fw, wifi, mcu in *; rewrite ?H;
    repeat match goal with
           | |- context [if ?b then _ else _] => destruct b
           end;
    reflexivity.
Qed.

End SettingsStored.

(** ** Commands, path by path *)

Section Commands.

Context (R : Runtime).

Lemma assign_properties_frame {B : Type} (f : device -> B) properties :
  (forall v d, f (with_airconStat v d) = f d) ->
  stays (same_on f) (assign_properties R properties).
Proof.
  intros H. induction properties as [|[k v] rest IH]; simpl.
  - apply stays_ret.
  - frame ltac:(unfold same_on; rewrite ?H; auto). exact IH.
Qed.

(** What holds of a cycle, of the fetch, of the loop, of the send and of
    the error log holds of a command. *)
Lemma updateDevice_rel (Rel : relation device) `{!PreOrder Rel}
    properties d :
  (forall data, stays Rel (sync R data)) ->
  stays Rel (syncAirconStat R VNull) ->
  stays Rel (assign_properties R properties) ->
  (forall d, Rel d (sent d)) ->
  (forall l d, Rel d (with_errors l d)) ->
  Rel d (run (updateDevice R properties) d).
Proof.
  intros Hsync Hload Hassign Hsent Herr. unfold run.
  rewrite updateDevice_unfold.
  destruct (negb (available d)); [apply Herr|].
  destruct (negb (registered d)); [rewrite update_catch_run; apply Herr|].
  pose proof (Hload d) as H1.
  destruct (syncAirconStat R VNull d) as [[[]|e] d1]; cbn [snd] in H1.
  2: { rewrite update_catch_run. cbn [snd]. etransitivity; [exact H1|].
       apply Herr. }
  pose proof (Hassign d1) as H2.
  destruct (assign_properties R properties d1) as [[[]|e] d2];
    cbn [snd] in H2.
  2: { rewrite update_catch_run. cbn [snd].
       etransitivity; [exact H1|]. etransitivity; [exact H2|]. apply Herr. }
  destruct (setAirconStat (client d2) (calls d2) (airconStat d2))
    as [response|e]; cbn [snd].
  - etransitivity; [exact H1|]. etransitivity; [exact H2|].
    etransitivity; [apply Hsent|]. apply Hsync.
  - rewrite update_catch_run. cbn [snd].
    etransitivity; [exact H1|]. etransitivity; [exact H2|].
    etransitivity; [apply Hsent|]. apply Herr.
Qed.

(** What holds of every step and of the [catch] block holds of a
    cycle. *)
Lemma sync_stays (Rel : relation device) `{!PreOrder Rel} :
  (forall data, stays Rel (syncAirconStat R data)) ->
  stays Rel (syncCapabilities R) ->
  stays Rel (syncSettings R) ->
  stays Rel (syncAccount R) ->
  (forall e, stays Rel (sync_catch R e)) ->
  forall data, stays Rel (sync R data).
Proof.
  intros H1 H2 H3 H4 Hc data d.
  etransitivity; [apply (H1 data d)|].
  now apply (sync_rel R Rel data d).
Qed.

End Commands.

Section MoreCycles.

Context (R : Runtime).

Lemma syncSettings_other_setting key :
  ~ In key setting_keys ->
  stays (same_on (fun d => settings d !! key)) (syncSettings R).
Proof.
  intros Hkey d. apply syncSettings_keeps.
  unfold settings_written, settings_input.
  intros [[-> _]|[[-> _]|[[-> _]|[-> _]]]]; apply Hkey;
    cbn [setting_keys In]; tauto.
Qed.

Lemma sync_other_setting key data :
  ~ In key setting_keys ->
  stays (same_on (fun d => settings d !! key)) (sync R data).
Proof.
  intros Hkey. apply sync_stays.
  - apply _.
  - intros data'. now apply syncAirconStat_frame.
  - now apply syncCapabilities_frame.
  - now apply syncSettings_other_setting.
  - now apply syncAccount_frame.
  - intros e. now apply sync_catch_frame.
Qed.

(** X3. Neither a cycle nor a command changes a setting other than the
    four that [syncSettings] stores: the network settings written by
    [setNetwork] survive every cycle and every command. *)
Theorem other_settings_untouched key :
  ~ In key setting_keys ->
  (forall data d, settings (run (sync R data) d) !! key = settings d !! key)
  /\ (forall properties d,
         settings (run (updateDevice R properties) d) !! key
         = settings d !! key).
Proof.
  intros Hkey. split.
  - intros data d. now apply (sync_other_setting key data).
  - intros properties d.
    apply (updateDevice_rel R (same_on (fun d => settings d !! key))).
    + intros data. now apply sync_other_setting.
    + now apply syncAirconStat_frame.
    + now apply assign_properties_frame.
    + reflexivity.
    + reflexivity.
Qed.

(** X4. When the steps before the account step complete on a non-blank
    payload, each setting that the payload has a value for holds that
    value at the end of the cycle: the account count as a string when it
    is truthy, the firmware identifier and the two firmware versions when
    they are filled ([filled] being true of an object that has a
    key). *)
Theorem present_settings_stored data d o :
  payload_of data d = Ok (VObj o) ->
  blank R (VObj o) = false ->
  (forall o', o' <> [] -> filled R (VObj o') = true) ->
  result (before_account R data) d = Ok tt ->
  let d' := run (sync R data) d in
  (forall v, Obj.get "numOfAccount" o = Some v ->
             truthy (VNum (Number R v)) = true ->
             settings d' !! "accounts"
             = Some (VStr (NumberToString R (Number R v))))
  /\ (forall f, Obj.get "firmType" o = Some f -> filled R f = true ->
                settings d' !! "firmware_type" = Some f)
  /\ (filled R (field "firmVer" (field "wireless" (VObj o))) = true ->
      settings d' !! "wifi_firmware"
      = Some (field "firmVer" (field "wireless" (VObj o))))
  /\ (filled R (field "firmVer" (field "mcu" (VObj o))) = true ->
      settings d' !! "mcu_firmware"
      = Some (field "firmVer" (field "mcu" (VObj o)))).
Proof.
  intros Hp Hb Hfilled Hres d'. unfold result in Hres.
  destruct (before_account R data d) as [r3 d3] eqn:E. simpl in Hres.
  subst r3.
  assert (Hset : settings d' = settings d3).
  { unfold d', run. rewrite sync_split, E. unfold try_catch.
    pose proof (syncAccount_frame R settings ltac:(reflexivity)
                  ltac:(reflexivity) ltac:(reflexivity) ltac:(reflexivity)
                  ltac:(reflexivity) d3) as H4.
    destruct (syncAccount R d3) as [[[]|e] d4]; cbn [snd] in *.
    - exact H4.
    - rewrite sync_catch_run. cbn [snd settings with_availability
                                   with_errors]. exact H4. }
  apply before_account_Ok in E as (d1 & d2 & E1 & E2 & E3).
  rewrite (syncAirconStat_object R data d o Hp Hb) in E1.
  injection E1 as <-.
  assert (Hin : settings_input d2
                = settings_input (loaded R o (fetched data d))).
  { exact (stays_at _ _ _ _ _
             (syncCapabilities_frame R settings_input ltac:(reflexivity))
             E2). }
  unfold settings_input in Hin. cbn in Hin.
  injection Hin as Hacc Hfw Hcon.
  assert (Hc : truthy (contents d2) = true) by now rewrite Hcon.
  destruct (syncSettings_stores R d2 d3 E3 Hc Hfilled)
    as (S1 & S2 & S3 & S4).
  rewrite Hset. rewrite Hacc in S1. rewrite Hfw in S2.
  rewrite Hcon in S3, S4.
  rewrite !field_remove_ne in S3, S4 by discriminate.
  repeat split.
  - intros v Hv Ht. unfold Obj.has in S1. rewrite Hv in S1. cbn in S1.
    now apply S1.
  - intros f Hf Hfl. unfold Obj.has in S2. rewrite Hf in S2. cbn in S2.
    now apply S2.
  - exact S3.
  - exact S4.
Qed.

End MoreCycles.

Section Aborts.

Context (R : Runtime).

Lemma errors_fetched data d : errors (fetched data d) = errors d.
Proof. unfold fetched. now destruct (negb (truthy data)). Qed.

Lemma syncCapabilities_primitive d :
  truthy (airconStat d) = true ->
  (forall s, airconStat d <> VObj s) ->
  syncCapabilities R d
  = (Throw (type_error_message R (InOfPrimitive "entrust" (airconStat d))),
     d).
Proof.
  intros Ht Hv. unfold syncCapabilities. rewrite bind_gets, Ht.
  cbn [negb]. unfold syncCapabilitiesOf, syncCapability at 1, has_prop.
  destruct (airconStat d) as [| |b|n|s|s]; try reflexivity.
  now destruct (Hv s).
Qed.

(** X5. A payload whose control block is a primitive other than a falsy
    one (a number, a string, [true]) stops the cycle at the first
    capability block, where [in] throws: the payload has been stored, no
    capability, setting or warning has been touched, the account step
    has not run, and the device is unavailable with the localised
    message of the [TypeError]. *)
Theorem primitive_control_block_aborts data d o :
  payload_of data d = Ok (VObj o) ->
  blank R (VObj o) = false ->
  truthy (field "airconStat" (VObj o)) = true ->
  (forall s, field "airconStat" (VObj o) <> VObj s) ->
  let e := type_error_message R
             (InOfPrimitive "entrust" (field "airconStat" (VObj o))) in
  run (sync R data) d
  = with_availability false (Some (homey__ R e VUndef))
      (with_errors (errors d ++ [("Sync error: " ++ e)%string])
         (loaded R o (fetched data d))).
Proof.
  intros Hp Hb Ht Hv e. unfold run. rewrite sync_split.
  unfold before_account. unfold bind at 1.
  rewrite (syncAirconStat_object R data d o Hp Hb).
  unfold bind.
  rewrite (syncCapabilities_primitive (loaded R o (fetched data d)) Ht Hv).
  rewrite sync_catch_run. cbn [snd]. fold e.
  replace (errors (loaded R o (fetched data d))) with (errors d);
    [reflexivity|].
  unfold loaded. cbn. now rewrite errors_fetched.
Qed.

(** X6. When the unit does not answer the fetch of a cycle, the cycle
    changes nothing but the availability, the error log and the call
    log: the control state, the capability values, the settings, the
    warning and the registration are those of before. *)
Theorem fetch_failure_keeps_state data d e :
  payload_of data d = Throw e ->
  run (sync R data) d
  = with_availability false (Some (homey__ R e VUndef))
      (with_errors (errors d ++ [("Sync error: " ++ e)%string])
         (with_calls (calls d ++ [GetAirconStat]) d)).
Proof.
  unfold payload_of. intros Hp. unfold run. rewrite sync_split.
  unfold before_account, syncAirconStat.
  destruct (negb (truthy data)); [|discriminate].
  unfold client_getAirconStat, transport, bind. rewrite Hp.
  now rewrite sync_catch_run.
Qed.

Lemma syncAirconStat_availability data d p :
  payload_of data d = Ok p ->
  let d1 := snd (syncAirconStat R data d) in
  if blank R p
  then available d1 = available d
       /\ unavailableMessage d1 = unavailableMessage d
  else available d1 = true /\ unavailableMessage d1 = None.
Proof.
  intros Hp. cbn zeta. unfold payload_of in Hp. unfold syncAirconStat.
  assert (Hfetch :
    (if negb (truthy data) then client_getAirconStat else ret data) d
    = (Ok p, fetched data d)).
  { unfold fetched. destruct (negb (truthy data)).
    - unfold client_getAirconStat, transport. now rewrite Hp.
    - now injection Hp as ->. }
  rewrite (bind_Ok _ _ _ _ _ Hfetch).
  destruct (blank R p).
  - cbn. unfold fetched. now destruct (negb (truthy data)).
  - unfold setAvailable. rewrite bind_modify.
    set (d0 := with_availability true None (fetched data d)).
    set (rest := (stat <- get_prop R p "airconStat" ;; _)%js).
    assert (Hrest : stays (same_on (fun d => (available d,
                                              unavailableMessage d)))
                      rest).
    { subst rest. frame unread. }
    specialize (Hrest d0). unfold same_on in Hrest.
    now injection Hrest as -> ->.
Qed.

(** X7. A cycle whose four steps complete leaves the device available
    when its payload is not blank, and as available as it was when the
    payload is blank: the steps after the first never change the
    availability. *)
Theorem completed_cycle_availability data d p :
  payload_of data d = Ok p ->
  result (sequence (sync_steps R data)) d = Ok tt ->
  let d' := run (sync R data) d in
  available d' = (if blank R p then available d else true)
  /\ unavailableMessage d'
     = (if blank R p then unavailableMessage d else None).
Proof.
  intros Hp Hres d'. unfold result in Hres.
  pose proof (syncAirconStat_availability data d p Hp) as H1.
  cbn zeta in H1.
  assert (Hrel : (available d', unavailableMessage d')
                 = (available (snd (syncAirconStat R data d)),
                    unavailableMessage (snd (syncAirconStat R data d)))).
  { unfold d', run. rewrite sync_sequence. unfold try_catch.
    destruct (sequence (sync_steps R data) d) as [r d4] eqn:E.
    cbn [fst] in Hres. subst r. cbn [snd].
    unfold sync_steps, sequence in E.
    revert E. unfold bind at 1.
    destruct (syncAirconStat R data d) as [[[]|e1] d1]; [|discriminate].
    cbn [snd]. intros E.
    assert (Hrest : stays (same_on (fun d => (available d,
                                              unavailableMessage d)))
                      (syncCapabilities R ;; syncSettings R ;;
                       syncAccount R ;; ret tt)%js).
    { apply stays_bind; [now apply syncCapabilities_frame|intros _].
      apply stays_bind; [now apply syncSettings_frame|intros _].
      apply stays_bind; [now apply syncAccount_frame|intros _].
      apply stays_ret. }
    exact (stays_at _ _ _ _ _ Hrest E). }
  injection Hrel as -> ->.
  destruct (blank R p); destruct H1 as [-> ->]; now split.
Qed.

End Aborts.

(** ** The registration *)

#[local] Instance registration_step_preorder : PreOrder registration_step.
Proof.
  split.
  - intros d. now left.
  - intros a b c [[H1 H2]|[H1 H2]] [[H3 H4]|[H3 H4]]; unfold registration_step.
    + left. split; congruence.
    + right. split; congruence.
    + right. split; congruence.
    + right. split; [exact H3|]. rewrite H4, H2. apply insert_insert_eq.
Qed.

#[local] Instance settled_registration_preorder :
  PreOrder settled_registration.
Proof.
  split.
  - intros d Hr. split; [exact Hr|]. split; reflexivity.
  - intros a b c Hab Hbc Ha.
    destruct (Hab Ha) as (Hb & Hs & Hl).
    destruct (Hbc Hb) as (Hc & Hs' & Hl').
    repeat split; [exact Hc|congruence|].
    etransitivity; [exact Hl|exact Hl'].
Qed.

Ltac account_step leaf :=
  lazymatch goal with
  | |- stays _ (setRegistered _) => intros ?; leaf
  | _ => frame_step leaf
  end.

Section Registration.

Context (R : Runtime).

Lemma stays_registration_step {A : Type} (m : M A) :
  stays (same_on (fun d => (registered d, store d))) m ->
  stays registration_step m.
Proof.
  intros H d. specialize (H d). unfold same_on in H.
  injection H as H1 H2. now left.
Qed.

Lemma stays_settled_registration {A : Type} (m : M A) :
  stays (same_on (fun d => (registered d, store d))) m ->
  stays (appends (fun c => is_registration c = false)) m ->
  stays settled_registration m.
Proof.
  intros H Hl d Hr. specialize (H d). unfold same_on in H.
  injection H as H1 H2. repeat split; [congruence|exact H2|apply Hl].
Qed.

Lemma syncAccount_registration : stays registration_step (syncAccount R).
Proof.
  unfold syncAccount, registerAccount, getAvailable, error, setWarning,
    unsetWarning, client_updateAccountInfo.
  repeat account_step
    ltac:(unfold registration_step;
          first [left; split; reflexivity|right; split; reflexivity]).
Qed.

Lemma syncAccount_settled : stays settled_registration (syncAccount R).
Proof.
  intros d Hr. rewrite (syncAccount_registered R d Hr). cbn [snd].
  repeat split; [exact Hr|]. reflexivity.
Qed.

Lemma syncAirconStat_no_registration data :
  stays (appends (fun c => is_registration c = false))
    (syncAirconStat R data).
Proof. frame one_call. Qed.

Lemma syncCapabilities_no_call P : stays (appends P) (syncCapabilities R).
Proof. frame one_call. Qed.

Lemma syncSettings_no_call P : stays (appends P) (syncSettings R).
Proof. frame one_call. Qed.

Lemma assign_properties_no_call P properties :
  stays (appends P) (assign_properties R properties).
Proof.
  induction properties as [|[k v] rest IH]; simpl.
  - apply stays_ret.
  - frame one_call. exact IH.
Qed.

Lemma sync_registration data : stays registration_step (sync R data).
Proof.
  apply sync_stays.
  - apply _.
  - intros data'. apply stays_registration_step.
    now apply syncAirconStat_frame.
  - apply stays_registration_step. now apply syncCapabilities_frame.
  - apply stays_registration_step. now apply syncSettings_frame.
  - apply syncAccount_registration.
  - intros e. apply stays_registration_step. now apply sync_catch_frame.
Qed.

Lemma sync_settled data : stays settled_registration (sync R data).
Proof.
  apply sync_stays.
  - apply _.
  - intros data'. apply stays_settled_registration.
    + now apply syncAirconStat_frame.
    + apply syncAirconStat_no_registration.
  - apply stays_settled_registration.
    + now apply syncCapabilities_frame.
    + apply syncCapabilities_no_call.
  - apply stays_settled_registration.
    + now apply syncSettings_frame.
    + apply syncSettings_no_call.
  - apply syncAccount_settled.
  - intros e. apply stays_settled_registration.
    + now apply sync_catch_frame.
    + apply sync_catch_no_call.
Qed.

Lemma updateDevice_settled properties d :
  settled_registration d (run (updateDevice R properties) d).
Proof.
  apply (updateDevice_rel R settled_registration).
  - apply sync_settled.
  - apply stays_settled_registration.
    + now apply syncAirconStat_frame.
    + apply syncAirconStat_no_registration.
  - apply stays_settled_registration.
    + now apply assign_properties_frame.
    + apply assign_properties_no_call.
  - intros d0 Hr. repeat split; [exact Hr|].
    eexists [_]. split; [reflexivity|]. now repeat constructor.
  - intros l d0 Hr. repeat split; [exact Hr|].
    exists []. cbn. split; [now rewrite app_nil_r|constructor].
Qed.

(** X8. Once the stored flag [registered] agrees with the flag of the
    driver, it agrees after every cycle and after every command: the
    flag changes in [setRegistered] only, which stores it. *)
Theorem registration_stored_kept d :
  registration_stored d ->
  (forall data, registration_stored (run (sync R data) d))
  /\ (forall properties,
         registration_stored (run (updateDevice R properties) d)).
Proof.
  assert (Hstep : forall d', registration_step d d' ->
                             registration_stored d ->
                             registration_stored d').
  { unfold registration_stored.
    intros d' [[-> ->]|[-> ->]] H; [exact H|apply lookup_insert_eq]. }
  intros H. split.
  - intros data. apply Hstep; [apply sync_registration|exact H].
  - intros properties. apply Hstep; [|exact H].
    apply (updateDevice_rel R registration_step).
    + apply sync_registration.
    + apply stays_registration_step. now apply syncAirconStat_frame.
    + apply stays_registration_step. now apply assign_properties_frame.
    + intros d0. now left.
    + intros l d0. now left.
Qed.

(** X9. A cycle on a registered device leaves it registered, leaves the
    store alone and does not send the account to the unit. *)
Theorem registered_device_stays data d :
  registered d = true ->
  let d' := run (sync R data) d in
  registered d' = true /\ store d' = store d /\ registrations d d' = 0.
Proof.
  intros Hr d'. destruct (sync_settled data d Hr) as (H1 & H2 & H3).
  repeat split; [exact H1|exact H2|]. now apply registrations_none.
Qed.

(** X10. A command never changes the registration: whatever the device
    and the answers of the unit, [updateDevice] leaves the flag and the
    store as they were and does not send the account. *)
Theorem command_keeps_registration properties d :
  let d' := run (updateDevice R properties) d in
  registered d' = registered d /\ store d' = store d
  /\ registrations d d' = 0.
Proof.
  intros d'. destruct (registered d) eqn:Hr.
  - destruct (updateDevice_settled properties d Hr) as (H1 & H2 & H3).
    repeat split; [exact H1|exact H2|]. now apply registrations_none.
  - unfold d', run. rewrite updateDevice_unfold, Hr. cbn [negb].
    destruct (negb (available d)); [|rewrite update_catch_run];
      cbn [snd]; (repeat split; [exact Hr|]);
      apply registrations_none; exists []; cbn;
      (split; [now rewrite app_nil_r|constructor]).
Qed.

End Registration.

(** ** Commands: calls, outcome and the state sent *)

#[local] Instance kept_if_registered_preorder {B : Type}
    (f : device -> B) : PreOrder (kept_if_registered f).
Proof.
  split.
  - intros d Hr. now split.
  - intros a b c Hab Hbc Ha. destruct (Hab Ha) as [Hb Hf].
    destruct (Hbc Hb) as [Hc Hf']. split; [exact Hc|congruence].
Qed.

Section CommandCalls.

Context (R : Runtime).

Lemma new_calls_app d d' l : calls d' = calls d ++ l -> new_calls d d' = l.
Proof. intros E. unfold new_calls. rewrite E. apply drop_app_length. Qed.






Lemma syncAirconStat_stays_available data :
  stays (keeps (fun d => available d = true)) (syncAirconStat R data).
Proof. frame ltac:(unfold keeps, transport; cbn; auto). Qed.

(** X12. A command that rejects carries the localised text of the
    message it caught, has logged that message last, and leaves the
    device available: unlike a cycle, a command does not mark the device
    unavailable when the unit does not answer. *)
Theorem rejected_command properties d m :
  result (updateDevice R properties) d = Throw m ->
  let d' := run (updateDevice R properties) d in
  exists e, m = homey__ R e VUndef
            /\ last (errors d') = Some ("Update error: " ++ e)%string
            /\ available d' = true.
Proof.
  unfold result, run. rewrite updateDevice_unfold.
  destruct (available d) eqn:Ha; cbn [negb]; [|discriminate].
  assert (Hcatch : forall e d0,
            available d0 = true ->
            fst (update_catch R e d0) = Throw m ->
            exists e0, m = homey__ R e0 VUndef
                       /\ last (errors (snd (update_catch R e d0)))
                          = Some ("Update error: " ++ e0)%string
                       /\ available (snd (update_catch R e d0)) = true).
  { intros e d0 Hd0. rewrite update_catch_run. cbn [fst snd].
    intros [= <-]. exists e. split; [reflexivity|]. split; [|exact Hd0].
    cbn. apply last_snoc. }
  destruct (registered d); cbn [negb]; [|now apply Hcatch].
  pose proof (syncAirconStat_stays_available VNull d Ha) as H1.
  destruct (syncAirconStat R VNull d) as [[[]|e] d1]; cbn [snd] in H1;
    [|now apply Hcatch].
  pose proof (assign_properties_frame R available properties
                ltac:(reflexivity) d1) as H2.
  destruct (assign_properties R properties d1) as [[[]|e] d2];
    cbn [snd] in H2; unfold same_on in H2;
    [|apply Hcatch; congruence].
  destruct (setAirconStat (client d2) (calls d2) (airconStat d2))
    as [response|e]; [discriminate|].
  apply Hcatch. cbn. congruence.
Qed.

Lemma merge_get_ne properties : forall o k,
  ~ In k (map fst properties) ->
  Obj.get k (merge properties o) = Obj.get k o.
Proof.
  induction properties as [|[k0 v0] rest IH]; intros o k Hk;
    [reflexivity|].
  unfold merge in *. cbn [fold_left fst snd].
  rewrite IH by (intros H; apply Hk; right; exact H).
  apply ObjFacts.get_set_ne. intros ->. apply Hk. now left.
Qed.

Lemma merge_get_in properties : forall o k v,
  List.NoDup (map fst properties) -> In (k, v) properties ->
  Obj.get k (merge properties o) = Some v.
Proof.
  induction properties as [|[k0 v0] rest IH]; intros o k v Hnd Hin;
    [destruct Hin|].
  cbn [map fst] in Hnd. apply List.NoDup_cons_iff in Hnd as [Hk0 Hnd].
  unfold merge in *. cbn [fold_left fst snd].
  destruct Hin as [[= -> ->]|Hin].
  - fold (merge rest (Obj.set k v o)).
    rewrite (merge_get_ne rest _ k Hk0). apply ObjFacts.get_set_eq.
  - now apply IH.
Qed.

Lemma syncAirconStat_null_stat d d1 :
  syncAirconStat R VNull d = (Ok tt, d1) ->
  exists p, getAirconStat (client d) (calls d) = Ok p
            /\ airconStat d1 = merge_base R p d.
Proof.
  unfold syncAirconStat, merge_base. cbn [truthy negb].
  unfold client_getAirconStat at 1, transport at 1, bind at 1.
  destruct (getAirconStat (client d) (calls d)) as [p|e]; [|discriminate].
  intros E. exists p. split; [reflexivity|].
  destruct (blank R p).
  - now injection E as <-.
  - revert E. unfold setAvailable. rewrite bind_modify.
    unfold get_prop. destruct (nullish p); [discriminate|].
    rewrite bind_ret, bind_modify.
    set (d0 := with_airconStat _ _).
    set (rest := (modify (with_contents _) ;; _)%js).
    assert (Hrest : stays (same_on airconStat) rest).
    { subst rest. frame unread. }
    intros E. now rewrite (stays_at _ _ _ _ _ Hrest E).
Qed.

(** X13. The state a command sends differs from the control state it
    merged into in the keys of the patch only, and holds the value of
    the patch at each of them.  That control state is the control block
    the unit answered the fetch with, or, when the answer was blank, the
    one the device held. *)
Theorem sent_state_patched properties d stat :
  List.NoDup (map fst properties) ->
  In (SetAirconStat stat)
     (new_calls d (run (updateDevice R properties) d)) ->
  exists p, getAirconStat (client d) (calls d) = Ok p
            /\ (forall k v, In (k, v) properties -> field k stat = v)
            /\ (forall k, ~ In k (map fst properties) ->
                          field k stat = field k (merge_base R p d)).
Proof.
  intros Hnd Hin. pose proof (updateDevice_sends R properties d) as H.
  rewrite List.Forall_forall in H.
  destruct (H _ Hin stat eq_refl) as (d1 & d2 & E1 & E2 & ->).
  destruct (syncAirconStat_null_stat d d1 E1) as (p & Hp & Hbase).
  exists p. split; [exact Hp|]. rewrite <- Hbase.
  apply assign_properties_Ok in E2 as [[-> ->]|(o & Ho & ->)].
  - split; [intros k v []|reflexivity].
  - rewrite Ho. cbn [airconStat with_airconStat field]. split.
    + intros k v Hkv. now rewrite (merge_get_in properties o k v Hnd Hkv).
    + intros k Hk. now rewrite (merge_get_ne properties o k Hk).
Qed.

End CommandCalls.

(** ** The account step *)

Section AccountStep.

Context (R : Runtime).

Lemma not_below_four q :
  number_ltb (Fin q) (Fin 4) = false -> number_ltb (Fin 3) (Fin q) = true.
Proof.
  unfold number_ltb. intros H.
  assert (Hq : (3 < q)%Q).
  { apply Qlt_le_trans with (y := 4%Q); [reflexivity|].
    apply Qnot_lt_le. intros Hlt.
    pose proof (proj1 (Qlt_alt q 4) Hlt) as Hc.
    rewrite Hc in H. discriminate. }
  pose proof (proj1 (Qlt_alt 3 q) Hq) as Hc. now rewrite Hc.
Qed.

(** The account step on an unregistered, available device with a count
    below four: the account is sent, and stored when the unit accepts
    it. *)
Lemma syncAccount_below d :
  registered d = false -> available d = true ->
  truthy (accounts d) = true ->
  number_ltb (Number R (accounts d)) (Fin 4) = true ->
  syncAccount R d
  = match updateAccountInfo (client d) (calls d) with
    | Ok _ =>
        (Ok tt,
         with_warning None
           (with_registered true
              (with_store (<["registered" := VBool true]> (store d))
                 (with_calls (calls d ++ [UpdateAccountInfo]) d))))
    | Throw e => (Throw e, with_calls (calls d ++ [UpdateAccountInfo]) d)
    end.
Proof.
  intros Hr Ha Ht Hlt. unfold syncAccount. rewrite bind_gets, Hr.
  unfold getAvailable. rewrite bind_gets, Ha. cbn [negb].
  rewrite bind_gets, Ht. cbn [negb]. rewrite Hlt.
  unfold registerAccount, getAvailable, client_updateAccountInfo,
    transport, bind. cbn. rewrite Ha. cbn.
  now destruct (updateAccountInfo (client d) (calls d)).
Qed.

(** The account step with a count that is a number not below four. *)
Lemma syncAccount_above d :
  registered d = false -> available d = true ->
  truthy (accounts d) = true -> numeric (accounts d) = true ->
  number_ltb (Number R (accounts d)) (Fin 4) = false ->
  syncAccount R d
  = (Ok tt,
     with_errors (errors d ++ ["warning.accounts"])
       (with_warning (Some (homey__ R "warning.accounts" VUndef)) d)).
Proof.
  intros Hr Ha Ht Hn Hlt. unfold syncAccount. rewrite bind_gets, Hr.
  unfold getAvailable. rewrite bind_gets, Ha. cbn [negb].
  rewrite bind_gets, Ht. cbn [negb]. rewrite Hlt, bind_ret, bind_gets.
  unfold getAccountWarning. rewrite Hr, Ht. cbn [negb].
  destruct (accounts d) as [| | |[|q]| |]; try discriminate.
  cbn [Number] in *. now rewrite (not_below_four q Hlt).
Qed.

(** The account step when there is no count. *)
Lemma syncAccount_unset d :
  registered d = false -> available d = true ->
  truthy (accounts d) = false ->
  syncAccount R d
  = (Ok tt,
     with_errors
       (errors d ++ ["[Sync] [Account] Number of accounts not set"]) d).
Proof.
  intros Hr Ha Ht. unfold syncAccount. rewrite bind_gets, Hr.
  unfold getAvailable. rewrite bind_gets, Ha. cbn [negb].
  now rewrite bind_gets, Ht.
Qed.

(** The warnings the account step can leave when the account count is a
    number or [null]: the one for too many accounts, or none, or the one
    there was. *)
Lemma syncAccount_warning d :
  numeric (accounts d) = true ->
  let d' := snd (syncAccount R d) in
  warning d' = warning d \/ warning d' = None
  \/ warning d' = Some (homey__ R "warning.accounts" VUndef).
Proof.
  intros Hn. cbn zeta.
  destruct (registered d) eqn:Hr;
    [rewrite (syncAccount_registered R d Hr); now left|].
  destruct (available d) eqn:Ha;
    [|rewrite (syncAccount_unavailable R d Ha); now left].
  destruct (truthy (accounts d)) eqn:Ht;
    [|rewrite (syncAccount_unset d Hr Ha Ht); now left].
  destruct (number_ltb (Number R (accounts d)) (Fin 4)) eqn:Hlt.
  - rewrite (syncAccount_below d Hr Ha Ht Hlt).
    destruct (updateAccountInfo (client d) (calls d));
      [right|]; now left.
  - rewrite (syncAccount_above d Hr Ha Ht Hn Hlt). right. now right.
Qed.

Lemma syncSettings_Throw d e d' :
  syncSettings R d = (Throw e, d') -> d' = d.
Proof.
  destruct (truthy (contents d)) eqn:Hc.
  - destruct (nullish (field "wireless" (contents d))) eqn:Hw.
    { rewrite (syncSettings_throws R d Hc (or_introl Hw)).
      now intros [= _ <-]. }
    destruct (nullish (field "mcu" (contents d))) eqn:Hm.
    { rewrite (syncSettings_throws R d Hc (or_intror Hm)).
      now intros [= _ <-]. }
    pose proof (syncSettings_returns R d Hc Hw Hm) as Hok.
    unfold result in Hok. intros E. rewrite E in Hok. discriminate.
  - unfold syncSettings. rewrite bind_gets, Hc. discriminate.
Qed.

End AccountStep.

(** ** Cycles on an object payload, step by step *)

Section LoadedCycles.

Context (R : Runtime).

Lemma before_account_object data d o :
  payload_of data d = Ok (VObj o) ->
  blank R (VObj o) = false ->
  before_account R data d
  = (syncCapabilities R ;; syncSettings R)%js (loaded R o (fetched data d)).
Proof.
  intros Hp Hb. unfold before_account.
  now rewrite (bind_Ok _ _ _ _ _ (syncAirconStat_object R data d o Hp Hb)).
Qed.

Lemma after_load_frame {B : Type} (f : device -> B) :
  (forall m d, f (with_capabilityValues m d) = f d) ->
  (forall m d, f (with_settings m d) = f d) ->
  (forall w d, f (with_warning w d) = f d) ->
  (forall l d, f (with_errors l d) = f d) ->
  stays (same_on f) (syncCapabilities R ;; syncSettings R)%js.
Proof.
  intros H1 H2 H3 H4. apply stays_bind.
  - now apply syncCapabilities_frame.
  - intros _. now apply syncSettings_frame.
Qed.

(** The warning the settings step leaves for the firmware [f]. *)
Lemma after_load_warning d1 r d3 :
  (syncCapabilities R ;; syncSettings R)%js d1 = (r, d3) ->
  truthy (contents d1) = true ->
  match r with
  | Ok _ =>
      warning d3
      = if truthy (firmware d1)
           && negb (strict_eq_string (firmware d1) "WF-RAC")
        then Some (firmware_warning R (firmware d1))
        else None
  | Throw _ => warning d3 = warning d1
  end.
Proof.
  unfold bind. intros E Hc.
  pose proof (syncCapabilities_frame R
                (fun d => (warning d, firmware d, contents d))
                ltac:(reflexivity) d1) as H2.
  destruct (syncCapabilities R d1) as [[[]|e] d2]; cbn [snd] in H2;
    unfold same_on in H2; injection H2 as Hw Hf Hcon.
  - destruct r as [[]|e].
    + rewrite <- Hf. apply (syncSettings_warning R d2 d3 E). congruence.
    + apply syncSettings_Throw in E. congruence.
  - now injection E as <- <-.
Qed.

(** What the account step finds when the steps before it complete. *)
Lemma before_account_leaves data d o d3 :
  payload_of data d = Ok (VObj o) ->
  blank R (VObj o) = false ->
  before_account R data d = (Ok tt, d3) ->
  registered d3 = registered d /\ available d3 = true
  /\ accounts d3 = accounts (loaded R o d)
  /\ calls d3 = calls (fetched data d)
  /\ store d3 = store d /\ client d3 = client d.
Proof.
  intros Hp Hb E. rewrite (before_account_object data d o Hp Hb) in E.
  pose proof (stays_at _ _ _ _ _
                (after_load_frame
                   (fun d => (registered d, available d, accounts d,
                              calls d, store d, client d))
                   ltac:(reflexivity) ltac:(reflexivity)
                   ltac:(reflexivity) ltac:(reflexivity)) E) as H.
  unfold same_on in H. injection H as -> -> -> -> -> ->.
  unfold loaded, fetched. destruct (negb (truthy data)); now cbn.
Qed.

(** X14. When the payload of a cycle on an unregistered device has no
    account count, or a count of zero, and the steps before the account
    step complete, the account step only reports that the count is not
    set: the account is not sent, the cycle completes and no warning is
    shown for it. *)
Theorem unset_account_count data d o d3 :
  registered d = false ->
  payload_of data d = Ok (VObj o) ->
  blank R (VObj o) = false ->
  before_account R data d = (Ok tt, d3) ->
  truthy (accounts (loaded R o d)) = false ->
  let d' := run (sync R data) d in
  d' = with_errors
         (errors d3 ++ ["[Sync] [Account] Number of accounts not set"]) d3
  /\ registrations d d' = 0.
Proof.
  intros Hr Hp Hb E Ht d'.
  destruct (before_account_leaves data d o d3 Hp Hb E)
    as (H1 & H2 & H3 & H4 & _).
  assert (Hd' : d' = with_errors
                       (errors d3
                        ++ ["[Sync] [Account] Number of accounts not set"])
                       d3).
  { unfold d', run. rewrite sync_split, E. unfold try_catch.
    rewrite syncAccount_unset; [reflexivity|congruence|exact H2|congruence]. }
  split; [exact Hd'|].
  rewrite Hd'. erewrite registrations_app.
  2: { cbn. rewrite H4. apply calls_fetched. }
  now destruct (negb (truthy data)).
Qed.

(** X15. The warnings a cycle on an object payload can leave: the one of
    before, none, the one for the firmware of the payload, or the one
    for too many accounts.  The account step never shows the warning for
    an unregistered device: with a count below four it registers, and
    from four on the count is too high. *)
Theorem cycle_warnings data d o :
  payload_of data d = Ok (VObj o) ->
  blank R (VObj o) = false ->
  let d' := run (sync R data) d in
  warning d' = warning d \/ warning d' = None
  \/ warning d' = Some (firmware_warning R (firmware (loaded R o d)))
  \/ warning d' = Some (homey__ R "warning.accounts" VUndef).
Proof.
  intros Hp Hb d'. unfold d', run. rewrite sync_split.
  rewrite (before_account_object data d o Hp Hb).
  set (d1 := loaded R o (fetched data d)).
  assert (Hw1 : warning d1 = warning d).
  { unfold d1, loaded, fetched. now destruct (negb (truthy data)). }
  assert (Hf1 : firmware d1 = firmware (loaded R o d)) by reflexivity.
  assert (Hn1 : numeric (accounts d1) = true).
  { unfold d1, loaded. cbn. now destruct (Obj.has "numOfAccount" o). }
  destruct ((syncCapabilities R ;; syncSettings R)%js d1) as [r d3] eqn:E.
  pose proof (after_load_warning d1 r d3 E eq_refl) as Hw3.
  pose proof (stays_at _ _ _ _ _
                (after_load_frame accounts
                   ltac:(reflexivity) ltac:(reflexivity)
                   ltac:(reflexivity) ltac:(reflexivity)) E) as Ha3.
  unfold same_on in Ha3.
  destruct r as [[]|e].
  - assert (H3 : warning d3 = None
                 \/ warning d3
                    = Some (firmware_warning R (firmware (loaded R o d)))).
    { rewrite Hw3, Hf1. destruct (_ && _); [now right|now left]. }
    assert (H4 : warning (snd (try_catch (syncAccount R) (sync_catch R) d3))
                 = warning (snd (syncAccount R d3))).
    { unfold try_catch. destruct (syncAccount R d3) as [[[]|e] d4];
        [reflexivity|]. now rewrite sync_catch_run. }
    rewrite H4.
    destruct (syncAccount_warning R d3) as [H|[H|H]];
      [congruence|rewrite H..].
    + destruct H3 as [->| ->]; [right; now left|right; right; now left].
    + right. now left.
    + right. right. now right.
  - rewrite sync_catch_run. cbn. left. congruence.
Qed.

(** X16. The registration of a cycle.  On an unregistered device whose
    payload has a count below four, and whose steps before the account
    step complete, the account is sent.  When the unit accepts it the
    device is registered, the flag is stored, no warning is left and the
    device is available; when the unit refuses it the device stays
    unregistered with its store and is unavailable with the localised
    message of the refusal. *)
Theorem registration_outcome data d o :
  registered d = false ->
  payload_of data d = Ok (VObj o) ->
  blank R (VObj o) = false ->
  result (before_account R data) d = Ok tt ->
  truthy (accounts (loaded R o d)) = true ->
  number_ltb (Number R (accounts (loaded R o d))) (Fin 4) = true ->
  let d' := run (sync R data) d in
  registrations d d' = 1
  /\ match updateAccountInfo (client d) (calls (fetched data d)) with
     | Ok _ =>
         registered d' = true
         /\ store d' !! "registered" = Some (VBool true)
         /\ warning d' = None /\ available d' = true
     | Throw e =>
         registered d' = false /\ store d' = store d
         /\ available d' = false
         /\ unavailableMessage d' = Some (homey__ R e VUndef)
     end.
Proof.
  intros Hr Hp Hb Hres Ht Hlt d'. unfold result in Hres.
  destruct (before_account R data d) as [r d3] eqn:E. cbn [fst] in Hres.
  subst r.
  destruct (before_account_leaves data d o d3 Hp Hb E)
    as (H1 & H2 & H3 & H4 & H5 & H6).
  assert (Hd' : d' = snd (try_catch (syncAccount R) (sync_catch R) d3)).
  { unfold d', run. now rewrite sync_split, E. }
  rewrite Hd'. unfold try_catch.
  rewrite syncAccount_below; [|congruence|exact H2|congruence..].
  rewrite H6, H4.
  destruct (updateAccountInfo (client d) (calls (fetched data d)))
    as [[]|e].
  - cbn [snd]. split.
    + erewrite registrations_app.
      2: { cbn. rewrite calls_fetched, <- app_assoc. reflexivity. }
      rewrite List.filter_app, length_app. now destruct (negb (truthy data)).
    + cbn. repeat split; [|exact H2]. apply lookup_insert_eq.
  - rewrite sync_catch_run. cbn [snd]. split.
    + erewrite registrations_app.
      2: { cbn. rewrite calls_fetched, <- app_assoc. reflexivity. }
      rewrite List.filter_app, length_app. now destruct (negb (truthy data)).
    + cbn. repeat split; congruence.
Qed.

End LoadedCycles.

(** ** What a blank payload leaves, and the shape of what is stored *)

Section Stored.

Context (R : Runtime).

Lemma syncAirconStat_blank data d p :
  payload_of data d = Ok p -> blank R p = true ->
  syncAirconStat R data d = (Ok tt, fetched data d).
Proof.
  unfold payload_of. intros Hp Hb. unfold syncAirconStat.
  assert (Hfetch :
    (if negb (truthy data) then client_getAirconStat else ret data) d
    = (Ok p, fetched data d)).
  { unfold fetched. destruct (negb (truthy data)).
    - unfold client_getAirconStat, transport. now rewrite Hp.
    - now injection Hp as ->. }
  now rewrite (bind_Ok _ _ _ _ _ Hfetch), Hb.
Qed.

(** X17. A blank payload is not stored: after the cycle the control
    state, the contents, the account count and the firmware identifier
    are those of the cycle before, whatever the other steps do. *)
Theorem blank_payload_not_stored data d p :
  payload_of data d = Ok p -> blank R p = true ->
  let d' := run (sync R data) d in
  airconStat d' = airconStat d /\ contents d' = contents d
  /\ accounts d' = accounts d /\ firmware d' = firmware d.
Proof.
  intros Hp Hb d'.
  pose (f := fun d => (airconStat d, contents d, accounts d, firmware d)).
  assert (H : f d' = f d).
  { transitivity (f (snd (syncAirconStat R data d))).
    - apply (sync_rel R (same_on f) data d).
      + now apply syncCapabilities_frame.
      + now apply syncSettings_frame.
      + now apply syncAccount_frame.
      + intros e. now apply sync_catch_frame.
    - rewrite (syncAirconStat_blank data d p Hp Hb). cbn [snd].
      unfold fetched. now destruct (negb (truthy data)). }
  unfold f in H. now injection H as -> -> -> ->.
Qed.

Lemma has_remove_eq k o : Obj.has k (Obj.remove k o) = false.
Proof.
  unfold Obj.has. induction o as [|[k' v'] o IH]; [reflexivity|].
  cbn [Obj.remove]. destruct (String.eqb k k') eqn:E; [exact IH|].
  cbn [Obj.get]. now rewrite E.
Qed.

Lemma stays_stored_shape {A : Type} (m : M A) :
  stays (same_on (fun d => (accounts d, contents d))) m ->
  stays (keeps stored_shape) m.
Proof.
  intros H d. specialize (H d). unfold same_on in H.
  injection H as H1 H2. unfold keeps, stored_shape. now rewrite H1, H2.
Qed.

Lemma syncAirconStat_stored_shape data :
  stays (keeps stored_shape) (syncAirconStat R data).
Proof.
  frame ltac:(unfold keeps, stored_shape, transport; cbn;
              intros [Hn Hc]; split;
              [first [exact Hn|now destruct_all bool]
              |first [exact Hc
                     |intros c;
                      match goal with
                      | |- delete_prop _ ?p = _ -> _ =>
                          destruct p; cbn; try discriminate;
                          intros [= <-]; apply has_remove_eq
                      end]]).
Qed.

Lemma sync_stored_shape data : stays (keeps stored_shape) (sync R data).
Proof.
  apply sync_stays.
  - apply _.
  - apply syncAirconStat_stored_shape.
  - apply stays_stored_shape. now apply syncCapabilities_frame.
  - apply stays_stored_shape. now apply syncSettings_frame.
  - apply stays_stored_shape. now apply syncAccount_frame.
  - intros e. apply stays_stored_shape. now apply sync_catch_frame.
Qed.

(** X18. The shape of what is stored from a payload is kept by every
    cycle and every command, completed or not: the account count is a
    number or [null], and the contents, when they are an object, do not
    hold the control block, which [syncAirconStat] deletes before it
    stores them. *)
Theorem stored_shape_kept d :
  stored_shape d ->
  (forall data, stored_shape (run (sync R data) d))
  /\ (forall properties, stored_shape (run (updateDevice R properties) d)).
Proof.
  intros H. split.
  - intros data. now apply (sync_stored_shape data d).
  - intros properties. revert H.
    apply (updateDevice_rel R (keeps stored_shape)).
    + apply sync_stored_shape.
    + apply syncAirconStat_stored_shape.
    + apply stays_stored_shape. now apply assign_properties_frame.
    + intros d0 H0. exact H0.
    + intros l d0 H0. exact H0.
Qed.

End Stored.

(** ** The listeners that do not move a vane *)

Section PlainListeners.

Context (R : Runtime).

Lemma single_patch_sent k v d stat :
  In (SetAirconStat stat) (new_calls d (run (updateDevice R [(k, v)]) d)) ->
  field k stat = v
  /\ exists p, getAirconStat (client d) (calls d) = Ok p
               /\ forall k', k' <> k ->
                             field k' stat = field k' (merge_base R p d).
Proof.
  intros Hin. pose proof (updateDevice_sends R [(k, v)] d) as H.
  rewrite List.Forall_forall in H.
  destruct (H _ Hin stat eq_refl) as (d1 & d2 & E1 & E2 & ->).
  destruct (syncAirconStat_null_stat R d d1 E1) as (p & Hp & Hbase).
  apply assign_properties_Ok in E2 as [[[=] _]|(o & Ho & ->)].
  cbn [airconStat with_airconStat]. split.
  - apply field_set_eq.
  - exists p. split; [exact Hp|]. intros k' Hk'. rewrite <- Hbase, Ho.
    unfold merge. cbn [fold_left fst snd].
    apply field_set_ne. congruence.
Qed.

(** X19. With [queue] applying its patch through [updateDevice], as the
    dispatcher of the specification does, a state sent for a change of
    the fan speed, of on/off, of the operating mode or of the target
    temperature holds the value of the listener at its field and the
    [entrust] flag of the control state it was merged into: these
    listeners, unlike those of the vanes, leave the flag alone.  A state
    sent for a change of 3D AUTO holds the new value of the flag. *)
Theorem plain_listeners_keep_entrust v d stat :
  let keeps_entrust :=
    exists p, getAirconStat (client d) (calls d) = Ok p
              /\ field "entrust" stat
                 = field "entrust" (merge_base R p d) in
  (In (SetAirconStat stat) (new_calls d (run (onCapabilityFanSpeed R v) d))
   -> field "airFlow" stat = AirFlowNames R v /\ keeps_entrust)
  /\ (In (SetAirconStat stat) (new_calls d (run (onCapabilityOnOff R v) d))
      -> field "operation" stat = v /\ keeps_entrust)
  /\ (In (SetAirconStat stat)
         (new_calls d (run (onCapabilityOperatingMode R v) d))
      -> field "operationMode" stat = OperationModeNames R v
         /\ keeps_entrust)
  /\ (In (SetAirconStat stat)
         (new_calls d (run (onCapabilityTargetTemperature R v) d))
      -> field "presetTemp" stat = v /\ keeps_entrust)
  /\ (In (SetAirconStat stat) (new_calls d (run (onCapability3dAuto R v) d))
      -> field "entrust" stat = v).
Proof.
  cbn zeta.
  unfold onCapabilityFanSpeed, onCapabilityOnOff, onCapabilityOperatingMode,
    onCapabilityTargetTemperature, onCapability3dAuto, queue.
  split; [|split; [|split; [|split]]];
    intros Hin; apply single_patch_sent in Hin as (Hv & p & Hp & Hk);
    first [exact Hv
          |split; [exact Hv
                  |exists p; split; [exact Hp|apply Hk; discriminate]]].
Qed.

End PlainListeners.

(** ** A command on a device without a control state *)

Section EmptyState.

Context (R : Runtime).

(** X20. A blank answer to the fetch of a command does not stop the
    command.  On an available, registered device that holds no control
    state object (nothing synchronised yet, or after a payload without
    one), a patch with a first key [k] then fails on the assignment
    [this.airconStat[k] = v]: the command rejects with the localised
    message of that [TypeError], after the fetch and without a send. *)
Theorem command_without_control_state k v rest d p :
  available d = true -> registered d = true ->
  getAirconStat (client d) (calls d) = Ok p -> blank R p = true ->
  (forall o, airconStat d <> VObj o) ->
  let e := type_error_message R (AssignToPrimitive (airconStat d) k) in
  let d' := run (updateDevice R ((k, v) :: rest)) d in
  result (updateDevice R ((k, v) :: rest)) d = Throw (homey__ R e VUndef)
  /\ new_calls d d' = [GetAirconStat].
Proof.
  intros Ha Hr Hp Hb Hs e d'. unfold d', result, run.
  rewrite updateDevice_unfold, Ha, Hr. cbn [negb].
  rewrite (syncAirconStat_blank R VNull d p Hp Hb).
  assert (E : assign_properties R ((k, v) :: rest) (fetched VNull d)
              = (Throw e, fetched VNull d)).
  { cbn [assign_properties]. rewrite bind_gets.
    unfold fetched. cbn [truthy negb airconStat with_calls].
    unfold set_prop, e.
    destruct (airconStat d) as [| | | | |o]; try reflexivity.
    now destruct (Hs o). }
  rewrite E, update_catch_run. cbn [fst snd]. split; [reflexivity|].
  apply new_calls_app. reflexivity.
Qed.

End EmptyState.

(** * The life of the device *)

Lemma lbind_Ok {A B : Type} (m : L A) (k : A -> L B) s a s' :
  m s = (Ok a, s') -> lbind m k s = k a s'.
Proof. intros E. unfold lbind. now rewrite E. Qed.

Lemma lbind_Throw {A B : Type} (m : L A) (k : A -> L B) s e s' :
  m s = (Throw e, s') -> lbind m k s = (Throw e, s').
Proof. intros E. unfold lbind. now rewrite E. Qed.

Lemma lbind_lgets {A B : Type} (f : session -> A) (k : A -> L B) s :
  lbind (lgets f) k s = k (f s) s.
Proof. reflexivity. Qed.

Lemma set_dev_same s : set_dev (dev s) s = s.
Proof. now destruct s. Qed.

Lemma lbind_lift_gets {A B : Type} (f : device -> A) (k : A -> L B) s :
  lbind (lift (gets f)) k s = k (f (dev s)) s.
Proof. unfold lbind, lift, gets. cbn. now rewrite set_dev_same. Qed.

#[local] Instance preserves_preorder {S : Type} (P : S -> Prop) :
  PreOrder (preserves P).
Proof.
  split.
  - intros s Hs. exact Hs.
  - intros a b c Hab Hbc Ha. apply Hbc, Hab, Ha.
Qed.

#[local] Instance same_at_preorder {B : Type} (f : session -> B) :
  PreOrder (same_at f).
Proof.
  split.
  - intros s. reflexivity.
  - intros a b c Hab Hbc. unfold same_at in *. congruence.
Qed.

Section LStays.

Context {Rel : relation session} `{!PreOrder Rel}.

Lemma lstays_ret {A : Type} (a : A) : lstays Rel (lret a).
Proof. intros s. simpl. reflexivity. Qed.

Lemma lstays_throw {A : Type} e : lstays Rel (@lthrow A e).
Proof. intros s. simpl. reflexivity. Qed.

Lemma lstays_gets {A : Type} (f : session -> A) : lstays Rel (lgets f).
Proof. intros s. simpl. reflexivity. Qed.

Lemma lstays_ask {A : Type} (f : session -> outcome A) :
  lstays Rel (lask f).
Proof. intros s. simpl. reflexivity. Qed.

Lemma lstays_modify (f : session -> session) :
  (forall s, Rel s (f s)) -> lstays Rel (lmodify f).
Proof. intros Hf s. apply Hf. Qed.

Lemma lstays_lift {A : Type} (m : M A) :
  (forall d s, Rel s (set_dev d s)) -> lstays Rel (lift m).
Proof. intros Hd s. apply Hd. Qed.

Lemma lstays_bind {A B : Type} (m : L A) (k : A -> L B) :
  lstays Rel m -> (forall a, lstays Rel (k a)) -> lstays Rel (lbind m k).
Proof.
  intros Hm Hk s. unfold lbind. specialize (Hm s).
  destruct (m s) as [[a|e] s']; simpl in *.
  - etransitivity; [exact Hm|apply Hk].
  - exact Hm.
Qed.

End LStays.

(** One step through the structure of a method on a session; [leaf]
    settles the changes of the session, [device] those of the device. *)
Ltac life_step leaf device :=
  lazymatch goal with
  | |- lstays _ (lbind _ _) => apply lstays_bind; [|intros ?; cbv beta]
  | |- lstays _ (lret _) => apply lstays_ret
  | |- lstays _ (lthrow _) => apply lstays_throw
  | |- lstays _ (lgets _) => apply lstays_gets
  | |- lstays _ (lask _) => apply lstays_ask
  | |- lstays _ (lmodify _) => apply lstays_modify; intros ?; leaf
  | |- lstays _ (host _) => apply lstays_modify; intros ?; leaf
  | |- lstays _ (lift _) => device
  | |- lstays _ (if ?b then _ else _) => destruct b
  | |- lstays _ (match ?x with _ => _ end) => destruct x
  end.

(** ** The timer *)

Lemma outstanding_app l l' :
  outstanding (l ++ l') = (outstanding l + outstanding l')%Z.
Proof.
  induction l as [|[ms|h| |c] l IH]; cbn [app outstanding]; lia.
Qed.

Section Timer.

Context (R : Runtime) (H : Host).

Hypothesis handles : forall l, truthy (setInterval H l) = true.

Lemma startTimer_balanced seconds :
  lstays (preserves timer_balanced) (startTimer H seconds).
Proof.
  intros s Hb. unfold startTimer. rewrite lbind_lgets.
  destruct (truthy (timer s)) eqn:Ht; [exact Hb|].
  cbn. unfold timer_balanced in *. cbn.
  rewrite outstanding_app, Hb, Ht, handles. reflexivity.
Qed.

Lemma stopTimer_balanced : lstays (preserves timer_balanced) stopTimer.
Proof.
  intros s Hb. unfold stopTimer. rewrite lbind_lgets.
  destruct (truthy (timer s)) eqn:Ht; cbn [negb]; [|exact Hb].
  cbn. unfold timer_balanced in *. cbn.
  rewrite outstanding_app, Hb, Ht. reflexivity.
Qed.

Ltac balanced_leaf :=
  unfold preserves, timer_balanced; cbn;
  rewrite ?outstanding_app; cbn [outstanding];
  rewrite ?Z.add_0_r; auto.

Ltac balanced_step :=
  lazymatch goal with
  | |- lstays _ (startTimer _ _) => apply startTimer_balanced
  | |- lstays _ stopTimer => apply stopTimer_balanced
  | _ => life_step balanced_leaf ltac:(apply lstays_lift; intros ? ?;
                                       balanced_leaf)
  end.

Lemma handle_balanced e :
  lstays (preserves timer_balanced) (handle R H e).
Proof.
  destruct e; unfold handle, onInit, onUninit, onDeleted,
    onDiscoveryAvailable, onDiscoveryAddressChanged,
    onDiscoveryLastSeenChanged, cycle, command, deleteAccount,
    setRegisteredFrom, registerCapabilityListeners, setNetwork,
    client_deleteAccountInfo, getStoreValue;
    repeat balanced_step.
Qed.

(** X21. Whatever happens to the device, in whatever order (the
    lifecycle events, discovery, ticks, commands, account deletion),
    [this.timer] is set exactly when the host has been asked for one
    more interval than it has been asked to clear, and no interval is
    outstanding otherwise: the driver never has two intervals running,
    provided the handles of the host are truthy. *)
Theorem timer_stays_balanced events : forall s,
  timer_balanced s -> timer_balanced (play R H events s).
Proof.
  induction events as [|e rest IH]; intros s Hb; [exact Hb|].
  cbn [play]. apply IH. now apply (handle_balanced e s).
Qed.

End Timer.

(** ** Teardown, start and the registration *)

Lemma deletions_snoc s :
  deletions (set_host_calls (host_calls s ++ [DeleteAccountInfo]) s)
  = S (deletions s).
Proof.
  unfold deletions. cbn [host_calls set_host_calls].
  rewrite List.filter_app, length_app. cbn. lia.
Qed.

Section Teardown.

Context (R : Runtime) (H : Host).

Lemma lstays_lift_same {A B : Type} (Rel : relation session)
    (f : device -> B) (m : M A) :
  stays (same_on f) m ->
  (forall s d, f d = f (dev s) -> Rel s (set_dev d s)) ->
  lstays Rel (lift m).
Proof. intros Hm Hrel s. apply Hrel, Hm. Qed.

(** [deleteAccount(true)] on a registered device with a client. *)
Lemma deleteAccount_uninit s :
  registered (dev s) = true -> connected s = true ->
  deleteAccount true s
  = (deleteAccountInfo s (calls (dev s)),
     set_host_calls (host_calls s ++ [DeleteAccountInfo]) s).
Proof.
  intros Hr Hc. unfold deleteAccount. rewrite !lbind_lgets, Hr, Hc.
  cbn [negb orb]. unfold client_deleteAccountInfo, host, lask, lbind,
    lmodify. cbn.
  now destruct (deleteAccountInfo s (calls (dev s))) as [[]|e].
Qed.

Lemma onUninit_registration s :
  registered (dev s) = true -> connected s = true ->
  let s1 := after onUninit s in
  registered (dev s1) = true /\ store (dev s1) = store (dev s)
  /\ deletions s1 = S (deletions s).
Proof.
  intros Hr Hc. cbn zeta. unfold after, onUninit.
  pose proof (deleteAccount_uninit s Hr Hc) as E.
  destruct (deleteAccountInfo s (calls (dev s))) as [[]|e].
  - rewrite (lbind_Ok _ _ _ _ _ E).
    split; [exact Hr|]. split; [reflexivity|]. apply deletions_snoc.
  - rewrite (lbind_Throw _ _ _ _ _ E). cbn [snd].
    split; [exact Hr|]. split; [reflexivity|]. apply deletions_snoc.
Qed.

(** [onInit] takes the registration from the store and leaves the store
    as it is when it holds a flag. *)
Lemma onInit_registration s v :
  store (dev s) !! "registered" = Some v ->
  let s' := after (onInit R H) s in
  registered (dev s') = truthy v /\ store (dev s') = store (dev s).
Proof.
  intros Hv. cbn zeta.
  unfold after, onInit, setRegisteredFrom, getStoreValue,
    registerCapabilityListeners, host, lbind, lift, lgets, lmodify,
    setUnavailable, setStoreValue, modify.
  cbn. rewrite Hv. cbn. split; [reflexivity|now apply insert_id].
Qed.

(** X22. [onUninit] tells the unit to forget the account and leaves the
    stored registration as it is.  So a registered device whose store
    holds the flag is registered again after [onUninit] and [onInit],
    and no cycle after that sends the account to the unit, although the
    unit has been told to forget it. *)
Theorem restart_keeps_registration s :
  registered (dev s) = true -> connected s = true ->
  store (dev s) !! "registered" = Some (VBool true) ->
  let s1 := after onUninit s in
  let s2 := after (onInit R H) s1 in
  deletions s1 = S (deletions s)
  /\ registered (dev s2) = true
  /\ store (dev s2) = store (dev s)
  /\ forall data, registrations (dev s2) (run (sync R data) (dev s2)) = 0.
Proof.
  intros Hr Hc Hs s1 s2.
  destruct (onUninit_registration s Hr Hc) as (H1 & H2 & H3).
  fold s1 in H1, H2, H3.
  destruct (onInit_registration s1 (VBool true)) as [H4 H5];
    [now rewrite H2|].
  fold s2 in H4, H5. cbn [truthy] in H4.
  split; [exact H3|]. split; [exact H4|]. split; [congruence|].
  intros data. apply registrations_none.
  now destruct (sync_settled R data (dev s2) H4) as (_ & _ & Hl).
Qed.

End Teardown.

(** ** Account deletion *)

Section Deletion.

Context (R : Runtime) (H : Host).

(** X23. [deleteAccount] and the registration.  It keeps the stored flag
    in agreement with the flag of the driver.  It unregisters the device
    only when it is called without [uninit] on a registered device with
    a client and the unit answers; in every other case, a failed
    deletion among them, the device is as registered as before.  The
    unit is told to forget the account at most once, and only by a
    registered device with a client. *)
Theorem deleteAccount_registration uninit s :
  registration_stored (dev s) ->
  let s' := after (deleteAccount uninit) s in
  registration_stored (dev s')
  /\ (registered (dev s') = registered (dev s)
      \/ uninit = false /\ registered (dev s) = true
         /\ deleteAccountInfo s (calls (dev s)) = Ok tt
         /\ registered (dev s') = false)
  /\ (deletions s' = deletions s
      \/ registered (dev s) = true /\ connected s = true
         /\ deletions s' = S (deletions s)).
Proof.
  intros Hs. cbn zeta. unfold after, deleteAccount.
  rewrite !lbind_lgets.
  destruct (registered (dev s)) eqn:Hr; cbn [negb orb];
    [|cbn; split; [exact Hs|split; now left]].
  destruct (connected s) eqn:Hc; cbn [negb];
    [|cbn; split; [exact Hs|split; now left]].
  unfold client_deleteAccountInfo, host, lask, lbind, lmodify. cbn.
  destruct (deleteAccountInfo s (calls (dev s))) as [[]|e] eqn:E.
  - destruct uninit; cbn.
    + split; [exact Hs|]. split; [now left|]. right.
      repeat split. apply deletions_snoc.
    + split; [apply lookup_insert_eq|]. split.
      * right. now repeat split.
      * right. repeat split. apply deletions_snoc.
  - cbn. split; [exact Hs|]. split; [now left|]. right.
    repeat split. apply deletions_snoc.
Qed.

End Deletion.

(** ** The network settings *)

Section Network.

Context (R : Runtime) (H : Host).

Lemma stays_network_settings {A : Type} (m : M A) :
  stays (same_on (fun d => settings d !! "ip_address")) m ->
  stays (same_on (fun d => settings d !! "port")) m ->
  stays (same_on network_settings) m.
Proof.
  intros H1 H2 d. unfold same_on, network_settings.
  now rewrite (H1 d), (H2 d).
Qed.

Lemma not_setting_key key :
  key = "ip_address" \/ key = "port" -> ~ In key setting_keys.
Proof.
  intros [-> | ->] Hin; cbn in Hin;
    repeat (destruct Hin as [Hin|Hin]; [discriminate|]); exact Hin.
Qed.

Lemma sync_network data : stays (same_on network_settings) (sync R data).
Proof.
  apply stays_network_settings; apply sync_other_setting;
    apply not_setting_key; auto.
Qed.

Lemma updateDevice_other_setting key properties :
  ~ In key setting_keys ->
  stays (same_on (fun d => settings d !! key)) (updateDevice R properties).
Proof.
  intros Hkey d.
  apply (updateDevice_rel R (same_on (fun d => settings d !! key))).
  - intros data. now apply sync_other_setting.
  - now apply syncAirconStat_frame.
  - now apply assign_properties_frame.
  - reflexivity.
  - reflexivity.
Qed.

Lemma updateDevice_network properties :
  stays (same_on network_settings) (updateDevice R properties).
Proof.
  apply stays_network_settings; apply updateDevice_other_setting;
    apply not_setting_key; auto.
Qed.

Lemma network_stored_set_dev s d :
  network_settings d = network_settings (dev s) ->
  preserves (network_stored R) s (set_dev d s).
Proof.
  unfold network_settings, preserves, network_stored. cbn.
  intros [= -> ->] Hs. exact Hs.
Qed.

(** [setNetwork(info)] when it completes. *)
Lemma setNetwork_run info s :
  nullish info = false -> connected s = true ->
  exists m,
    setNetwork R info s
    = (Ok tt, set_dev (with_settings m (dev s))
                (set_network (field "address" info) (field "port" info) s))
    /\ m !! "ip_address"
       = Some (VStr (String_ R (field "address" info)))
    /\ m !! "port" = Some (VStr (String_ R (field "port" info))).
Proof.
  intros Hn Hc. eexists. split.
  - unfold setNetwork, get_prop. rewrite Hn.
    unfold lbind, lift, lgets, lmodify, ret, setSettings, modify. cbn.
    rewrite Hc. cbn. reflexivity.
  - split.
    + rewrite lookup_insert_ne by discriminate. apply lookup_insert_eq.
    + apply lookup_insert_eq.
Qed.

(** [setNetwork] stores what it sets, or throws before it sets. *)
Lemma setNetwork_network info :
  lstays (preserves (network_stored R)) (setNetwork R info).
Proof.
  intros s Hs. destruct (nullish info) eqn:Hn.
  - unfold setNetwork, get_prop. rewrite Hn. exact Hs.
  - destruct (connected s) eqn:Hc.
    + destruct (setNetwork_run info s Hn Hc) as (m & -> & H1 & H2).
      split; cbn; assumption.
    + unfold setNetwork, get_prop. rewrite Hn.
      unfold lbind, lift, lgets, ret. cbn. rewrite Hc. exact Hs.
Qed.

Ltac network_device :=
  apply (lstays_lift_same _ network_settings);
  [first [apply sync_network|apply updateDevice_network
         |unfold updateDevice_without_client; frame unread]
  |intros ? ?; apply network_stored_set_dev].

Ltac network_step :=
  lazymatch goal with
  | |- lstays _ (setNetwork _ _) => apply setNetwork_network
  | _ => life_step ltac:(unfold preserves, network_stored; cbn; auto)
                   network_device
  end.

Lemma handle_network e :
  e <> Init -> lstays (preserves (network_stored R)) (handle R H e).
Proof.
  intros He.
  destruct e; [congruence|..];
    unfold handle, onUninit, onDeleted, onDiscoveryAvailable,
      onDiscoveryAddressChanged, onDiscoveryLastSeenChanged, cycle,
      command, deleteAccount, setRegisteredFrom, startTimer, stopTimer,
      client_deleteAccountInfo, getStoreValue;
    repeat network_step.
Qed.

(** X24. The discovery handlers name the network in the settings.  On a
    device with a client and for a result that is not [null] or
    [undefined], after [onDiscoveryAddressChanged(result)], and after
    [onDiscoveryAvailable(result)] on a device that was unavailable, the
    client has the address and the port of the result and the settings
    [ip_address] and [port] are their strings, also at the end of the
    cycle that [onDiscoveryAvailable] runs. *)
Theorem discovery_names_network result s :
  nullish result = false -> connected s = true ->
  named_by R result (after (onDiscoveryAddressChanged R result) s)
  /\ (available (dev s) = false ->
      named_by R result (after (onDiscoveryAvailable R H result) s)).
Proof.
  intros Hn Hc.
  destruct (setNetwork_run result s Hn Hc) as (m & E & H1 & H2).
  split.
  - unfold after, onDiscoveryAddressChanged. rewrite E.
    repeat split; cbn; assumption.
  - intros Ha. unfold after, onDiscoveryAvailable.
    unfold getAvailable. rewrite lbind_lift_gets, Ha.
    rewrite (lbind_Ok _ _ _ _ _ E).
    set (s1 := set_dev _ _).
    assert (Hs1 : named_by R result s1).
    { subst s1. repeat split; cbn; assumption. }
    assert (Hrest : lstays (same_at (fun s => (address s, port s,
                                               network_settings (dev s))))
                      (lift setAvailable ;; startTimer H 60 ;; cycle R)%life).
    { unfold startTimer, cycle.
      repeat life_step
        ltac:(reflexivity)
        ltac:(apply (lstays_lift_same _ network_settings);
              [first [apply sync_network|frame unread]
              |intros ? ? Ed; unfold same_at; cbn; now rewrite Ed]). }
    specialize (Hrest s1). unfold same_at, network_settings in Hrest.
    destruct Hs1 as (Ha1 & Hp1 & Hs1 & Hs2).
    injection Hrest as E1 E2 E3 E4.
    repeat split; unfold network_stored; congruence.
Qed.

(** X25. Once the settings [ip_address] and [port] name the address and
    the port of the client, they do so after every event other than
    [onInit]: discovery sets both together, and no cycle, command,
    teardown or timer method touches either. *)
Theorem network_stays_stored events : forall s,
  Forall (fun e => e <> Init) events ->
  network_stored R s -> network_stored R (play R H events s).
Proof.
  induction events as [|e rest IH]; intros s Hev Hs; [exact Hs|].
  apply List.Forall_cons_iff in Hev as [He Hrest].
  cbn [play]. apply IH; [exact Hrest|].
  now apply (handle_network e He s).
Qed.

End Network.

(** ** After the teardown *)

Section AfterTeardown.

Context (R : Runtime).

Lemma deleteAccount_uninit_frame :
  lstays (same_at (fun s => (connected s, timer s, dev s,
                             outstanding (host_calls s))))
    (deleteAccount true).
Proof.
  unfold deleteAccount, client_deleteAccountInfo. cbn [negb].
  repeat life_step
    ltac:(unfold same_at; cbn; rewrite ?outstanding_app; cbn;
          rewrite ?Z.add_0_r; reflexivity)
    idtac.
Qed.

Lemma onUninit_Ok s :
  fst (onUninit s) = Ok tt ->
  let s1 := after onUninit s in
  connected s1 = false /\ timer s1 = timer s
  /\ outstanding (host_calls s1) = outstanding (host_calls s)
  /\ calls (dev s1) = calls (dev s).
Proof.
  cbn zeta. unfold after, onUninit.
  pose proof (deleteAccount_uninit_frame s) as Hf.
  destruct (deleteAccount true s) as [[[]|e] s0] eqn:E.
  - rewrite (lbind_Ok _ _ _ _ _ E). intros _. cbn.
    unfold same_at in Hf. cbn in Hf. injection Hf as _ -> -> ->.
    now repeat split.
  - rewrite (lbind_Throw _ _ _ _ _ E). discriminate.
Qed.

Lemma cycle_without_client s :
  connected s = false ->
  let e := type_error_message R (ReadOfNullish VNull "getAirconStat") in
  dev (after (cycle R) s)
  = with_availability false (Some (homey__ R e VUndef))
      (with_errors (errors (dev s) ++ [("Sync error: " ++ e)%string])
         (dev s)).
Proof.
  intros Hc. cbn zeta. unfold after, cycle. rewrite lbind_lgets, Hc.
  unfold lift. cbn [snd dev set_dev]. now rewrite sync_catch_run.
Qed.

Lemma command_without_client properties s :
  connected s = false ->
  calls (dev (after (command R properties) s)) = calls (dev s).
Proof.
  intros Hc. unfold after, command. rewrite lbind_lgets, Hc.
  unfold lift. cbn [snd dev set_dev].
  assert (Hm : stays (same_on calls) (updateDevice_without_client R)).
  { unfold updateDevice_without_client. frame unread. }
  apply Hm.
Qed.

(** X26. [onUninit] does not stop the timer.  When it completes, the
    device has no client, [this.timer] and the intervals of the host are
    as they were, and a tick of the timer after it makes no call on the
    transport: it marks the device unavailable with the localised
    message of the [TypeError] on [this.client.getAirconStat].  A
    command after it makes no call either. *)
Theorem after_teardown properties s :
  fst (onUninit s) = Ok tt ->
  let s1 := after onUninit s in
  let e := type_error_message R (ReadOfNullish VNull "getAirconStat") in
  (connected s1 = false /\ timer s1 = timer s
   /\ outstanding (host_calls s1) = outstanding (host_calls s))
  /\ (let s2 := after (cycle R) s1 in
      calls (dev s2) = calls (dev s) /\ available (dev s2) = false
      /\ unavailableMessage (dev s2) = Some (homey__ R e VUndef))
  /\ calls (dev (after (command R properties) s1)) = calls (dev s).
Proof.
  intros Hok s1 e.
  destruct (onUninit_Ok s Hok) as (H1 & H2 & H3 & H4). fold s1 in H1, H2, H3, H4.
  split; [now repeat split|]. split.
  - cbn zeta. rewrite (cycle_without_client s1 H1). cbn.
    repeat split. exact H4.
  - now rewrite (command_without_client properties s1 H1).
Qed.

End AfterTeardown.

(** * The further properties on closed examples *)

(** A fetched report sets the fan speed from code 2 and, the control
    block having no [entrust], keeps what 3D AUTO held. *)
Lemma present_fields_mapped_witness :
  let d' := run (sync Fixture.runtime VNull) Examples.settled in
  capabilityValues d' !! "fan_speed" = Some (VStr "low")
  /\ capabilityValues d' !! "3d_auto" = None.
Proof.
  pose proof (present_fields_mapped Fixture.runtime VNull Examples.settled
                Cases.report
                [("operation", VBool true); ("airFlow", num 2)]
                eq_refl eq_refl eq_refl) as H.
  split.
  - rewrite (H "airFlow" "fan_speed" "fan_speed"
               (AirFlow Fixture.runtime)).
    + vm_compute. reflexivity.
    + cbn. tauto.
  - rewrite (H "entrust" "3d_auto" "3d_auto" same).
    + vm_compute. reflexivity.
    + cbn. tauto.
Defined.

(** A capability that is not one of the nine, through a cycle. *)
Lemma other_capabilities_untouched_witness :
  capabilityValues
    (run (sync Fixture.runtime VNull)
       (with_capabilityValues (<["measure_power" := num 40]> ∅)
          Examples.unregistered)) !! "measure_power"
  = Some (num 40).
Proof.
  rewrite (other_capabilities_untouched Fixture.runtime VNull
             (with_capabilityValues (<["measure_power" := num 40]> ∅)
                Examples.unregistered) "measure_power").
  - vm_compute. reflexivity.
  - cbn. intros H. repeat (destruct H as [H|H]; [discriminate|]).
    exact H.
Defined.

(** The address setting through a cycle and through a command. *)
Lemma other_settings_untouched_witness :
  let d := with_settings (<["ip_address" := VStr "10.0.0.7"]> ∅)
             Examples.at_home in
  settings (run (sync Fixture.runtime VNull) d) !! "ip_address"
  = Some (VStr "10.0.0.7")
  /\ settings (run (updateDevice Fixture.runtime [("presetTemp", num 24)]) d)
     !! "ip_address"
     = Some (VStr "10.0.0.7").
Proof.
  cbv zeta.
  destruct (other_settings_untouched Fixture.runtime "ip_address")
    as [H1 H2].
  - cbn. intros H. repeat (destruct H as [H|H]; [discriminate|]).
    exact H.
  - rewrite H1, H2. vm_compute. split; reflexivity.
Defined.

(** The four settings a fetched report stores. *)
Lemma present_settings_stored_witness :
  let d' := run (sync Fixture.runtime VNull) Examples.unregistered in
  settings d' !! "accounts" = Some (VStr "1")
  /\ settings d' !! "firmware_type" = Some (VStr "WF-RAC")
  /\ settings d' !! "wifi_firmware" = Some (VStr "010")
  /\ settings d' !! "mcu_firmware" = Some (VStr "123").
Proof.
  destruct (present_settings_stored Fixture.runtime VNull
              Examples.unregistered Cases.report eq_refl eq_refl)
    as (H1 & H2 & H3 & H4).
  - intros [|kv o'] H; [now destruct H|reflexivity].
  - vm_compute. reflexivity.
  - cbv zeta. split; [|split; [|split]].
    + now apply (H1 (num 1)).
    + now apply (H2 (VStr "WF-RAC")).
    + now apply H3.
    + now apply H4.
Defined.

(** A control block that is a number. *)
Lemma primitive_control_block_aborts_witness :
  run (sync Fixture.runtime (VObj Cases.garbled)) Examples.settled
  = with_availability false
      (Some "Cannot use 'in' operator to search for 'entrust' in 7")
      (with_errors
         ["Sync error: Cannot use 'in' operator to search for 'entrust' in 7"]
         (loaded Fixture.runtime Cases.garbled Examples.settled)).
Proof.
  apply (primitive_control_block_aborts Fixture.runtime
           (VObj Cases.garbled) Examples.settled Cases.garbled
           eq_refl eq_refl eq_refl).
  intros s. discriminate.
Defined.

(** A fetch that is not answered. *)
Lemma fetch_failure_keeps_state_witness :
  run (sync Fixture.runtime VNull) Cases.unreachable
  = with_availability false (Some "timeout")
      (with_errors ["Sync error: timeout"]
         (with_calls [GetAirconStat] Cases.unreachable)).
Proof.
  exact (fetch_failure_keeps_state Fixture.runtime VNull Cases.unreachable
           "timeout" eq_refl).
Defined.

(** A completed cycle on a device that was waiting, with a report and
    with an empty answer. *)
Lemma completed_cycle_availability_witness :
  available
    (run (sync Fixture.runtime (VObj Cases.report))
       (with_availability false (Some "status.wait")
          Examples.registered_device)) = true
  /\ available
       (run (sync Fixture.runtime VNull)
          (with_availability false (Some "status.wait") Cases.silent))
     = false.
Proof.
  split.
  - apply (completed_cycle_availability Fixture.runtime
             (VObj Cases.report)
             (with_availability false (Some "status.wait")
                Examples.registered_device)
             (VObj Cases.report) eq_refl).
    vm_compute. reflexivity.
  - apply (completed_cycle_availability Fixture.runtime VNull
             (with_availability false (Some "status.wait") Cases.silent)
             (VObj []) eq_refl).
    vm_compute. reflexivity.
Defined.

(** The stored flag after a cycle that registers and after a command. *)
Lemma registration_stored_kept_witness :
  let d := with_store (<["registered" := VBool false]> ∅)
             Examples.unregistered in
  registration_stored (run (sync Fixture.runtime VNull) d)
  /\ registration_stored
       (run (updateDevice Fixture.runtime [("presetTemp", num 24)]) d).
Proof.
  cbv zeta.
  destruct (registration_stored_kept Fixture.runtime
              (with_store (<["registered" := VBool false]> ∅)
                 Examples.unregistered)) as [H1 H2].
  - vm_compute. reflexivity.
  - split; [apply H1|apply H2].
Defined.

(** A cycle on a registered device. *)
Lemma registered_device_stays_witness :
  let d' := run (sync Fixture.runtime VNull) Cases.stored in
  registered d' = true /\ store d' = store Cases.stored
  /\ registrations Cases.stored d' = 0.
Proof.
  exact (registered_device_stays Fixture.runtime VNull Cases.stored eq_refl).
Defined.

(** A send that is not answered. *)
Lemma rejected_command_witness :
  let d' := run (updateDevice Fixture.runtime [("presetTemp", num 24)])
              Examples.deaf in
  exists e, "timeout" = homey__ Fixture.runtime e VUndef
            /\ last (errors d') = Some ("Update error: " ++ e)%string
            /\ available d' = true.
Proof.
  apply (rejected_command Fixture.runtime [("presetTemp", num 24)]
           Examples.deaf "timeout").
  vm_compute. reflexivity.
Defined.

(** A patch of two keys on the state the unit reports. *)
Lemma sent_state_patched_witness :
  let patch := [("presetTemp", num 24); ("operation", VBool false)] in
  let stat :=
    VObj [("operation", VBool false); ("presetTemp", num 24);
          ("entrust", VBool true); ("windDirectionLR", num 1);
          ("windDirectionUD", num 1)] in
  field "presetTemp" stat = num 24
  /\ field "operation" stat = VBool false
  /\ field "entrust" stat = VBool true.
Proof.
  cbv zeta.
  destruct (sent_state_patched Fixture.runtime
              [("presetTemp", num 24); ("operation", VBool false)]
              Examples.at_home
              (VObj [("operation", VBool false); ("presetTemp", num 24);
                     ("entrust", VBool true); ("windDirectionLR", num 1);
                     ("windDirectionUD", num 1)]))
    as (p & Hp & Hin & Hout).
  - repeat constructor; cbn; intuition discriminate.
  - vm_compute. right. left. reflexivity.
  - split; [|split].
    + apply Hin. now left.
    + apply Hin. right. now left.
    + rewrite (Hout "entrust").
      * vm_compute in Hp. injection Hp as <-. reflexivity.
      * cbn. intuition discriminate.
Defined.

(** A report without an account count. *)
Lemma unset_account_count_witness :
  let d' := run (sync Fixture.runtime (VObj Cases.countless))
              Examples.unregistered in
  last (errors d') = Some "[Sync] [Account] Number of accounts not set"
  /\ registered d' = false /\ available d' = true /\ warning d' = None
  /\ registrations Examples.unregistered d' = 0.
Proof.
  cbv zeta.
  destruct (unset_account_count Fixture.runtime (VObj Cases.countless)
              Examples.unregistered Cases.countless
              (run (before_account Fixture.runtime (VObj Cases.countless))
                 Examples.unregistered)
              eq_refl eq_refl eq_refl) as [H1 H2].
  - vm_compute. reflexivity.
  - reflexivity.
  - rewrite H1 at 1 2 3 4. split; [|split; [|split; [|split]]];
      [vm_compute; reflexivity..|exact H2].
Defined.

(** The warnings a cycle with five accounts and another firmware can
    leave on an unregistered device. *)
Lemma cycle_warnings_witness :
  let d := Examples.unregistered in
  let d' := run (sync Fixture.runtime (VObj Cases.crowded)) d in
  warning d' = warning d \/ warning d' = None
  \/ warning d' = Some "warning.firmware:WF-RAC-2"
  \/ warning d' = Some "warning.accounts".
Proof.
  exact (cycle_warnings Fixture.runtime (VObj Cases.crowded)
           Examples.unregistered Cases.crowded eq_refl eq_refl).
Defined.

(** A unit that accepts the account and one that refuses it. *)
Lemma registration_outcome_witness :
  let accepted := run (sync Fixture.runtime VNull) Examples.unregistered in
  let turned_down := run (sync Fixture.runtime VNull) Cases.refused in
  (registered accepted = true
   /\ store accepted !! "registered" = Some (VBool true)
   /\ warning accepted = None /\ available accepted = true)
  /\ (registered turned_down = false
      /\ store turned_down = store Cases.refused
      /\ available turned_down = false
      /\ unavailableMessage turned_down = Some "refused").
Proof.
  cbv zeta. split.
  - apply (registration_outcome Fixture.runtime VNull Examples.unregistered
             Cases.report eq_refl eq_refl eq_refl).
    + vm_compute. reflexivity.
    + reflexivity.
    + reflexivity.
  - apply (registration_outcome Fixture.runtime VNull Cases.refused
             Cases.report eq_refl eq_refl eq_refl).
    + vm_compute. reflexivity.
    + reflexivity.
    + reflexivity.
Defined.

(** An empty answer to the fetch of a cycle. *)
Lemma blank_payload_not_stored_witness :
  let d' := run (sync Fixture.runtime VNull) Cases.silent in
  airconStat d' = Examples.cooling /\ contents d' = VUndef
  /\ accounts d' = VNull /\ firmware d' = VNull.
Proof.
  exact (blank_payload_not_stored Fixture.runtime VNull Cases.silent
           (VObj []) eq_refl eq_refl).
Defined.

(** The shape of what a fresh device holds, through a cycle and a
    command. *)
Lemma stored_shape_kept_witness :
  stored_shape (run (sync Fixture.runtime VNull) Examples.unregistered)
  /\ stored_shape
       (run (updateDevice Fixture.runtime [("presetTemp", num 24)])
          Examples.at_home).
Proof.
  assert (H : forall r c, stored_shape (Fixture.fresh r c)).
  { intros r c. split; [reflexivity|discriminate]. }
  destruct (stored_shape_kept Fixture.runtime Examples.unregistered
              (H _ _)) as [H1 _].
  destruct (stored_shape_kept Fixture.runtime Examples.at_home (H _ _))
    as [_ H2].
  split; [apply H1|apply H2].
Defined.

(** A device that is initialised, discovered, polled, commanded, deleted
    and discovered again. *)
Lemma timer_stays_balanced_witness :
  timer_balanced
    (play Fixture.runtime Cases.home
       [Init; DiscoveryAvailable Cases.found; Tick;
        Command [("presetTemp", num 24)]; DiscoveryAvailable Cases.found;
        Deleted; Uninit; Init; DiscoveryAvailable Cases.found]
       Cases.installed).
Proof.
  apply (timer_stays_balanced Fixture.runtime Cases.home
           (fun l => eq_refl)).
  reflexivity.
Defined.

(** A registered device through a teardown and a start. *)
Lemma restart_keeps_registration_witness :
  let s1 := after onUninit Cases.installed in
  let s2 := after (onInit Fixture.runtime Cases.home) s1 in
  deletions s1 = S (deletions Cases.installed)
  /\ registered (dev s2) = true
  /\ store (dev s2) = store (dev Cases.installed)
  /\ forall data,
       registrations (dev s2) (run (sync Fixture.runtime data) (dev s2)) = 0.
Proof.
  apply (restart_keeps_registration Fixture.runtime Cases.home
           Cases.installed eq_refl eq_refl).
  vm_compute. reflexivity.
Defined.

(** An account deletion that the unit answers. *)
Lemma deleteAccount_registration_witness :
  let s' := after (deleteAccount false) Cases.installed in
  registration_stored (dev s')
  /\ registered (dev s') = false
  /\ deletions s' = 1.
Proof.
  cbv zeta.
  destruct (deleteAccount_registration false Cases.installed)
    as (H1 & _ & _).
  - vm_compute. reflexivity.
  - split; [exact H1|]. vm_compute. split; reflexivity.
Defined.

(** A changed address, and the discovery of a waiting device. *)
Lemma discovery_names_network_witness :
  named_by Fixture.runtime Cases.found
    (after (onDiscoveryAddressChanged Fixture.runtime Cases.found)
       Cases.installed)
  /\ named_by Fixture.runtime Cases.found
       (after (onDiscoveryAvailable Fixture.runtime Cases.home Cases.found)
          Cases.waiting).
Proof.
  destruct (discovery_names_network Fixture.runtime Cases.home Cases.found
              Cases.installed eq_refl eq_refl) as [H1 _].
  destruct (discovery_names_network Fixture.runtime Cases.home Cases.found
              Cases.waiting eq_refl eq_refl) as [_ H2].
  split; [exact H1|]. apply H2. reflexivity.
Defined.

(** The network settings of a discovered device through a heartbeat, a
    tick, a command and a teardown. *)
Lemma network_stays_stored_witness :
  network_stored Fixture.runtime
    (play Fixture.runtime Cases.home
       [DiscoveryLastSeenChanged Cases.found; Tick;
        Command [("presetTemp", num 24)]; Uninit]
       (after (onDiscoveryAddressChanged Fixture.runtime Cases.found)
          Cases.installed)).
Proof.
  apply (network_stays_stored Fixture.runtime Cases.home).
  - repeat constructor; discriminate.
  - vm_compute. split; reflexivity.
Defined.

(** A tick and a command after the teardown of a device in use. *)
Lemma after_teardown_witness :
  let s1 := after onUninit Cases.installed in
  let e := "Cannot read properties of null (reading 'getAirconStat')" in
  (connected s1 = false /\ timer s1 = timer Cases.installed
   /\ outstanding (host_calls s1)
      = outstanding (host_calls Cases.installed))
  /\ (let s2 := after (cycle Fixture.runtime) s1 in
      calls (dev s2) = calls (dev Cases.installed)
      /\ available (dev s2) = false
      /\ unavailableMessage (dev s2) = Some e)
  /\ calls (dev (after (command Fixture.runtime [("presetTemp", num 24)])
                   s1))
     = calls (dev Cases.installed).
Proof.
  exact (after_teardown Fixture.runtime [("presetTemp", num 24)]
           Cases.installed eq_refl).
Defined.

(** A first command on a device whose unit answers the fetch with an
    empty object. *)
Lemma command_without_control_state_witness :
  let d := Fixture.fresh true
             (Fixture.unit_of (VObj []) (fun _ => Ok VNull) (Ok tt)) in
  result (updateDevice Fixture.runtime [("presetTemp", num 24)]) d
  = Throw
      (type_error_message Fixture.runtime
         (AssignToPrimitive VUndef "presetTemp"))
  /\ new_calls d (run (updateDevice Fixture.runtime [("presetTemp", num 24)])
                    d)
     = [GetAirconStat].
Proof.
  apply (command_without_control_state Fixture.runtime "presetTemp"
           (num 24) []
           (Fixture.fresh true
              (Fixture.unit_of (VObj []) (fun _ => Ok VNull) (Ok tt)))
           (VObj []) eq_refl eq_refl eq_refl eq_refl).
  intros o. discriminate.
Defined.
